(** * mnist_gan: a Wasserstein GAN on MNIST digits (src/mnist_gan.py)

    A shallow embedding of the TensorFlow-1 program.  The program builds a
    graph (variables and symbolic tensors) and then evaluates nodes of that
    graph in a session whose state is the current value of every variable.

    - A symbolic tensor is embedded as the function that evaluates it
      ([node]): it takes the session's variable store and the values fed for
      the placeholders, and returns a value.
    - A [tf.Variable] is a numbered cell of the store; layer objects hold the
      numbers of the cells they created, so a cell changed by one operation
      is seen changed by every reader of that cell.
    - The store gives a value to every cell: the program runs
      [tf.global_variables_initializer()] before any other operation of a
      session, so no operation reads a cell that has no value.
    - A number is a [float32]: NaN, one of the two infinities, or a finite
      value.  Finite values are read as real numbers and computed with
      exactly: rounding and overflow are not modelled, NaN and the infinities
      are, with the rules of IEEE 754 arithmetic.
    - The kernels of the numerical engine that the program only calls
      (convolution, image resizing, random draws, the data set, automatic
      differentiation and the Adam update rule) are the fields of the class
      [Engine]; every theorem holds for every engine.  Errors raised on
      tensors of the wrong size (by a kernel, by [reshape]) are not modelled.
    - Control effects are modelled: [sys.exit()] and a checkpoint that cannot
      be restored raise, and the [while True] loop is cut after a given
      number of passes with the result [Running].
    - The files are modelled by path: [saver.save] writes the four files of a
      checkpoint and [read_data_sets] downloads the archives of the data set
      that are absent.  Failures of the network and of the disk are not
      modelled.
    - The accumulators of an [AdamOptimizer] are variables of the session in
      TensorFlow; they are kept in a component of their own ([w_slots]), so
      that [w_vars] holds the variables the program declares itself.
    - [GAN(noise_size)] is modelled for [noise_size > 0]; with [0] the source
      raises [ZeroDivisionError] at line 202, and the commands only use the
      default, 100. *)

From Stdlib Require Import String List Permutation Arith Bool Lia Reals Lra.
Import ListNotations.

Set Implicit Arguments.

(** ** Numbers *)

Inductive float32 : Type :=
| Num (r : R)
| PosInf
| NegInf
| NaN.

(** [a < b]; a comparison with NaN is false. *)
Definition f32_lt (a b : float32) : bool :=
  match a, b with
  | Num x, Num y => if Rlt_dec x y then true else false
  | NegInf, Num _ | NegInf, PosInf | Num _, PosInf => true
  | _, _ => false
  end.

(** The kernels of [tf.maximum] and [tf.minimum]: [x < y ? y : x] and
    [y < x ? y : x].  A NaN first argument is returned as it is. *)
Definition f32_max (x y : float32) : float32 := if f32_lt x y then y else x.

Definition f32_min (x y : float32) : float32 := if f32_lt y x then y else x.

Definition f32_neg (a : float32) : float32 :=
  match a with
  | Num x => Num (- x)
  | PosInf => NegInf
  | NegInf => PosInf
  | NaN => NaN
  end.

Definition f32_add (a b : float32) : float32 :=
  match a, b with
  | NaN, _ | _, NaN => NaN
  | Num x, Num y => Num (x + y)
  | PosInf, NegInf | NegInf, PosInf => NaN
  | PosInf, _ | _, PosInf => PosInf
  | NegInf, _ | _, NegInf => NegInf
  end.

Definition f32_sub (a b : float32) : float32 := f32_add a (f32_neg b).

(** The sign of a number: [Some true] when positive, [Some false] when
    negative, [None] for zero and NaN. *)
Definition f32_sign (a : float32) : option bool :=
  match a with
  | Num x => if Rlt_dec 0 x then Some true else if Rlt_dec x 0 then Some false else None
  | PosInf => Some true
  | NegInf => Some false
  | NaN => None
  end.

Definition f32_inf (positive : bool) : float32 := if positive then PosInf else NegInf.

(** Zero has no sign: zero times an infinity and zero over zero are NaN, and
    a number that is not zero over zero is the infinity of its sign. *)

Definition f32_mul (a b : float32) : float32 :=
  match a, b with
  | Num x, Num y => Num (x * y)
  | NaN, _ | _, NaN => NaN
  | _, _ =>
      match f32_sign a, f32_sign b with
      | Some sa, Some sb => f32_inf (Bool.eqb sa sb)
      | _, _ => NaN
      end
  end.

Definition f32_div (a b : float32) : float32 :=
  match a, b with
  | NaN, _ | _, NaN => NaN
  | Num x, Num y =>
      if Req_dec_T y 0 then
        match f32_sign a with Some s => f32_inf s | None => NaN end
      else Num (x / y)
  | Num _, _ => Num 0
  | _, Num y => if Rlt_dec y 0 then f32_neg a else a
  | _, _ => NaN
  end.

Definition f32_sum (l : list float32) : float32 := fold_right f32_add (Num 0) l.

(** Python's [sum]: the elements are added to 0 from left to right. *)
Definition py_sum (l : list float32) : float32 := fold_left f32_add l (Num 0).

(** ** Tensors *)

Record tensor : Type := mk_tensor { shape : list nat; data : list float32 }.

(** A variable is named by the position at which the graph declared it. *)
Definition var_id : Type := nat.

(** The session state: a value for every variable. *)
Definition store : Type := var_id -> tensor.

Definition assign (s : store) (x : var_id) (v : tensor) : store :=
  fun y => if Nat.eqb y x then v else s y.

Fixpoint map2 {A B C : Type} (f : A -> B -> C) (l : list A) (l' : list B) : list C :=
  match l, l' with
  | a :: t, b :: t' => f a b :: map2 f t t'
  | _, _ => []
  end.

Definition numel (sh : list nat) : nat := fold_right Nat.mul 1 sh.

(** ** The element-wise and linear operations of the engine *)

Definition tf_map (f : float32 -> float32) (t : tensor) : tensor :=
  mk_tensor (shape t) (map f (data t)).

Definition sigmoid (a : float32) : float32 :=
  match a with
  | Num x => Num (/ (1 + exp (- x)))
  | PosInf => Num 1
  | NegInf => Num 0
  | NaN => NaN
  end.

Definition tf_sigmoid : tensor -> tensor := tf_map sigmoid.

Definition tf_nn_relu : tensor -> tensor := tf_map (fun x => f32_max x (Num 0)).

(** [tf.clip_by_value t lo hi]: first the minimum with [hi], then the maximum
    with [lo], element by element. *)
Definition clip (lo hi x : float32) : float32 := f32_max (f32_min x hi) lo.

Definition tf_clip_by_value (t : tensor) (lo hi : float32) : tensor := tf_map (clip lo hi) t.

(** [a - b] on tensors of one shape. *)
Definition tf_subtract (a b : tensor) : tensor :=
  mk_tensor (shape a) (map2 f32_sub (data a) (data b)).

(** [a + b] where the shape of [b] is a suffix of the shape of [a] up to
    leading ones (a bias row [1, C] added to [N, C] or [N, H, W, C]): in
    row-major order element [i] of [a] meets element [i mod |b|] of [b]. *)
Definition tf_add (a b : tensor) : tensor :=
  mk_tensor (shape a)
    (map (fun i => f32_add (nth i (data a) (Num 0))
                           (nth (i mod length (data b)) (data b) (Num 0)))
         (seq 0 (length (data a)))).

(** [tf.matmul a w] for [a : [n, k]] and [w : [k, m]]. *)
Definition tf_matmul (a w : tensor) : tensor :=
  let n := nth 0 (shape a) 0 in
  let k := nth 1 (shape a) 0 in
  let m := nth 1 (shape w) 0 in
  mk_tensor [n; m]
    (flat_map (fun i =>
       map (fun j =>
         f32_sum (map (fun l => f32_mul (nth (i * k + l) (data a) (Num 0))
                                        (nth (l * m + j) (data w) (Num 0)))
                      (seq 0 k)))
         (seq 0 m))
       (seq 0 n)).

Definition tf_reshape (t : tensor) (sh : list nat) : tensor := mk_tensor sh (data t).

Definition tf_shape (t : tensor) : list nat := shape t.

(** [tf.reduce_mean] over all elements; the result is a scalar. *)
Definition tf_reduce_mean (t : tensor) : float32 :=
  f32_div (f32_sum (data t)) (Num (INR (length (data t)))).

Definition tf_zeros (sh : list nat) : tensor := mk_tensor sh (repeat (Num 0) (numel sh)).

(** ** The kernels the program only calls *)

Inductive padding : Type := SAME | VALID.

Class Engine : Type := {
  (** [tf.nn.convolution input filter padding strides] *)
  tf_nn_convolution : tensor -> tensor -> padding -> option (list nat) -> tensor;
  (** [tf.image.resize_images images size] *)
  tf_image_resize_images : tensor -> list nat -> tensor;
  (** the value of index [i] among those that [tf.random_normal] draws with
      the given standard deviation, at a given state of the generator *)
  random_normal : nat -> R -> nat -> float32;
  (** [np.random.normal size], at a given state of the generator *)
  np_random_normal : nat -> list nat -> tensor;
  (** [mnist.train.next_batch batch_size], images only, at a given cursor *)
  mnist_next_batch : nat -> nat -> tensor;
  (** the gradient of a scalar node with respect to one variable *)
  tf_gradients : (store -> float32) -> store -> var_id -> tensor;
  (** the accumulators of one [AdamOptimizer] *)
  adam_slots : Type;
  adam_fresh : adam_slots;
  (** the new value of a variable from the learning rate, the accumulators,
      the gradient and the old value *)
  adam_apply_dense : R -> adam_slots -> var_id -> tensor -> tensor -> tensor;
  (** the accumulators after a step over the given gradients *)
  adam_finish : R -> adam_slots -> list (var_id * tensor) -> adam_slots
}.

(** [tf.random_normal shape stddev]: a tensor of the requested shape. *)
Definition tf_random_normal `{Engine} (rng : nat) (sh : list nat) (stddev : R) : tensor :=
  mk_tensor sh (map (random_normal rng stddev) (seq 0 (numel sh))).

(** ** Building the graph *)

Inductive initializer : Type :=
| Init_random_normal (sh : list nat) (stddev : R)
| Init_zeros (sh : list nat).

(** The static shape of a variable is the shape of its initial value. *)
Definition init_shape (i : initializer) : list nat :=
  match i with
  | Init_random_normal sh _ => sh
  | Init_zeros sh => sh
  end.

(** The default graph: its collection of variables, in declaration order, and
    the number of optimizers created so far. *)
Record graph : Type := { g_variables : list initializer; g_optimizers : nat }.

Definition empty_graph : graph := {| g_variables := []; g_optimizers := 0 |}.

(** Construction code runs in a state monad over the graph. *)
Definition G (A : Type) : Type := graph -> A * graph.

Definition G_ret {A : Type} (a : A) : G A := fun g => (a, g).

Definition G_bind {A B : Type} (m : G A) (k : A -> G B) : G B :=
  fun g => let (a, g') := m g in k a g'.

Declare Scope G_scope.
Delimit Scope G_scope with G.
Notation "x <- m ;; k" := (G_bind m (fun x => k))
  (at level 61, m at next level, right associativity) : G_scope.

(** [tf.Variable(init)]: a new cell, numbered by its position. *)
Definition tf_Variable (i : initializer) : G var_id :=
  fun g => (length (g_variables g),
            {| g_variables := g_variables g ++ [i]; g_optimizers := g_optimizers g |}).

Definition G_map {A B : Type} (f : A -> B) (m : G A) : G B :=
  (a <- m ;; G_ret (f a))%G.

Fixpoint G_sequence {A : Type} (l : list (G A)) : G (list A) :=
  match l with
  | [] => G_ret []
  | m :: t => (a <- m ;; r <- G_sequence t ;; G_ret (a :: r))%G
  end.

(** ** Layers (lines 196-288) *)

Module FC.

Record t : Type := { activation : bool; weights : var_id; biases : var_id }.

Definition __init__ (in_count out_count : nat) (activation : bool) : G t :=
  (let stddev := (1 / sqrt (INR in_count))%R in
   w <- tf_Variable (Init_random_normal [in_count; out_count] stddev) ;;
   b <- tf_Variable (Init_zeros [1; out_count]) ;;
   G_ret {| activation := activation; weights := w; biases := b |})%G.

Definition apply (self : t) (s : store) (inputs : tensor) : tensor :=
  let pre_activation := tf_add (tf_matmul inputs (s (weights self))) (s (biases self)) in
  if negb (activation self) then pre_activation
  else tf_nn_relu pre_activation.

Definition vars (self : t) : list var_id := [weights self; biases self].

End FC.

Module Reshape.

Record t : Type := { shape : list nat }.

Definition __init__ (shape : list nat) : G t := G_ret {| shape := shape |}.

Definition apply (self : t) (s : store) (inputs : tensor) : tensor :=
  tf_reshape inputs ([nth 0 (tf_shape inputs) 0] ++ shape self).

Definition vars (self : t) : list var_id := [].

End Reshape.

Module Resize.

Record t : Type := { size : list nat }.

Definition __init__ (size : list nat) : G t := G_ret {| size := size |}.

Definition apply `{Engine} (self : t) (s : store) (inputs : tensor) : tensor :=
  tf_image_resize_images inputs (size self).

Definition vars (self : t) : list var_id := [].

End Resize.

Module Conv.

Record t : Type := {
  activation : bool;
  strides : option (list nat);
  filters : var_id;
  biases : var_id
}.

Definition __init__ (in_depth out_depth : nat) (strides : option (list nat))
  (activation : bool) : G t :=
  (let shape := [3; 3; in_depth; out_depth] in
   let stddev := (1 / sqrt (INR (in_depth * 9)))%R in
   f <- tf_Variable (Init_random_normal shape stddev) ;;
   b <- tf_Variable (Init_zeros [1; out_depth]) ;;
   G_ret {| activation := activation; strides := strides; filters := f; biases := b |})%G.

Definition apply `{Engine} (self : t) (s : store) (inputs : tensor) : tensor :=
  let conv_out := tf_nn_convolution inputs (s (filters self)) SAME (strides self) in
  let pre_activation := tf_add conv_out (s (biases self)) in
  if negb (activation self) then pre_activation
  else tf_nn_relu pre_activation.

Definition vars (self : t) : list var_id := [filters self; biases self].

End Conv.

(** A network is a list of objects that answer [apply] and [vars]
    (lines 290-306). *)
Inductive layer : Type :=
| L_FC (l : FC.t)
| L_Reshape (l : Reshape.t)
| L_Resize (l : Resize.t)
| L_Conv (l : Conv.t).

Definition layer_apply `{Engine} (l : layer) (s : store) (inputs : tensor) : tensor :=
  match l with
  | L_FC l => FC.apply l s inputs
  | L_Reshape l => Reshape.apply l s inputs
  | L_Resize l => Resize.apply l s inputs
  | L_Conv l => Conv.apply l s inputs
  end.

Definition layer_vars (l : layer) : list var_id :=
  match l with
  | L_FC l => FC.vars l
  | L_Reshape l => Reshape.vars l
  | L_Resize l => Resize.vars l
  | L_Conv l => Conv.vars l
  end.

Definition network : Type := list layer.

Definition apply_network `{Engine} (net : network) (s : store) (inputs : tensor) : tensor :=
  fold_left (fun sub_in l => layer_apply l s sub_in) net inputs.

Definition network_vars (net : network) : list var_id :=
  fold_left (fun res l => res ++ layer_vars l) net [].

(** ** Symbolic tensors and operations

    A node of the graph is evaluated against the session's variable values and
    the values fed for the placeholders. *)

Record feed_dict : Type := { fed_images : tensor; fed_noise : tensor }.

Definition node (A : Type) : Type := store -> feed_dict -> A.

(** Reading a variable as a tensor. *)
Definition read (x : var_id) : node tensor := fun s _ => s x.

(** An [AdamOptimizer] object: its number in the graph and its learning rate. *)
Record optimizer : Type := { opt_id : nat; learning_rate : R }.

(** The operations the program builds: [tf.assign], [tf.group],
    [optimizer.minimize] and [tf.global_variables_initializer]. *)
#[warnings="-register-all"]
Inductive operation : Type :=
| Op_assign (x : var_id) (value : node tensor)
| Op_group (ops : list operation)
| Op_minimize (opt : optimizer) (loss : node float32) (var_list : list var_id)
| Op_initializer (variables : list initializer) (optimizers : nat).

Definition tf_assign (x : var_id) (value : node tensor) : operation := Op_assign x value.

Definition tf_group (ops : list operation) : operation := Op_group ops.

Definition minimize (opt : optimizer) (loss : node float32) (var_list : list var_id) : operation :=
  Op_minimize opt loss var_list.

(** ** The GAN (lines 92-170) *)

Module GAN.

Record t : Type := { generator : network; discriminator : network }.

Definition __init__ (noise_size : nat) : G t :=
  (generator <- G_sequence [
     G_map L_FC (FC.__init__ noise_size (14 * 14) true);
     G_map L_FC (FC.__init__ (14 * 14) (14 * 14) true);
     G_map L_FC (FC.__init__ (14 * 14) (14 * 14) true);
     G_map L_Reshape (Reshape.__init__ [14; 14; 1]);
     G_map L_Resize (Resize.__init__ [28; 28]);
     G_map L_Conv (Conv.__init__ 1 16 None true);
     G_map L_Conv (Conv.__init__ 16 32 None true);
     G_map L_Conv (Conv.__init__ 32 32 None true);
     G_map L_Conv (Conv.__init__ 32 1 None false)
   ] ;;
   discriminator <- G_sequence [
     G_map L_Conv (Conv.__init__ 1 16 (Some [2; 2]) true);
     G_map L_Conv (Conv.__init__ 16 32 None true);
     G_map L_Conv (Conv.__init__ 32 16 (Some [2; 2]) true);
     G_map L_Reshape (Reshape.__init__ [7 * 7 * 16]);
     G_map L_FC (FC.__init__ 784 256 true);
     G_map L_FC (FC.__init__ 256 256 true);
     G_map L_FC (FC.__init__ 256 1 false)
   ] ;;
   G_ret {| generator := generator; discriminator := discriminator |})%G.

Definition generate `{Engine} (self : t) (noise : node tensor) : node tensor :=
  fun s fd => tf_sigmoid (apply_network (generator self) s (noise s fd)).

Definition discriminate `{Engine} (self : t) (images : node tensor) : node tensor :=
  fun s fd => apply_network (discriminator self) s (images s fd).

Definition generator_vars (self : t) : list var_id := network_vars (generator self).

Definition discriminator_vars (self : t) : list var_id := network_vars (discriminator self).

Definition clip_discriminator (self : t) (mag : R) : operation :=
  let disc := discriminator_vars self in
  let ops := map (fun x => tf_assign x (fun s fd =>
                             tf_clip_by_value (read x s fd) (Num (- mag)) (Num mag))) disc in
  tf_group ops.

Definition generator_objective `{Engine} (self : t) (noise : node tensor) : node float32 :=
  let gen_out := generate self noise in
  fun s fd => f32_neg (tf_reduce_mean (discriminate self gen_out s fd)).

Definition discriminator_objective `{Engine} (self : t) (noise samples : node tensor) :
  node float32 :=
  let gen_samples := generate self noise in
  fun s fd => tf_reduce_mean (tf_subtract (discriminate self gen_samples s fd)
                                          (discriminate self samples s fd)).

End GAN.

(** The default of [clip_discriminator]'s parameter [mag]. *)
Definition default_mag : R := 0.01%R.

(** ** The process: session, files, standard output

    Effects are threaded through a state monad with exceptions.  The state
    [world] holds the default graph, the session (variable values and the
    optimizers' accumulators), the files by path, the positions of the data
    set and of the random generators, and the trace of the effects performed
    so far, oldest first. *)

(** What a file holds.  A checkpoint saved under the prefix [p] is made of
    [p.index] (the names and shapes of the tensors), [p.data-00000-of-00001]
    (their elements) and [p.meta] (the graph); the file [checkpoint] of the
    directory names the prefix saved last.  The data set is made of archives
    fetched from the network. *)
Inductive file : Type :=
| File_checkpoint_state (model_checkpoint_path : string)
| File_index (entries : list (var_id * list nat))
| File_data (values : list (var_id * list float32))
| File_meta (variables : list initializer)
| File_archive (name : string).

Definition file_system : Type := string -> option file.

Definition write (path : string) (f : file) (files : file_system) : file_system :=
  fun p => if String.eqb p path then Some f else files p.

Inductive event : Type :=
| Ev_print (line : string)
| Ev_print_losses (disc gen : float32)
| Ev_read_data_sets (dir : string)
| Ev_next_batch (batch_size : nat)
| Ev_run_tensor (fetch : node tensor) (fd : option feed_dict)
| Ev_run_scalar (fetch : node float32) (fd : option feed_dict)
| Ev_run_op (fetch : operation) (fd : option feed_dict)
| Ev_save (path : string)
| Ev_restore (path : string)
| Ev_pyplot_title (title : string)
| Ev_pyplot_imshow (img : tensor)
| Ev_pyplot_show.

Record world `{Engine} : Type := {
  w_graph : graph;
  w_vars : store;
  w_slots : nat -> adam_slots;
  w_files : file_system;
  w_cursor : nat;
  w_rng : nat;
  w_trace : list event
}.

Inductive exn : Type :=
| SystemExit (code : option nat)
| NotFoundError
| DataLossError
| InvalidArgumentError.

(** How a computation ends: normally, by an exception, or not within the
    number of loop iterations the model was allowed ([Running]). *)
Inductive result (A : Type) : Type :=
| Ok (a : A)
| Raise (e : exn)
| Running.

Arguments Ok {A} a.
Arguments Raise {A} e.
Arguments Running {A}.

Definition M `{Engine} (A : Type) : Type := world -> result A * world.

Definition ret `{Engine} {A : Type} (a : A) : M A := fun w => (Ok a, w).

Definition bind `{Engine} {A B : Type} (m : M A) (k : A -> M B) : M B :=
  fun w =>
    match m w with
    | (Ok a, w') => k a w'
    | (Raise e, w') => (Raise e, w')
    | (Running, w') => (Running, w')
    end.

Definition raise `{Engine} {A : Type} (e : exn) : M A := fun w => (Raise e, w).

Definition cut `{Engine} {A : Type} : M A := fun w => (Running, w).

Declare Scope M_scope.
Delimit Scope M_scope with M.
Notation "x <- m ;; k" := (bind m (fun x => k))
  (at level 61, m at next level, right associativity) : M_scope.
Notation "m ;; k" := (bind m (fun _ => k))
  (at level 61, right associativity) : M_scope.

Definition emit `{Engine} (e : event) : M unit :=
  fun w => (Ok tt,
            {| w_graph := w_graph w; w_vars := w_vars w; w_slots := w_slots w;
               w_files := w_files w; w_cursor := w_cursor w; w_rng := w_rng w;
               w_trace := w_trace w ++ [e] |}).

Definition set_vars `{Engine} (w : world) (s : store) : world :=
  {| w_graph := w_graph w; w_vars := s; w_slots := w_slots w;
     w_files := w_files w; w_cursor := w_cursor w; w_rng := w_rng w;
     w_trace := w_trace w |}.

Definition set_slots `{Engine} (w : world) (sl : nat -> adam_slots) : world :=
  {| w_graph := w_graph w; w_vars := w_vars w; w_slots := sl;
     w_files := w_files w; w_cursor := w_cursor w; w_rng := w_rng w;
     w_trace := w_trace w |}.

Definition set_rng `{Engine} (w : world) (r : nat) : world :=
  {| w_graph := w_graph w; w_vars := w_vars w; w_slots := w_slots w;
     w_files := w_files w; w_cursor := w_cursor w; w_rng := r;
     w_trace := w_trace w |}.

Definition set_graph `{Engine} (w : world) (g : graph) : world :=
  {| w_graph := g; w_vars := w_vars w; w_slots := w_slots w;
     w_files := w_files w; w_cursor := w_cursor w; w_rng := w_rng w;
     w_trace := w_trace w |}.

Definition set_files `{Engine} (w : world) (files : file_system) : world :=
  {| w_graph := w_graph w; w_vars := w_vars w; w_slots := w_slots w;
     w_files := files; w_cursor := w_cursor w; w_rng := w_rng w;
     w_trace := w_trace w |}.

(** Graph construction inside the process. *)
Definition lift_G `{Engine} {A : Type} (m : G A) : M A :=
  fun w => let (a, g) := m (w_graph w) in (Ok a, set_graph w g).

(** [for _ in range(0, n)], threading the value the body rebuilds. *)
Fixpoint for_range `{Engine} {A : Type} (n : nat) (body : A -> M A) (acc : A) : M A :=
  match n with
  | 0 => ret acc
  | S n' => (acc' <- body acc ;; for_range n' body acc')%M
  end.

(** [while True], cut after [fuel] iterations. *)
Fixpoint while_true `{Engine} (fuel : nat) (body : M unit) : M unit :=
  match fuel with
  | 0 => cut
  | S fuel' => (body ;; while_true fuel' body)%M
  end.

(** ** Running operations in the session *)

Definition no_feed : feed_dict :=
  {| fed_images := mk_tensor [] []; fed_noise := mk_tensor [] [] |}.

Definition feed_of (fd : option feed_dict) : feed_dict :=
  match fd with Some d => d | None => no_feed end.

Definition initial_value `{Engine} (rng : nat) (i : initializer) : tensor :=
  match i with
  | Init_random_normal sh stddev => tf_random_normal rng sh stddev
  | Init_zeros sh => tf_zeros sh
  end.

(** Every variable of the list, numbered from [x], receives its initial value;
    each draw moves the random generator on. *)
Fixpoint initialize `{Engine} (variables : list initializer) (x : var_id) (rng : nat)
  (s : store) : store * nat :=
  match variables with
  | [] => (s, rng)
  | i :: rest =>
      initialize rest (S x)
        (match i with Init_random_normal _ _ => S rng | Init_zeros _ => rng end)
        (assign s x (initial_value rng i))
  end.

(** One Adam step: the gradients are taken at the values before the step, and
    only the variables of [var_list] are assigned. *)
Definition apply_gradients `{Engine} (lr : R) (sl : adam_slots)
  (grads_and_vars : list (var_id * tensor)) (s : store) : store :=
  fold_left (fun acc gv => assign acc (fst gv) (adam_apply_dense lr sl (fst gv) (snd gv) (s (fst gv))))
            grads_and_vars s.

Definition compute_gradients `{Engine} (loss : store -> float32) (var_list : list var_id)
  (s : store) : list (var_id * tensor) :=
  map (fun x => (x, tf_gradients loss s x)) var_list.

Fixpoint run_operation `{Engine} (o : operation) (fd : feed_dict) (w : world) : world :=
  match o with
  | Op_assign x value => set_vars w (assign (w_vars w) x (value (w_vars w) fd))
  | Op_group ops => fold_left (fun w' o' => run_operation o' fd w') ops w
  | Op_minimize opt loss var_list =>
      let sl := w_slots w (opt_id opt) in
      let gv := compute_gradients (fun s => loss s fd) var_list (w_vars w) in
      let s' := apply_gradients (learning_rate opt) sl gv (w_vars w) in
      set_slots (set_vars w s')
        (fun k => if Nat.eqb k (opt_id opt) then adam_finish (learning_rate opt) sl gv
                  else w_slots w k)
  | Op_initializer variables optimizers =>
      let (s', rng') := initialize variables 0 (w_rng w) (w_vars w) in
      set_rng (set_slots (set_vars w s') (fun _ => adam_fresh)) rng'
  end.

(** [sess.run(fetch, feed_dict)] for an operation, a tensor and a scalar. *)
Definition sess_run_op `{Engine} (fetch : operation) (fd : option feed_dict) : M unit :=
  (emit (Ev_run_op fetch fd) ;;
   fun w => (Ok tt, run_operation fetch (feed_of fd) w))%M.

Definition sess_run `{Engine} (fetch : node tensor) (fd : option feed_dict) : M tensor :=
  (emit (Ev_run_tensor fetch fd) ;;
   fun w => (Ok (fetch (w_vars w) (feed_of fd)), w))%M.

Definition sess_run_scalar `{Engine} (fetch : node float32) (fd : option feed_dict) :
  M float32 :=
  (emit (Ev_run_scalar fetch fd) ;;
   fun w => (Ok (fetch (w_vars w) (feed_of fd)), w))%M.

(** ** Optimizers, the saver and the initializer *)

Definition tf_train_AdamOptimizer (learning_rate : R) : G optimizer :=
  fun g => ({| opt_id := g_optimizers g; learning_rate := learning_rate |},
            {| g_variables := g_variables g; g_optimizers := S (g_optimizers g) |}).

(** [tf.train.Saver()] handles the variables that exist when it is created. *)
Record saver : Type := { saved_vars : list var_id }.

Definition tf_train_Saver : G saver :=
  fun g => ({| saved_vars := seq 0 (length (g_variables g)) |}, g).

Definition tf_global_variables_initializer : G operation :=
  fun g => (Op_initializer (g_variables g) (g_optimizers g), g).

Fixpoint lookup {A : Type} (x : var_id) (c : list (var_id * A)) : option A :=
  match c with
  | [] => None
  | (y, v) :: rest => if Nat.eqb x y then Some v else lookup x rest
  end.

(** The files of a checkpoint saved under [prefix]. *)
Definition index_file (prefix : string) : string := prefix ++ ".index".

Definition data_file (prefix : string) : string := prefix ++ ".data-00000-of-00001".

Definition meta_file (prefix : string) : string := prefix ++ ".meta".

(** The state file of the directory of the checkpoint; the program saves
    under a prefix without directory part, so this is the file [checkpoint] of
    the working directory. *)
Definition checkpoint_state_file : string := "checkpoint".

(** [saver.save(sess, path)] writes the shape and the elements of every
    saved variable, the graph and the state file.  No file is written at
    [path] itself. *)
Definition saver_save `{Engine} (self : saver) (path : string) : M unit :=
  (emit (Ev_save path) ;;
   fun w =>
     let entries := map (fun x => (x, shape (w_vars w x))) (saved_vars self) in
     let values := map (fun x => (x, data (w_vars w x))) (saved_vars self) in
     (Ok tt,
      set_files w
        (write checkpoint_state_file (File_checkpoint_state path)
        (write (meta_file path) (File_meta (g_variables (w_graph w)))
        (write (data_file path) (File_data values)
        (write (index_file path) (File_index entries) (w_files w)))))))%M.

(** The index holds an entry for every variable of the list. *)
Definition has_keys {A : Type} (c : list (var_id * A)) (xs : list var_id) : bool :=
  forallb (fun x => match lookup x c with Some _ => true | None => false end) xs.

Fixpoint shape_eqb (a b : list nat) : bool :=
  match a, b with
  | [], [] => true
  | x :: a', y :: b' => Nat.eqb x y && shape_eqb a' b'
  | _, _ => false
  end.

(** The static shape of a variable of the graph. *)
Definition declared_shape (g : graph) (x : var_id) : option (list nat) :=
  option_map init_shape (nth_error (g_variables g) x).

(** The assignment of a restored tensor validates its shape against the
    static shape of the variable. *)
Definition validate_shape (g : graph) (x : var_id) (sh : list nat) : bool :=
  match declared_shape g x with
  | Some d => shape_eqb sh d
  | None => true
  end.

(** Every saved variable is assigned the tensor the files hold for it.  A
    tensor whose elements are not as many as its shape says, and a tensor
    whose shape is not the shape of the variable, are errors. *)
Fixpoint assign_restored (entries : list (var_id * list nat))
  (values : list (var_id * list float32)) (g : graph) (xs : list var_id) (s : store) :
  store + exn :=
  match xs with
  | [] => inl s
  | x :: rest =>
      match lookup x entries, lookup x values with
      | Some sh, Some v =>
          if Nat.eqb (length v) (numel sh) then
            if validate_shape g x sh
            then assign_restored entries values g rest (assign s x (mk_tensor sh v))
            else inr InvalidArgumentError
          else inr DataLossError
      | None, _ => inr NotFoundError
      | Some _, None => inr DataLossError
      end
  end.

(** [saver.restore(sess, path)]: a missing index or data file and a variable
    missing from the index are [NotFoundError]; a file that is not what its
    name says, and a data file that does not hold what the index says, are
    [DataLossError]. *)
Definition saver_restore `{Engine} (self : saver) (path : string) : M unit :=
  (emit (Ev_restore path) ;;
   fun w =>
     match w_files w (index_file path) with
     | None => (Raise NotFoundError, w)
     | Some (File_index entries) =>
         if has_keys entries (saved_vars self) then
           match w_files w (data_file path) with
           | None => (Raise NotFoundError, w)
           | Some (File_data values) =>
               match assign_restored entries values (w_graph w) (saved_vars self) (w_vars w) with
               | inl s => (Ok tt, set_vars w s)
               | inr e => (Raise e, w)
               end
           | Some _ => (Raise DataLossError, w)
           end
         else (Raise NotFoundError, w)
     | Some _ => (Raise DataLossError, w)
     end)%M.

(** ** The sample provider (lines 172-194) *)

Definition np_reshape (t : tensor) (sh : list nat) : tensor := mk_tensor sh (data t).

(** The archives of the MNIST data set. *)
Definition mnist_archives : list string :=
  [ "train-images-idx3-ubyte.gz"; "train-labels-idx1-ubyte.gz";
    "t10k-images-idx3-ubyte.gz"; "t10k-labels-idx1-ubyte.gz" ]%string.

(** An archive that is not in the directory is downloaded into it. *)
Definition maybe_download (work_directory : string) (files : file_system) (filename : string) :
  file_system :=
  let filepath := (work_directory ++ "/" ++ filename)%string in
  match files filepath with
  | Some _ => files
  | None => write filepath (File_archive filename) files
  end.

(** [input_data.read_data_sets(train_dir)] *)
Definition read_data_sets `{Engine} (train_dir : string) : M unit :=
  (emit (Ev_read_data_sets train_dir) ;;
   fun w => (Ok tt, set_files w (fold_left (maybe_download train_dir) mnist_archives
                                            (w_files w))))%M.

Module Samples.

Record t : Type := {
  batch_size : nat;
  noise_size : nat;
  images : node tensor;
  noise : node tensor
}.

(** The two placeholders read what the feed dictionary binds to them. *)
Definition __init__ `{Engine} (batch_size noise_size : nat) : M t :=
  (read_data_sets "MNIST_data" ;;
   ret {| batch_size := batch_size; noise_size := noise_size;
          images := fun _ fd => fed_images fd;
          noise := fun _ fd => fed_noise fd |})%M.

Definition sample_feed_dict `{Engine} (self : t) : M feed_dict :=
  (emit (Ev_next_batch (batch_size self)) ;;
   fun w =>
     let mnist_batch := mnist_next_batch (w_cursor w) (batch_size self) in
     let noise_batch := np_random_normal (w_rng w) [batch_size self; noise_size self] in
     (Ok {| fed_images := np_reshape mnist_batch [batch_size self; 28; 28; 1];
            fed_noise := noise_batch |},
      {| w_graph := w_graph w; w_vars := w_vars w; w_slots := w_slots w;
         w_files := w_files w; w_cursor := S (w_cursor w); w_rng := S (w_rng w);
         w_trace := w_trace w |}))%M.

End Samples.

(** ** The commands (lines 13-90) *)

Definition SAVE_FILE : string := "gan.ckpt".

Definition print `{Engine} (line : string) : M unit := emit (Ev_print line).

(** [sys.exit()] raises [SystemExit] with no code. *)
Definition sys_exit `{Engine} {A : Type} : M A := raise (SystemExit None).

Definition create `{Engine} : M unit :=
  (_ <- lift_G (GAN.__init__ 100) ;;
   saver <- lift_G tf_train_Saver ;;
   init <- lift_G tf_global_variables_initializer ;;
   sess_run_op init None ;;
   saver_save saver SAVE_FILE)%M.

(** The nodes [train] builds before it opens the session. *)
Record training_graph : Type := {
  tg_gan : GAN.t;
  tg_saver : saver;
  tg_samples : Samples.t;
  gen_obj : node float32;
  opt_gen : operation;
  disc_obj : node float32;
  opt_disc : operation;
  clip_disc : operation
}.

Definition build_training_graph `{Engine} : M training_graph :=
  (gan <- lift_G (GAN.__init__ 100) ;;
   saver <- lift_G tf_train_Saver ;;
   samples <- Samples.__init__ 128 100 ;;
   let gen_obj := GAN.generator_objective gan (Samples.noise samples) in
   gen_adam <- lift_G (tf_train_AdamOptimizer 1e-4) ;;
   let opt_gen := minimize gen_adam gen_obj (GAN.generator_vars gan) in
   let disc_obj := GAN.discriminator_objective gan (Samples.noise samples) (Samples.images samples) in
   disc_adam <- lift_G (tf_train_AdamOptimizer 1e-4) ;;
   let opt_disc := minimize disc_adam disc_obj (GAN.discriminator_vars gan) in
   let clip_disc := GAN.clip_discriminator gan default_mag in
   ret {| tg_gan := gan; tg_saver := saver; tg_samples := samples;
          gen_obj := gen_obj; opt_gen := opt_gen;
          disc_obj := disc_obj; opt_disc := opt_disc; clip_disc := clip_disc |})%M.

(** One pass of the [for] loop: lines 67-70. *)
Definition discriminator_step `{Engine} (tg : training_graph) (losses : list float32) :
  M (list float32) :=
  (batch <- Samples.sample_feed_dict (tg_samples tg) ;;
   l <- sess_run_scalar (disc_obj tg) (Some batch) ;;
   let losses := losses ++ [l] in
   sess_run_op (opt_disc tg) (Some batch) ;;
   sess_run_op (clip_disc tg) None ;;
   ret losses)%M.

(** One pass of the [while] loop: lines 65-75. *)
Definition train_iteration `{Engine} (tg : training_graph) : M unit :=
  (losses <- for_range 30 (discriminator_step tg) [] ;;
   batch <- Samples.sample_feed_dict (tg_samples tg) ;;
   loss <- sess_run_scalar (gen_obj tg) (Some batch) ;;
   emit (Ev_print_losses (f32_div (py_sum losses) (Num (INR (length losses)))) loss) ;;
   sess_run_op (opt_gen tg) (Some batch) ;;
   saver_save (tg_saver tg) SAVE_FILE)%M.

Definition train `{Engine} (fuel : nat) : M unit :=
  (tg <- build_training_graph ;;
   init <- lift_G tf_global_variables_initializer ;;
   sess_run_op init None ;;
   saver_restore (tg_saver tg) SAVE_FILE ;;
   while_true fuel (train_iteration tg))%M.

Definition generate `{Engine} : M unit :=
  (gan <- lift_G (GAN.__init__ 100) ;;
   saver <- lift_G tf_train_Saver ;;
   noise <- lift_G (tf_Variable (Init_random_normal [4; 100] 1)) ;;
   init <- lift_G tf_global_variables_initializer ;;
   sess_run_op init None ;;
   saver_restore saver SAVE_FILE ;;
   out <- sess_run (GAN.generate gan (read noise)) None ;;
   emit (Ev_pyplot_title "Generated digits") ;;
   emit (Ev_pyplot_imshow (np_reshape out [28 * 4; 28])) ;;
   emit Ev_pyplot_show)%M.

Definition usage : string := "Usage: mnist_gan <create | train | generate>".

Definition main `{Engine} (fuel : nat) (argv : list string) : M unit :=
  ((if length argv <? 2 then
      print usage ;; sys_exit
    else ret tt) ;;
   let cmd := nth 1 argv ""%string in
   if String.eqb cmd "create" then create
   else if String.eqb cmd "train" then train fuel
   else if String.eqb cmd "generate" then generate
   else (print ("Unknown command: " ++ cmd) ;; sys_exit))%M.

(** The status the process ends with: 0 after a normal end and after
    [sys.exit()], 1 after an uncaught error. *)
Definition exit_status {A : Type} (r : result A) : option nat :=
  match r with
  | Ok _ => Some 0
  | Raise (SystemExit None) => Some 0
  | Raise (SystemExit (Some code)) => Some code
  | Raise _ => Some 1
  | Running => None
  end.


(** ** Definitions used by the statements *)

(** The GAN that [GAN(noise_size)] returns when the graph is [g]. *)
Definition new_GAN (noise_size : nat) (g : graph) : GAN.t := fst (GAN.__init__ noise_size g).

(** A construction allocates [k] cells when the object it returns owns
    exactly the next [k] numbers and the graph grows by [k] variables. *)
Definition allocates {A : Type} (m : G A) (k : nat) (vars_of : A -> list var_id) : Prop :=
  forall g : graph,
    vars_of (fst (m g)) = seq (length (g_variables g)) k /\
    length (g_variables (snd (m g))) = length (g_variables g) + k /\
    g_optimizers (snd (m g)) = g_optimizers g.

Definition self_assign (f : tensor -> tensor) (x : var_id) : operation :=
  tf_assign x (fun s fd => f (read x s fd)).


(** The state in which a computation leaves the process. *)
Definition after `{Engine} {A : Type} (m : M A) (w : world) : world := snd (m w).

(** The closed interval the default clip enforces. *)
Definition in_clip_range (v : float32) : Prop :=
  match v with
  | Num r => (- 0.01 <= r <= 0.01)%R
  | _ => False
  end.

(** The size along one axis of the result of a convolution with padding
    [SAME]: the size of the input over the stride, rounded up. *)
Definition same_padding_size (n stride : nat) : nat := (n + stride - 1) / stride.

Definition sample_convolution (input filter : tensor) (strides : option (list nat)) : tensor :=
  let st := match strides with Some st => st | None => [1; 1] end in
  tf_zeros [ nth 0 (shape input) 0;
             same_padding_size (nth 1 (shape input) 0) (nth 0 st 1);
             same_padding_size (nth 2 (shape input) 0) (nth 1 st 1);
             nth 3 (shape filter) 0 ].

Definition sample_resize (images : tensor) (size : list nat) : tensor :=
  tf_zeros [ nth 0 (shape images) 0; nth 0 size 0; nth 1 size 0; nth 3 (shape images) 0 ].

(** An engine on which the statements are evaluated at concrete inputs:
    convolution and resizing return zeros in the shape of their result, every
    draw is zero, the gradient is the variable itself and the optimizer is
    plain gradient descent without accumulators. *)
Definition sample_engine : Engine := {|
  tf_nn_convolution := fun input filter _ strides => sample_convolution input filter strides;
  tf_image_resize_images := sample_resize;
  random_normal := fun _ _ _ => Num 0;
  np_random_normal := fun _ sh => tf_zeros sh;
  mnist_next_batch := fun _ batch_size => tf_zeros [batch_size; 784];
  tf_gradients := fun _ s x => s x;
  adam_slots := unit;
  adam_fresh := tt;
  adam_apply_dense := fun lr _ _ grad value =>
                        tf_subtract value (tf_map (f32_mul (Num lr)) grad);
  adam_finish := fun _ _ _ => tt
|}.

(** A process that has just started: an empty graph, no file, and every cell
    of the session holding the one-element tensor [0.005]. *)
Definition sample_world : @world sample_engine :=
  @Build_world sample_engine
    empty_graph                            (* w_graph *)
    (fun _ => mk_tensor [1] [Num 0.005])   (* w_vars *)
    (fun _ => tt)                          (* w_slots *)
    (fun _ => None)                        (* w_files *)
    0                                      (* w_cursor *)
    0                                      (* w_rng *)
    [].                                    (* w_trace *)

(** The statements about the objectives follow the words of the
    specification: a mean over the batch, example by example. *)

(** The mean of the scores [x_0 .. x_(B-1)] of a batch of [B] examples. *)
Definition batch_mean (scores : list float32) : float32 :=
  let B := length scores in
  f32_div (f32_sum (map (fun i => nth i scores (Num 0)) (seq 0 B))) (Num (INR B)).

(** The mean over the batch of (generated score - real score), in that order. *)
Definition batch_mean_difference (generated real : list float32) : float32 :=
  let B := Nat.min (length generated) (length real) in
  f32_div (f32_sum (map (fun i => f32_sub (nth i generated (Num 0)) (nth i real (Num 0)))
                        (seq 0 B)))
          (Num (INR B)).

Definition in_unit_interval (v : float32) : Prop :=
  match v with
  | Num r => (0 <= r <= 1)%R
  | _ => False
  end.

(** The nodes [train] builds when the graph it starts from is [g]. *)
Definition training_graph_of `{Engine} (g : graph) : training_graph :=
  let gan := new_GAN 100 g in
  let samples := {| Samples.batch_size := 128; Samples.noise_size := 100;
                    Samples.images := fun _ fd => fed_images fd;
                    Samples.noise := fun _ fd => fed_noise fd |} in
  let gen_adam := {| opt_id := g_optimizers g; learning_rate := 1e-4 |} in
  let disc_adam := {| opt_id := S (g_optimizers g); learning_rate := 1e-4 |} in
  {| tg_gan := gan;
     tg_saver := {| saved_vars := seq 0 (length (g_variables g) + 26) |};
     tg_samples := samples;
     gen_obj := GAN.generator_objective gan (Samples.noise samples);
     opt_gen := minimize gen_adam (GAN.generator_objective gan (Samples.noise samples))
                  (GAN.generator_vars gan);
     disc_obj := GAN.discriminator_objective gan (Samples.noise samples) (Samples.images samples);
     opt_disc := minimize disc_adam
                   (GAN.discriminator_objective gan (Samples.noise samples) (Samples.images samples))
                   (GAN.discriminator_vars gan);
     clip_disc := GAN.clip_discriminator gan default_mag |}.

(** The events a computation adds to the trace when it starts in [w]. *)
Definition emitted `{Engine} {A : Type} (m : M A) (w : world) : list event :=
  skipn (length (w_trace w)) (w_trace (after m w)).

(** [m] started in [w] ends normally with [a] in [w'], having added the
    events [tr] to the trace. *)
Definition runs `{Engine} {A : Type} (m : M A) (w : world) (a : A) (w' : world)
  (tr : list event) : Prop :=
  m w = (Ok a, w') /\ w_trace w' = w_trace w ++ tr.

(** The events of one pass of the [for] loop with the batch [batch], and of
    the rest of an iteration. *)
Definition discriminator_events (tg : training_graph) (batch : feed_dict) : list event :=
  [ Ev_next_batch (Samples.batch_size (tg_samples tg));
    Ev_run_scalar (disc_obj tg) (Some batch);
    Ev_run_op (opt_disc tg) (Some batch);
    Ev_run_op (clip_disc tg) None ].

Definition generator_events (tg : training_graph) (batch : feed_dict)
  (disc_loss gen_loss : float32) : list event :=
  [ Ev_next_batch (Samples.batch_size (tg_samples tg));
    Ev_run_scalar (gen_obj tg) (Some batch);
    Ev_print_losses disc_loss gen_loss;
    Ev_run_op (opt_gen tg) (Some batch);
    Ev_save SAVE_FILE ].

(** [e] runs a [minimize] operation of the optimizer that [o] steps. *)
Definition is_step_of (o : operation) (e : event) : bool :=
  match e, o with
  | Ev_run_op (Op_minimize opt _ _) _, Op_minimize opt' _ _ => Nat.eqb (opt_id opt) (opt_id opt')
  | _, _ => false
  end.

Definition is_save (e : event) : bool :=
  match e with Ev_save _ => true | _ => false end.

Definition is_print_losses (e : event) : bool :=
  match e with Ev_print_losses _ _ => true | _ => false end.

(** An event satisfying [p] stands at position [i] of the trace. *)
Definition occurs (p : event -> bool) (tr : list event) (i : nat) : Prop :=
  exists e, nth_error tr i = Some e /\ p e = true.

(** What the order of the events depends on: the two [minimize] operations
    belong to different optimizers and the clip is a group. *)
Definition distinct_steps (tg : training_graph) : Prop :=
  exists (gen_adam disc_adam : optimizer) (gen_loss disc_loss : node float32)
         (gen_list disc_list : list var_id) (ops : list operation),
    opt_gen tg = minimize gen_adam gen_loss gen_list /\
    opt_disc tg = minimize disc_adam disc_loss disc_list /\
    clip_disc tg = tf_group ops /\
    opt_id gen_adam <> opt_id disc_adam.


(** The order of the end of an iteration in which the generator step comes
    first, the save second and the print of the losses last. *)
Definition persisted_before_printed (tg : training_graph) (tr : list event) : Prop :=
  exists i j k : nat,
    i < j /\ j < k /\
    occurs (is_step_of (opt_gen tg)) tr i /\
    occurs is_save tr j /\
    occurs is_print_losses tr k.

(** The subcommands [main] dispatches on. *)
Definition known_command (cmd : string) : bool :=
  String.eqb cmd "create" || String.eqb cmd "train" || String.eqb cmd "generate".

(** An invocation with no subcommand, or with one that [main] does not know. *)
Definition invalid_invocation (argv : list string) : Prop :=
  length argv < 2 \/ known_command (nth 1 argv ""%string) = false.

(** The process prints the usage line, and nothing else happens before it
    exits through [sys.exit()]. *)
Definition prints_usage_and_exits `{Engine} (fuel : nat) (argv : list string) (w : world) : Prop :=
  main fuel argv w = (Raise (SystemExit None), after (print usage) w).

(** The states in which the first [fuel] passes of the [while] loop start. *)
Fixpoint iteration_starts `{Engine} (tg : training_graph) (fuel : nat) (w : world) : list world :=
  match fuel with
  | 0 => []
  | S fuel' => w :: iteration_starts tg fuel' (after (train_iteration tg) w)
  end.

(** ** Definitions used by the statements about the rest of the program *)


(** [v] does not compare below zero. *)
Definition non_negative (v : float32) : Prop := f32_lt v (Num 0) = false.


(** A process that has just started: the default graph is empty. *)
Definition fresh_process `{Engine} (w : world) : Prop := w_graph w = empty_graph.

(** The graph after [GAN()] in a process that has just started, and its
    variable declarations. *)
Definition GAN_graph : graph := snd (GAN.__init__ 100 empty_graph).

Definition GAN_declarations : list initializer :=
  g_variables (snd (GAN.__init__ 100 empty_graph)).

(** The bias of a layer that has one. *)
Definition layer_bias (l : layer) : option var_id :=
  match l with
  | L_FC fc => Some (FC.biases fc)
  | L_Conv cv => Some (Conv.biases cv)
  | _ => None
  end.

(** Every bias of the two networks is a tensor of zeros with one row. *)
Definition biases_are_zero (gan : GAN.t) (s : store) : Prop :=
  Forall (fun l =>
    match layer_bias l with
    | Some b => exists n : nat, s b = tf_zeros [1; n]
    | None => True
    end)
    (GAN.generator gan ++ GAN.discriminator gan).

(** The declaration of the variable [b] is a one-row tensor of zeros. *)
Definition declared_zero_row (declarations : list initializer) (b : var_id) : bool :=
  match nth_error declarations b with
  | Some (Init_zeros [1; _]) => true
  | _ => false
  end.

(** The four files that [saver.save] writes for a prefix, and the four
    archives that [read_data_sets] looks for. *)
Definition checkpoint_files (prefix : string) : list string :=
  [checkpoint_state_file; index_file prefix; data_file prefix; meta_file prefix].

Definition mnist_files : list string :=
  map (fun name => ("MNIST_data" ++ "/" ++ name)%string) mnist_archives.

(** The tensor that an index and a data file hold for the variable [x]. *)
Definition stored_tensor (entries : list (var_id * list nat))
  (values : list (var_id * list float32)) (x : var_id) : option tensor :=
  match lookup x entries, lookup x values with
  | Some sh, Some v => Some (mk_tensor sh v)
  | _, _ => None
  end.

(** There is no index file [gan.ckpt.index], or it lacks one of the [n]
    first variables. *)
Definition checkpoint_missing (files : file_system) (n : nat) : Prop :=
  files (index_file SAVE_FILE) = None \/
  exists entries : list (var_id * list nat),
    files (index_file SAVE_FILE) = Some (File_index entries) /\
    has_keys entries (seq 0 n) = false.

(** The index and the data file of [gan.ckpt] exist and hold, for each
    variable of the list, a tensor of the shape that the graph declares, with
    as many elements as the shape says. *)
Definition restorable (files : file_system) (g : graph) (xs : list var_id) : bool :=
  match files (index_file SAVE_FILE), files (data_file SAVE_FILE) with
  | Some (File_index entries), Some (File_data values) =>
      forallb (fun x => match lookup x entries, lookup x values with
                        | Some sh, Some v =>
                            Nat.eqb (length v) (numel sh) && validate_shape g x sh
                        | _, _ => false
                        end)
              xs
  | _, _ => false
  end.

(** The checkpoint [gan.ckpt] holds the twenty-six variables of [GAN()] in
    their declared shapes. *)
Definition checkpoint_usable (files : file_system) : bool :=
  restorable files GAN_graph (seq 0 26).

(** What [read_data_sets] leaves in the directory [MNIST_data]. *)
Definition downloaded (files : file_system) : file_system :=
  fold_left (maybe_download "MNIST_data") mnist_archives files.

(** The session after [create()] in the sample process, and a process that
    has just started beside the files that [create()] left. *)
Definition sample_world_after_create : @world sample_engine :=
  @Build_world sample_engine
    empty_graph (fun _ => mk_tensor [1] [Num 0.005]) (fun _ => tt)
    (w_files (after create sample_world))
    0 0 [].

(** A process that has just started beside a checkpoint that holds the
    twenty-six variables, each as the one-element tensor [0.005]: not the
    shapes that [GAN()] declares. *)
Definition mismatched_world : @world sample_engine :=
  @Build_world sample_engine
    empty_graph (fun _ => mk_tensor [1] [Num 0.005]) (fun _ => tt)
    (write (index_file SAVE_FILE) (File_index (map (fun x => (x, [1])) (seq 0 26)))
       (write (data_file SAVE_FILE) (File_data (map (fun x => (x, [Num 0.005])) (seq 0 26)))
          (fun _ => None)))
    0 0 [].



(** A session in which every variable of [GAN()] is zero, in its declared
    shape; and the same with NaN as the bias of the last layer of the
    generator (cell 13). *)
Definition zero_store : store :=
  fun x => match nth_error GAN_declarations x with
           | Some i => tf_zeros (init_shape i)
           | None => tf_zeros []
           end.



(** The shape of the result of a layer under [sample_engine], from the shape
    of its input. *)
Definition sample_layer_shape (l : layer) (s : store) (sh : list nat) : list nat :=
  match l with
  | L_FC fc => [nth 0 sh 0; nth 1 (shape (s (FC.weights fc))) 0]
  | L_Reshape rs => nth 0 sh 0 :: Reshape.shape rs
  | L_Resize rz => [nth 0 sh 0; nth 0 (Resize.size rz) 0; nth 1 (Resize.size rz) 0; nth 3 sh 0]
  | L_Conv cv =>
      let st := match Conv.strides cv with Some st => st | None => [1; 1] end in
      [ nth 0 sh 0;
        same_padding_size (nth 1 sh 0) (nth 0 st 1);
        same_padding_size (nth 2 sh 0) (nth 1 st 1);
        nth 3 (shape (s (Conv.filters cv))) 0 ]
  end.

(** What [generate] does once the model is restored: lines 87-90. *)
Definition show_generated `{Engine} (gan : GAN.t) (noise : var_id) : M unit :=
  (out <- sess_run (GAN.generate gan (read noise)) None ;;
   emit (Ev_pyplot_title "Generated digits") ;;
   emit (Ev_pyplot_imshow (np_reshape out [28 * 4; 28])) ;;
   emit Ev_pyplot_show)%M.

(** Every element of every discriminator variable is NaN or lies in
    [-0.01, 0.01]. *)
Definition clipped_or_nan (v : float32) : Prop := v = NaN \/ in_clip_range v.

Definition discriminator_clipped (gan : GAN.t) (s : store) : Prop :=
  Forall (fun x => Forall clipped_or_nan (data (s x))) (GAN.discriminator_vars gan).

(** A pixel is NaN or lies in [0, 1]. *)
Definition pixel_or_nan (v : float32) : Prop := v = NaN \/ in_unit_interval v.

(** The optimizer that a [minimize] operation steps. *)
Definition optimizer_of (o : operation) : option nat :=
  match o with
  | Op_minimize opt _ _ => Some (opt_id opt)
  | _ => None
  end.
(** * Properties *)

Unset Implicit Arguments.

(** ** Arithmetic of the element-wise operations *)

Lemma sigmoid_real_range (x : R) : (0 < / (1 + exp (- x)) < 1)%R.
Proof.
  pose proof (exp_pos (- x)) as Hexp.
  assert (Hden : (1 < 1 + exp (- x))%R) by lra.
  split.
  - apply Rinv_0_lt_compat. lra.
  - rewrite <- Rinv_1. apply Rinv_lt_contravar; lra.
Qed.

(** The sigmoid of a number that is not NaN lies in [0, 1]: the bounds are
    reached at the infinities.  The sigmoid of NaN is NaN. *)
Lemma sigmoid_range (v : float32) : v <> NaN -> in_unit_interval (sigmoid v).
Proof.
  intros Hv. destruct v as [x | | |]; cbn.
  - pose proof (sigmoid_real_range x). lra.
  - lra.
  - lra.
  - contradiction.
Qed.

Lemma sigmoid_nan (v : float32) : sigmoid v = NaN <-> v = NaN.
Proof. destruct v; cbn; split; intros Heq; try discriminate; reflexivity. Qed.

Lemma f32_max_num (x y : R) : f32_max (Num x) (Num y) = Num (Rmax x y).
Proof.
  unfold f32_max, f32_lt, Rmax.
  destruct (Rlt_dec x y), (Rle_dec x y); try reflexivity; try lra.
  f_equal. lra.
Qed.

Lemma f32_min_num (x y : R) : f32_min (Num x) (Num y) = Num (Rmin x y).
Proof.
  unfold f32_min, f32_lt, Rmin.
  destruct (Rlt_dec y x), (Rle_dec x y); try reflexivity; lra.
Qed.

Lemma clip_num (lo hi x : R) :
  clip (Num lo) (Num hi) (Num x) = Num (Rmax (Rmin x hi) lo).
Proof. unfold clip. rewrite f32_min_num, f32_max_num. reflexivity. Qed.

(** The clip leaves NaN as it is, whatever the bounds. *)
Lemma clip_nan (lo hi : float32) : clip lo hi NaN = NaN.
Proof. unfold clip, f32_min, f32_max. destruct hi, lo; reflexivity. Qed.

Lemma clip_pos_inf (lo hi : R) : (lo <= hi)%R -> clip (Num lo) (Num hi) PosInf = Num hi.
Proof.
  intros Hle. unfold clip, f32_min. cbn [f32_lt]. rewrite f32_max_num.
  f_equal. apply Rmax_left. exact Hle.
Qed.

Lemma clip_neg_inf (lo hi : R) : clip (Num lo) (Num hi) NegInf = Num lo.
Proof. reflexivity. Qed.

(** What is not NaN is clipped to a finite number between the bounds. *)
Lemma clip_range (lo hi : R) (v : float32) :
  (lo <= hi)%R -> v <> NaN ->
  exists r : R, clip (Num lo) (Num hi) v = Num r /\ (lo <= r <= hi)%R.
Proof.
  intros Hle Hv. destruct v as [x | | |].
  - exists (Rmax (Rmin x hi) lo). split; [apply clip_num |]. split.
    + apply Rmax_r.
    + apply Rmax_lub; [apply Rmin_r | exact Hle].
  - exists hi. split; [apply clip_pos_inf; exact Hle | lra].
  - exists lo. split; [apply clip_neg_inf | lra].
  - contradiction.
Qed.

Lemma clip_fixes_range (lo hi x : R) :
  (lo <= x <= hi)%R -> clip (Num lo) (Num hi) (Num x) = Num x.
Proof.
  intros [Hlo Hhi]. rewrite clip_num. f_equal.
  rewrite Rmin_left by exact Hhi.
  apply Rmax_left. exact Hlo.
Qed.

Lemma clip_idempotent (lo hi : R) (v : float32) :
  (lo <= hi)%R ->
  clip (Num lo) (Num hi) (clip (Num lo) (Num hi) v) = clip (Num lo) (Num hi) v.
Proof.
  intros Hle. destruct v as [x | | |].
  - destruct (clip_range lo hi (Num x) Hle ltac:(discriminate)) as (r & -> & Hr).
    apply clip_fixes_range. exact Hr.
  - destruct (clip_range lo hi PosInf Hle ltac:(discriminate)) as (r & -> & Hr).
    apply clip_fixes_range. exact Hr.
  - destruct (clip_range lo hi NegInf Hle ltac:(discriminate)) as (r & -> & Hr).
    apply clip_fixes_range. exact Hr.
  - rewrite !clip_nan. reflexivity.
Qed.

Lemma tf_clip_by_value_idempotent (t : tensor) (lo hi : R) :
  (lo <= hi)%R ->
  tf_clip_by_value (tf_clip_by_value t (Num lo) (Num hi)) (Num lo) (Num hi) =
  tf_clip_by_value t (Num lo) (Num hi).
Proof.
  intros Hle. unfold tf_clip_by_value, tf_map. simpl.
  rewrite map_map. f_equal.
  apply map_ext. intros x. apply clip_idempotent. exact Hle.
Qed.

Lemma default_mag_order : (- default_mag <= default_mag)%R.
Proof. unfold default_mag. lra. Qed.

Lemma default_clip_range (v : float32) :
  v <> NaN -> in_clip_range (clip (Num (- default_mag)) (Num default_mag) v).
Proof.
  intros Hv.
  destruct (clip_range _ _ v default_mag_order Hv) as (r & -> & Hr).
  unfold in_clip_range, default_mag in *. lra.
Qed.

(** After the default clip an element lies in the range exactly when it was
    not NaN; a NaN stays. *)
Lemma default_clip_cases (v : float32) :
  clipped_or_nan (clip (Num (- default_mag)) (Num default_mag) v).
Proof.
  destruct v as [x | | |];
    try (right; apply default_clip_range; discriminate).
  left. apply clip_nan.
Qed.


Lemma tf_clip_by_value_cases (t : tensor) :
  Forall clipped_or_nan (data (tf_clip_by_value t (Num (- default_mag)) (Num default_mag))).
Proof.
  unfold tf_clip_by_value, tf_map. cbn [data].
  apply Forall_forall. intros v Hin.
  apply in_map_iff in Hin. destruct Hin as [x [<- _]].
  apply default_clip_cases.
Qed.

(** The clip at work: above, inside and below the interval, at the two
    infinities and at NaN. *)
Example clip_examples :
  clip (Num (- 0.01)) (Num 0.01) (Num 0.5) = Num 0.01 /\
  clip (Num (- 0.01)) (Num 0.01) (Num 0.005) = Num 0.005 /\
  clip (Num (- 0.01)) (Num 0.01) (Num (- 3)) = Num (- 0.01) /\
  clip (Num (- 0.01)) (Num 0.01) PosInf = Num 0.01 /\
  clip (Num (- 0.01)) (Num 0.01) NegInf = Num (- 0.01) /\
  clip (Num (- 0.01)) (Num 0.01) NaN = NaN.
Proof.
  rewrite !clip_num. unfold Rmin, Rmax.
  split; [| split; [| split; [| split; [| split]]]];
    try reflexivity;
    try (f_equal; repeat (destruct (Rle_dec _ _)); lra).
  apply clip_pos_inf. lra.
Qed.

(** ** The store *)

Lemma assign_same (s : store) (x : var_id) (v : tensor) : assign s x v x = v.
Proof. unfold assign. rewrite Nat.eqb_refl. reflexivity. Qed.

Lemma assign_other (s : store) (x y : var_id) (v : tensor) :
  y <> x -> assign s x v y = s y.
Proof.
  intros Hne. unfold assign.
  destruct (Nat.eqb y x) eqn:E; [apply Nat.eqb_eq in E; contradiction | reflexivity].
Qed.

(** ** The variables of the two networks

    The constructor numbers the cells it creates consecutively: fourteen for
    the generator, then twelve for the discriminator. *)

Lemma G_bind_unfold {A B : Type} (m : G A) (k : A -> G B) (g : graph) :
  G_bind m k g = k (fst (m g)) (snd (m g)).
Proof. unfold G_bind. destruct (m g). reflexivity. Qed.

Lemma network_vars_flat_map (net : network) :
  network_vars net = flat_map layer_vars net.
Proof.
  unfold network_vars.
  assert (Hgen : forall acc,
    fold_left (fun res l => res ++ layer_vars l) net acc = acc ++ flat_map layer_vars net).
  { induction net as [| l net IH]; intros acc; simpl.
    - rewrite app_nil_r. reflexivity.
    - rewrite IH, app_assoc. reflexivity. }
  apply Hgen.
Qed.

Lemma allocates_FC (in_count out_count : nat) (activation : bool) :
  allocates (G_map L_FC (FC.__init__ in_count out_count activation)) 2 layer_vars.
Proof.
  intros g. cbn. rewrite !length_app. cbn.
  repeat split; try lia.
  unfold FC.vars. cbn. rewrite Nat.add_1_r. reflexivity.
Qed.

Lemma allocates_Conv (in_depth out_depth : nat) (strides : option (list nat)) (activation : bool) :
  allocates (G_map L_Conv (Conv.__init__ in_depth out_depth strides activation)) 2 layer_vars.
Proof.
  intros g. cbn. rewrite !length_app. cbn.
  repeat split; try lia.
  unfold Conv.vars. cbn. rewrite Nat.add_1_r. reflexivity.
Qed.

Lemma allocates_Reshape (sh : list nat) :
  allocates (G_map L_Reshape (Reshape.__init__ sh)) 0 layer_vars.
Proof. intros g. cbn. repeat split; lia. Qed.

Lemma allocates_Resize (size : list nat) :
  allocates (G_map L_Resize (Resize.__init__ size)) 0 layer_vars.
Proof. intros g. cbn. repeat split; lia. Qed.

Lemma allocates_sequence (ms : list (G layer)) (ks : list nat) :
  Forall2 (fun m k => allocates m k layer_vars) ms ks ->
  allocates (G_sequence ms) (fold_right Nat.add 0 ks) network_vars.
Proof.
  induction 1 as [| m k ms ks Hm _ IH]; intros g.
  - cbn. repeat split; lia.
  - cbn [G_sequence fold_right].
    rewrite G_bind_unfold, G_bind_unfold. cbn [G_ret fst snd].
    destruct (Hm g) as (Hv & Hl & Ho).
    destruct (IH (snd (m g))) as (Hv' & Hl' & Ho').
    repeat split.
    + rewrite network_vars_flat_map in *. cbn [flat_map].
      rewrite Hv, Hv', Hl, seq_app. reflexivity.
    + rewrite Hl', Hl. lia.
    + rewrite Ho', Ho. reflexivity.
Qed.

Create HintDb alloc.
#[local] Hint Resolve allocates_FC allocates_Conv allocates_Reshape allocates_Resize : alloc.

Lemma allocates_GAN (noise_size : nat) (g : graph) :
  GAN.generator_vars (new_GAN noise_size g) = seq (length (g_variables g)) 14 /\
  GAN.discriminator_vars (new_GAN noise_size g) = seq (14 + length (g_variables g)) 12 /\
  length (g_variables (snd (GAN.__init__ noise_size g))) = length (g_variables g) + 26 /\
  g_optimizers (snd (GAN.__init__ noise_size g)) = g_optimizers g.
Proof.
  unfold new_GAN, GAN.__init__, GAN.generator_vars, GAN.discriminator_vars.
  rewrite G_bind_unfold, G_bind_unfold. cbn [G_ret fst snd GAN.generator GAN.discriminator].
  match goal with
  | |- context [G_sequence ?ms g] =>
      pose proof (@allocates_sequence ms [2; 2; 2; 0; 0; 2; 2; 2; 2]
                    ltac:(repeat (apply Forall2_cons; [solve [auto with alloc] |]); apply Forall2_nil) g) as (Hv & Hl & Ho);
      set (gens := G_sequence ms) in *
  end.
  match goal with
  | |- context [G_sequence ?ms (snd (gens g))] =>
      pose proof (@allocates_sequence ms [2; 2; 2; 0; 2; 2; 2]
                    ltac:(repeat (apply Forall2_cons; [solve [auto with alloc] |]); apply Forall2_nil) (snd (gens g))) as (Hv' & Hl' & Ho');
      set (discs := G_sequence ms) in *
  end.
  cbn [fold_right Nat.add] in *.
  split; [exact Hv |].
  split; [rewrite Hv', Hl; f_equal; lia |].
  split; [rewrite Hl', Hl; lia |].
  rewrite Ho', Ho. reflexivity.
Qed.

Lemma generator_vars_new_GAN (noise_size : nat) (g : graph) :
  GAN.generator_vars (new_GAN noise_size g) = seq (length (g_variables g)) 14.
Proof. destruct (allocates_GAN noise_size g) as (Hgen & _). exact Hgen. Qed.

Lemma discriminator_vars_new_GAN (noise_size : nat) (g : graph) :
  GAN.discriminator_vars (new_GAN noise_size g) = seq (14 + length (g_variables g)) 12.
Proof. destruct (allocates_GAN noise_size g) as (_ & Hdisc & _). exact Hdisc. Qed.

Lemma network_vars_layers (net : network) (x : var_id) :
  In x (network_vars net) <-> exists l, In l net /\ In x (layer_vars l).
Proof.
  unfold network_vars.
  assert (Hgen : forall acc,
    In x (fold_left (fun res l => res ++ layer_vars l) net acc) <->
    In x acc \/ exists l, In l net /\ In x (layer_vars l)).
  { induction net as [| l net IH]; intros acc; simpl.
    - split; [auto | intros [Hin | [l [[] _]]]; exact Hin].
    - rewrite IH, in_app_iff. split.
      + intros [[Hin | Hin] | [l' [Hl' Hx]]]; eauto.
      + intros [Hin | [l' [[Heq | Hl'] Hx]]]; subst; eauto. }
  rewrite Hgen. simpl. split; [intros [[] | Hex]; exact Hex | auto].
Qed.

Lemma generator_discriminator_disjoint (noise_size : nat) (g : graph) (x : var_id) :
  In x (GAN.generator_vars (new_GAN noise_size g)) ->
  ~ In x (GAN.discriminator_vars (new_GAN noise_size g)).
Proof.
  rewrite generator_vars_new_GAN, discriminator_vars_new_GAN.
  rewrite !in_seq. lia.
Qed.

Lemma discriminator_vars_NoDup (noise_size : nat) (g : graph) :
  NoDup (GAN.discriminator_vars (new_GAN noise_size g)).
Proof. rewrite discriminator_vars_new_GAN. apply seq_NoDup. Qed.

Lemma generator_vars_NoDup (noise_size : nat) (g : graph) :
  NoDup (GAN.generator_vars (new_GAN noise_size g)).
Proof. rewrite generator_vars_new_GAN. apply seq_NoDup. Qed.

(** ** Running a group of assignments

    The clip operation is a group of assignments [x := f x], one per variable
    of a duplicate-free list.  Whatever the order in which the group runs
    them, each listed variable ends with [f] of its old value and every other
    variable keeps its value. *)

Section GroupOfAssignments.

Context `{Engine}.
Variable f : tensor -> tensor.
Variable fd : feed_dict.

Let run_all (xs : list var_id) (w : world) : world :=
  fold_left (fun w' o' => run_operation o' fd w') (map (self_assign f) xs) w.

Lemma run_all_out (xs : list var_id) (w : world) (y : var_id) :
  ~ In y xs -> w_vars (run_all xs w) y = w_vars w y.
Proof.
  revert w. induction xs as [| x xs IH]; intros w Hout; simpl.
  - reflexivity.
  - unfold run_all in *. simpl. rewrite IH by (intros Hin; apply Hout; right; exact Hin).
    simpl. apply assign_other. intros Heq. apply Hout. left. symmetry. exact Heq.
Qed.

Lemma run_all_in (xs : list var_id) (w : world) (y : var_id) :
  NoDup xs -> In y xs -> w_vars (run_all xs w) y = f (w_vars w y).
Proof.
  revert w. induction xs as [| x xs IH]; intros w Hnd Hin; simpl.
  - destruct Hin.
  - inversion Hnd as [| x' xs' Hnotin Hnd']; subst.
    destruct (Nat.eq_dec y x) as [-> | Hne].
    + change (run_all (x :: xs) w) with
        (run_all xs (run_operation (self_assign f x) fd w)).
      rewrite run_all_out by exact Hnotin.
      simpl. unfold read. apply assign_same.
    + destruct Hin as [Heq | Hin]; [congruence |].
      change (run_all (x :: xs) w) with
        (run_all xs (run_operation (self_assign f x) fd w)).
      rewrite IH by assumption.
      simpl. rewrite assign_other by exact Hne. reflexivity.
Qed.

(** The order of the group does not matter. *)
Lemma run_all_permutation (xs ys : list var_id) (w : world) (y : var_id) :
  NoDup xs -> Permutation xs ys ->
  w_vars (run_all xs w) y = w_vars (run_all ys w) y.
Proof.
  intros Hnd Hperm.
  assert (Hnd' : NoDup ys) by (eapply Permutation_NoDup; eassumption).
  destruct (in_dec Nat.eq_dec y xs) as [Hin | Hout].
  - rewrite !run_all_in; auto.
    eapply Permutation_in; eassumption.
  - rewrite !run_all_out; auto.
    intros Hin. apply Hout.
    eapply Permutation_in; [apply Permutation_sym |]; eassumption.
Qed.

End GroupOfAssignments.

Lemma sess_run_op_world `{Engine} (o : operation) (fd : option feed_dict) (w : world) :
  snd (sess_run_op o fd w) = run_operation o (feed_of fd) (snd (emit (Ev_run_op o fd) w)).
Proof. reflexivity. Qed.

Lemma run_group `{Engine} (ops : list operation) (fd : feed_dict) (w : world) :
  run_operation (tf_group ops) fd w = fold_left (fun w' o' => run_operation o' fd w') ops w.
Proof. reflexivity. Qed.

Lemma clip_discriminator_group (self : GAN.t) (mag : R) :
  GAN.clip_discriminator self mag =
  tf_group (map (self_assign (fun t => tf_clip_by_value t (Num (- mag)) (Num mag)))
                (GAN.discriminator_vars self)).
Proof. reflexivity. Qed.

Section Clip.

Context `{Engine}.
Variable noise_size : nat.
Variable g : graph.
Variable mag : R.

Let gan : GAN.t := new_GAN noise_size g.

Let clipped (fd : option feed_dict) (w : world) : world :=
  snd (sess_run_op (GAN.clip_discriminator gan mag) fd w).

Lemma clipped_in (fd : option feed_dict) (w : world) (x : var_id) :
  In x (GAN.discriminator_vars gan) ->
  w_vars (clipped fd w) x = tf_clip_by_value (w_vars w x) (Num (- mag)) (Num mag).
Proof.
  intros Hin. unfold clipped. rewrite sess_run_op_world.
  rewrite clip_discriminator_group, run_group.
  rewrite (run_all_in (fun t => tf_clip_by_value t (Num (- mag)) (Num mag)) (feed_of fd)
             (GAN.discriminator_vars gan)).
  - reflexivity.
  - apply discriminator_vars_NoDup.
  - exact Hin.
Qed.

Lemma clipped_out (fd : option feed_dict) (w : world) (x : var_id) :
  ~ In x (GAN.discriminator_vars gan) ->
  w_vars (clipped fd w) x = w_vars w x.
Proof.
  intros Hout. unfold clipped. rewrite sess_run_op_world.
  rewrite clip_discriminator_group, run_group.
  rewrite (run_all_out (fun t => tf_clip_by_value t (Num (- mag)) (Num mag)) (feed_of fd)
             (GAN.discriminator_vars gan)) by exact Hout.
  reflexivity.
Qed.

End Clip.

(** ** Weight clipping *)





(** C6. Clipping twice gives exactly the values that clipping once gives, for
    every variable of the session; and a single clip leaves every element
    that already lies in [-0.01, 0.01] as it was. *)
Theorem clip_discriminator_idempotent `{Engine}
  (noise_size : nat) (g : graph) (fd : option feed_dict) (w : world) :
  let gan := new_GAN noise_size g in
  let clip_once := after (sess_run_op (GAN.clip_discriminator gan default_mag) fd) in
  (forall x : var_id, w_vars (clip_once (clip_once w)) x = w_vars (clip_once w) x) /\
  (forall (x : var_id) (i : nat) (v : float32),
     nth_error (data (w_vars w x)) i = Some v ->
     in_clip_range v ->
     nth_error (data (w_vars (clip_once w) x)) i = Some v).
Proof.
  intros gan clip_once. split.
  - intros x. unfold clip_once, after, gan.
    destruct (in_dec Nat.eq_dec x (GAN.discriminator_vars (new_GAN noise_size g))) as [Hin | Hout].
    + rewrite !(@clipped_in _ noise_size g default_mag fd _ x Hin).
      apply tf_clip_by_value_idempotent. apply default_mag_order.
    + rewrite !(@clipped_out _ noise_size g default_mag fd _ x Hout). reflexivity.
  - intros x i v Hnth Hrange. unfold clip_once, after, gan.
    destruct (in_dec Nat.eq_dec x (GAN.discriminator_vars (new_GAN noise_size g))) as [Hin | Hout].
    + rewrite (@clipped_in _ noise_size g default_mag fd _ x Hin).
      unfold tf_clip_by_value, tf_map. simpl.
      rewrite nth_error_map, Hnth. simpl. f_equal.
      destruct v as [r | | |]; try (exfalso; exact Hrange).
      apply clip_fixes_range. unfold in_clip_range, default_mag in *. lra.
    + rewrite (@clipped_out _ noise_size g default_mag fd _ x Hout). exact Hnth.
Qed.

(** The statement of C6 at a concrete state: the first discriminator cell
    (number 14) holds [0.005], which the clip keeps. *)
Lemma clip_discriminator_idempotent_witness :
  nth_error (data (w_vars sample_world 14)) 0 = Some (Num 0.005) /\
  in_clip_range (Num 0.005) /\
  nth_error
    (data (w_vars
       (after (sess_run_op (GAN.clip_discriminator (new_GAN 100 empty_graph) default_mag) None)
              sample_world) 14)) 0 = Some (Num 0.005).
Proof.
  assert (Hnth : nth_error (data (w_vars sample_world 14)) 0 = Some (Num 0.005))
    by reflexivity.
  assert (Hrange : in_clip_range (Num 0.005)) by (unfold in_clip_range; lra).
  split; [exact Hnth |]. split; [exact Hrange |].
  exact (proj2 (@clip_discriminator_idempotent sample_engine 100 empty_graph None sample_world)
           14 0 (Num 0.005) Hnth Hrange).
Defined.

(** C10. Running the clip leaves every generator variable as it was, whatever
    the magnitude: the operation assigns discriminator variables only. *)
Theorem clip_discriminator_preserves_generator `{Engine}
  (noise_size : nat) (g : graph) (mag : R) (fd : option feed_dict) (w : world) :
  let gan := new_GAN noise_size g in
  let w' := after (sess_run_op (GAN.clip_discriminator gan mag) fd) w in
  Forall (fun l => Forall (fun x => w_vars w' x = w_vars w x) (layer_vars l))
         (GAN.generator gan).
Proof.
  intros gan w'.
  apply Forall_forall. intros l Hl.
  apply Forall_forall. intros x Hx.
  assert (Hin : In x (GAN.generator_vars gan)).
  { unfold GAN.generator_vars. apply network_vars_layers. exists l. split; assumption. }
  unfold w', after, gan in *. apply clipped_out.
  apply generator_discriminator_disjoint. exact Hin.
Qed.

(** ** The generator's output and the two objectives *)

Lemma map2_length {A B C : Type} (f : A -> B -> C) (l : list A) (l' : list B) :
  length (map2 f l l') = Nat.min (length l) (length l').
Proof.
  revert l'. induction l as [| a l IH]; intros [| b l']; simpl; auto.
Qed.

Lemma map2_by_index {A B C : Type} (f : A -> B -> C) (l : list A) (l' : list B) (a0 : A) (b0 : B) :
  map2 f l l' =
  map (fun i => f (nth i l a0) (nth i l' b0)) (seq 0 (Nat.min (length l) (length l'))).
Proof.
  revert l'. induction l as [| a l IH]; intros [| b l']; simpl; try reflexivity.
  rewrite IH, <- seq_shift, map_map. reflexivity.
Qed.

Lemma list_by_index {A : Type} (l : list A) (a0 : A) :
  map (fun i => nth i l a0) (seq 0 (length l)) = l.
Proof.
  induction l as [| a l IH]; simpl; [reflexivity |].
  rewrite <- seq_shift, map_map. simpl. rewrite IH. reflexivity.
Qed.

Lemma tf_reduce_mean_batch_mean (t : tensor) : tf_reduce_mean t = batch_mean (data t).
Proof. unfold tf_reduce_mean, batch_mean. rewrite list_by_index. reflexivity. Qed.

(** ** The generator under the sample engine *)

Lemma tf_add_length (a b : tensor) : length (data (tf_add a b)) = length (data a).
Proof. unfold tf_add. cbn [data]. rewrite length_map, length_seq. reflexivity. Qed.

Lemma tf_zeros_length (sh : list nat) : length (data (tf_zeros sh)) = numel sh.
Proof. unfold tf_zeros. cbn [data]. apply repeat_length. Qed.

Lemma map_constant {B : Type} (f : nat -> B) (c : B) (n : nat) :
  (forall i, f i = c) -> forall start : nat, map f (seq start n) = repeat c n.
Proof.
  intros Hf. induction n as [| n IH]; intros start; cbn [seq map repeat]; [reflexivity |].
  rewrite Hf, IH. reflexivity.
Qed.

(** Under [sample_engine] the shape of the result of a layer depends on the
    shapes of its input and of its parameters only. *)
Lemma sample_layer_apply_shape (l : layer) (s : store) (inputs : tensor) :
  shape (@layer_apply sample_engine l s inputs) = sample_layer_shape l s (shape inputs).
Proof.
  destruct l as [fc | rs | rz | cv]; cbn [layer_apply sample_layer_shape].
  - unfold FC.apply. destruct (FC.activation fc); reflexivity.
  - reflexivity.
  - reflexivity.
  - unfold Conv.apply. destruct (Conv.activation cv); reflexivity.
Qed.

Lemma sample_apply_network_shape (net : network) (s : store) :
  forall inputs : tensor,
    shape (@apply_network sample_engine net s inputs) =
    fold_left (fun sh l => sample_layer_shape l s sh) net (shape inputs).
Proof.
  unfold apply_network.
  induction net as [| l net IH]; intros inputs; cbn [fold_left]; [reflexivity |].
  rewrite IH, sample_layer_apply_shape. reflexivity.
Qed.

Lemma generator_layers :
  GAN.generator (new_GAN 100 empty_graph) =
  [ L_FC {| FC.activation := true; FC.weights := 0; FC.biases := 1 |};
    L_FC {| FC.activation := true; FC.weights := 2; FC.biases := 3 |};
    L_FC {| FC.activation := true; FC.weights := 4; FC.biases := 5 |};
    L_Reshape {| Reshape.shape := [14; 14; 1] |};
    L_Resize {| Resize.size := [28; 28] |};
    L_Conv {| Conv.activation := true; Conv.strides := None;
              Conv.filters := 6; Conv.biases := 7 |};
    L_Conv {| Conv.activation := true; Conv.strides := None;
              Conv.filters := 8; Conv.biases := 9 |};
    L_Conv {| Conv.activation := true; Conv.strides := None;
              Conv.filters := 10; Conv.biases := 11 |} ] ++
  [ L_Conv {| Conv.activation := false; Conv.strides := None;
              Conv.filters := 12; Conv.biases := 13 |} ].
Proof. reflexivity. Qed.

(** The raw output of the generator of [GAN()] under [sample_engine], when
    the variables have their declared shapes and the noise is a batch of
    four: 3136 elements, each the sum of a zero of the last convolution and
    of the one element of the last bias. *)
Lemma sample_generator_output (s : store) (noise : tensor) (b : float32) :
  (forall x : var_id, x < 13 -> shape (s x) = shape (zero_store x)) ->
  shape noise = [4; 100] ->
  data (s 13) = [b] ->
  data (@apply_network sample_engine (GAN.generator (new_GAN 100 empty_graph)) s noise) =
  repeat (f32_add (Num 0) b) 3136.
Proof.
  intros Hshapes Hnoise Hbias.
  rewrite generator_layers.
  unfold apply_network. rewrite fold_left_app.
  match goal with |- context [fold_left ?f ?net noise] =>
    set (hidden := fold_left f net noise) end.
  assert (Hhidden : shape hidden = [4; 28; 28; 32]).
  { unfold hidden.
    match goal with |- shape (fold_left _ ?net noise) = _ =>
      pose proof (sample_apply_network_shape net s noise) as Hsh end.
    unfold apply_network in Hsh. rewrite Hsh, Hnoise. clear Hsh.
    cbn [fold_left sample_layer_shape FC.weights Conv.filters Conv.strides
         Reshape.shape Resize.size nth].
    rewrite (Hshapes 10) by lia.
    reflexivity. }
  cbn [fold_left layer_apply].
  unfold Conv.apply. cbn [Conv.activation Conv.filters Conv.biases Conv.strides negb].
  cbn [tf_nn_convolution sample_engine]. unfold sample_convolution.
  rewrite Hhidden, (Hshapes 12) by lia.
  unfold tf_add. rewrite Hbias.
  change (shape (zero_store 12)) with [3; 3; 32; 1].
  cbn [nth].
  change (same_padding_size 28 1) with 28.
  rewrite tf_zeros_length.
  change (numel [4; 28; 28; 1]) with 3136.
  cbn [data].
  apply map_constant. intros i.
  unfold tf_zeros. cbn [data length]. rewrite nth_repeat, Nat.mod_1_r. reflexivity.
Qed.


Lemma tf_sigmoid_pixel_or_nan (t : tensor) : Forall pixel_or_nan (data (tf_sigmoid t)).
Proof.
  unfold tf_sigmoid, tf_map. cbn [data].
  apply Forall_forall. intros v Hin.
  apply in_map_iff in Hin. destruct Hin as [x [<- _]].
  destruct x as [r | | |];
    try (right; apply sigmoid_range; discriminate).
  left. reflexivity.
Qed.





(** C1. The discriminator objective is the mean over the batch of the score
    of the generated image minus the score of the real image, in that order. *)
Theorem discriminator_objective_generated_minus_real `{Engine}
  (self : GAN.t) (noise real_images : node tensor) (s : store) (fd : feed_dict) :
  let generated_scores := data (GAN.discriminate self (GAN.generate self noise) s fd) in
  let real_scores := data (GAN.discriminate self real_images s fd) in
  GAN.discriminator_objective self noise real_images s fd =
  batch_mean_difference generated_scores real_scores.
Proof.
  intros generated_scores real_scores.
  unfold GAN.discriminator_objective, tf_reduce_mean, tf_subtract, batch_mean_difference.
  simpl data. fold generated_scores real_scores.
  rewrite map2_length, (map2_by_index f32_sub _ _ (Num 0) (Num 0)). reflexivity.
Qed.

(** The order of the subtraction decides the sign: exchanging the two
    arguments negates the mean. *)
Lemma f32_sub_swap (a b : float32) : f32_sub b a = f32_neg (f32_sub a b).
Proof.
  unfold f32_sub. destruct a, b; cbn; try reflexivity. f_equal. lra.
Qed.

Lemma f32_neg_add (a b : float32) : f32_neg (f32_add a b) = f32_add (f32_neg a) (f32_neg b).
Proof. destruct a, b; cbn; try reflexivity. f_equal. lra. Qed.

Lemma f32_div_neg (s : float32) (n : R) :
  f32_div (f32_neg s) (Num n) = f32_neg (f32_div s (Num n)).
Proof.
  destruct s as [x | | |]; cbn; try reflexivity.
  - destruct (Req_dec_T n 0).
    + destruct (Rlt_dec 0 (- x)), (Rlt_dec 0 x); try lra; try reflexivity;
        destruct (Rlt_dec (- x) 0), (Rlt_dec x 0); try lra; reflexivity.
    + cbn. f_equal. unfold Rdiv. ring.
  - destruct (Rlt_dec n 0); reflexivity.
  - destruct (Rlt_dec n 0); reflexivity.
Qed.

Lemma batch_mean_difference_swap (a b : list float32) :
  batch_mean_difference b a = f32_neg (batch_mean_difference a b).
Proof.
  unfold batch_mean_difference. rewrite (Nat.min_comm (length b) (length a)).
  set (n := Nat.min (length a) (length b)).
  assert (Hsum : forall l : list nat,
    f32_sum (map (fun i => f32_sub (nth i b (Num 0)) (nth i a (Num 0))) l) =
    f32_neg (f32_sum (map (fun i => f32_sub (nth i a (Num 0)) (nth i b (Num 0))) l))).
  { induction l as [| i l IH]; cbn [map f32_sum fold_right].
    - cbn. f_equal. lra.
    - fold (f32_sum (map (fun i => f32_sub (nth i b (Num 0)) (nth i a (Num 0))) l)).
      fold (f32_sum (map (fun i => f32_sub (nth i a (Num 0)) (nth i b (Num 0))) l)).
      rewrite IH, f32_neg_add, (f32_sub_swap (nth i a (Num 0)) (nth i b (Num 0))).
      reflexivity. }
  rewrite Hsum. apply f32_div_neg.
Qed.

(** A critic that scores the real image higher makes the objective negative:
    one generated image scored 1 against one real image scored 3. *)
Example batch_mean_difference_sign :
  batch_mean_difference [Num 1] [Num 3] = Num (- 2).
Proof.
  unfold batch_mean_difference. cbn [length Nat.min seq map nth f32_sum fold_right].
  cbn [f32_sub f32_neg f32_add f32_div].
  destruct (Req_dec_T (INR 1) 0) as [Hz | _]; [cbn in Hz; lra |].
  f_equal. cbn. lra.
Qed.

(** C5. The generator objective is the negation of the mean discriminator
    score of the generated images. *)
Theorem generator_objective_negated_mean `{Engine}
  (self : GAN.t) (noise : node tensor) (s : store) (fd : feed_dict) :
  GAN.generator_objective self noise s fd =
  f32_neg (batch_mean (data (GAN.discriminate self (GAN.generate self noise) s fd))).
Proof.
  unfold GAN.generator_objective.
  rewrite tf_reduce_mean_batch_mean. reflexivity.
Qed.

(** ** The graph that [train] builds *)

Lemma lift_G_unfold `{Engine} {A : Type} (m : G A) (w : world) :
  lift_G m w = (Ok (fst (m (w_graph w))), set_graph w (snd (m (w_graph w)))).
Proof. unfold lift_G. destruct (m (w_graph w)). reflexivity. Qed.

Lemma bind_lift_G `{Engine} {A B : Type} (m : G A) (k : A -> M B) (w : world) :
  bind (lift_G m) k w = k (fst (m (w_graph w))) (set_graph w (snd (m (w_graph w)))).
Proof. unfold bind. rewrite lift_G_unfold. reflexivity. Qed.

Lemma bind_ret `{Engine} {A B : Type} (a : A) (k : A -> M B) (w : world) :
  bind (ret a) k w = k a w.
Proof. reflexivity. Qed.

Lemma bind_emit `{Engine} {B : Type} (e : event) (k : unit -> M B) (w : world) :
  bind (emit e) k w = k tt (after (emit e) w).
Proof. reflexivity. Qed.

Lemma bind_step `{Engine} {B : Type} (f : world -> world) (k : unit -> M B) (w : world) :
  bind (fun w0 => (Ok tt, f w0)) k w = k tt (f w).
Proof. reflexivity. Qed.

Lemma bind_bind `{Engine} {A B C : Type} (m : M A) (k : A -> M B) (k' : B -> M C) (w : world) :
  bind (bind m k) k' w = bind m (fun a => bind (k a) k') w.
Proof. unfold bind. destruct (m w) as [[a | e |] w']; reflexivity. Qed.

(** [build_training_graph] always succeeds; it returns the nodes of
    [training_graph_of], prints nothing and leaves the session untouched. *)
Lemma build_training_graph_result `{Engine} (w : world) :
  exists w1 : world,
    build_training_graph w = (Ok (training_graph_of (w_graph w)), w1) /\
    w_vars w1 = w_vars w /\
    w_slots w1 = w_slots w /\
    w_files w1 = fold_left (maybe_download "MNIST_data") mnist_archives (w_files w) /\
    w_trace w1 = w_trace w ++ [Ev_read_data_sets "MNIST_data"] /\
    g_variables (w_graph w1) = g_variables (snd (GAN.__init__ 100 (w_graph w))) /\
    g_optimizers (w_graph w1) = 2 + g_optimizers (w_graph w).
Proof.
  unfold build_training_graph.
  rewrite bind_lift_G.
  destruct (allocates_GAN 100 (w_graph w)) as (_ & _ & Hlen & Hopt).
  unfold training_graph_of, new_GAN.
  remember (GAN.__init__ 100 (w_graph w)) as built eqn:Hbuilt.
  destruct built as [gan g1]. clear Hbuilt.
  cbn [fst snd] in *.
  rewrite bind_lift_G. unfold tf_train_Saver at 1 2. cbn [fst snd].
  unfold Samples.__init__, read_data_sets.
  rewrite bind_bind, bind_bind, bind_emit, bind_step, bind_ret.
  rewrite bind_lift_G. unfold tf_train_AdamOptimizer at 1 2. cbn [fst snd].
  rewrite bind_lift_G. unfold tf_train_AdamOptimizer at 1 2. cbn [fst snd].
  unfold ret, after, emit, set_graph, set_files.
  cbn [fst snd w_graph w_vars w_slots w_files w_trace g_variables g_optimizers opt_id].
  rewrite Hlen, Hopt.
  eexists. split; [reflexivity |].
  cbn [w_graph w_vars w_slots w_files w_trace g_variables g_optimizers].
  repeat split.
  unfold tf_train_AdamOptimizer. cbn [snd g_optimizers]. rewrite Hopt. reflexivity.
Qed.

(** ** Optimizer steps *)

Lemma apply_gradients_out `{Engine} (lr : R) (sl : adam_slots)
  (gv : list (var_id * tensor)) (s : store) (x : var_id) :
  ~ In x (map fst gv) -> apply_gradients lr sl gv s x = s x.
Proof.
  unfold apply_gradients.
  set (step := fun (acc : store) (p : var_id * tensor) =>
                 assign acc (fst p) (adam_apply_dense lr sl (fst p) (snd p) (s (fst p)))).
  assert (Hgen : forall acc, ~ In x (map fst gv) -> fold_left step gv acc x = acc x).
  { induction gv as [| p gv IH]; intros acc Hout; simpl.
    - reflexivity.
    - rewrite IH by (intros Hin; apply Hout; right; exact Hin).
      unfold step. apply assign_other.
      intros Heq. apply Hout. left. symmetry. exact Heq. }
  apply Hgen.
Qed.

Lemma compute_gradients_vars `{Engine} (loss : store -> float32) (var_list : list var_id) (s : store) :
  map fst (compute_gradients loss var_list s) = var_list.
Proof.
  unfold compute_gradients. rewrite map_map. simpl. apply map_id.
Qed.

(** A [minimize] step assigns the variables of its [var_list] and no other. *)
Lemma minimize_frame `{Engine} (opt : optimizer) (loss : node float32) (var_list : list var_id)
  (fd : option feed_dict) (w : world) (x : var_id) :
  ~ In x var_list ->
  w_vars (after (sess_run_op (minimize opt loss var_list) fd) w) x = w_vars w x.
Proof.
  intros Hout. unfold after. rewrite sess_run_op_world.
  unfold minimize. cbn [run_operation set_slots set_vars w_vars].
  rewrite apply_gradients_out.
  - reflexivity.
  - rewrite compute_gradients_vars. exact Hout.
Qed.

Lemma build_training_graph_inv `{Engine} (w0 w1 : world) (tg : training_graph) :
  build_training_graph w0 = (Ok tg, w1) -> tg = training_graph_of (w_graph w0).
Proof.
  intros Hbuild.
  destruct (build_training_graph_result w0) as (w1' & Hres & _).
  rewrite Hres in Hbuild. inversion Hbuild. reflexivity.
Qed.

(** C7. In the graph that [train] builds, a generator step changes no
    variable outside the generator's and leaves every discriminator variable
    as it was; a discriminator step changes no variable outside the
    discriminator's and leaves every generator variable as it was. *)
Theorem optimizer_steps_update_own_network `{Engine}
  (w0 w1 : world) (tg : training_graph) (fd : option feed_dict) (w : world) :
  build_training_graph w0 = (Ok tg, w1) ->
  let gan := tg_gan tg in
  let after_gen := after (sess_run_op (opt_gen tg) fd) w in
  let after_disc := after (sess_run_op (opt_disc tg) fd) w in
  (forall x : var_id, In x (GAN.generator_vars gan) \/ w_vars after_gen x = w_vars w x) /\
  Forall (fun x => w_vars after_gen x = w_vars w x) (GAN.discriminator_vars gan) /\
  (forall x : var_id, In x (GAN.discriminator_vars gan) \/ w_vars after_disc x = w_vars w x) /\
  Forall (fun x => w_vars after_disc x = w_vars w x) (GAN.generator_vars gan).
Proof.
  intros Hbuild. apply build_training_graph_inv in Hbuild. subst tg.
  cbv zeta. cbn [training_graph_of tg_gan opt_gen opt_disc].
  set (gan := new_GAN 100 (w_graph w0)).
  repeat split.
  - intros x.
    destruct (in_dec Nat.eq_dec x (GAN.generator_vars gan)) as [Hin | Hout];
      [left; exact Hin | right; apply minimize_frame; exact Hout].
  - apply Forall_forall. intros x Hin. apply minimize_frame.
    intros Hgen. exact (generator_discriminator_disjoint 100 (w_graph w0) x Hgen Hin).
  - intros x.
    destruct (in_dec Nat.eq_dec x (GAN.discriminator_vars gan)) as [Hin | Hout];
      [left; exact Hin | right; apply minimize_frame; exact Hout].
  - apply Forall_forall. intros x Hin. apply minimize_frame.
    exact (generator_discriminator_disjoint 100 (w_graph w0) x Hin).
Qed.

(** The statement of C7 for a process that has just started. *)
Lemma optimizer_steps_update_own_network_witness :
  exists (tg : training_graph) (w1 : @world sample_engine),
    build_training_graph sample_world = (Ok tg, w1) /\
    Forall (fun x => w_vars (after (sess_run_op (opt_gen tg) None) sample_world) x
                     = w_vars sample_world x)
           (GAN.discriminator_vars (tg_gan tg)).
Proof.
  destruct (@build_training_graph_result sample_engine sample_world) as (w1 & Hbuild & _).
  exists (@training_graph_of sample_engine (w_graph sample_world)), w1.
  split; [exact Hbuild |].
  exact (proj1 (proj2
    (@optimizer_steps_update_own_network sample_engine sample_world w1 _ None sample_world Hbuild))).
Defined.

(** ** Traces *)

(** No operation writes to the trace. *)
Lemma run_operation_trace `{Engine} :
  forall (o : operation) (fd : feed_dict) (w : world),
    w_trace (run_operation o fd w) = w_trace w.
Proof.
  fix rec 1.
  intros o fd w.
  destruct o as [x value | ops | opt loss var_list | variables optimizers].
  - reflexivity.
  - cbn [run_operation]. revert w.
    induction ops as [| o ops IH]; intros w.
    + reflexivity.
    + cbn [fold_left]. rewrite IH. apply rec.
  - reflexivity.
  - cbn [run_operation].
    destruct (initialize variables 0 (w_rng w) (w_vars w)). reflexivity.
Qed.

Lemma emitted_runs `{Engine} {A : Type} (m : M A) (w w' : world) (a : A) (tr : list event) :
  runs m w a w' tr -> emitted m w = tr.
Proof.
  intros [Hrun Htrace]. unfold emitted, after. rewrite Hrun. cbn [snd].
  rewrite Htrace, skipn_app, skipn_all, Nat.sub_diag. reflexivity.
Qed.

Lemma runs_ret `{Engine} {A : Type} (a : A) (w : world) : runs (ret a) w a w [].
Proof. split; [reflexivity | rewrite app_nil_r; reflexivity]. Qed.

Lemma runs_bind `{Engine} {A B : Type} (m : M A) (k : A -> M B)
  (w w1 w2 : world) (a : A) (b : B) (tr1 tr2 : list event) :
  runs m w a w1 tr1 -> runs (k a) w1 b w2 tr2 -> runs (bind m k) w b w2 (tr1 ++ tr2).
Proof.
  intros [Hm Ht1] [Hk Ht2]. split.
  - unfold bind. rewrite Hm. exact Hk.
  - rewrite Ht2, Ht1, app_assoc. reflexivity.
Qed.

Lemma runs_bind_cons `{Engine} {A B : Type} (m : M A) (k : A -> M B)
  (w w1 w2 : world) (a : A) (b : B) (e : event) (tr : list event) :
  runs m w a w1 [e] -> runs (k a) w1 b w2 tr -> runs (bind m k) w b w2 (e :: tr).
Proof. intros Hm Hk. exact (runs_bind m k w w1 w2 a b [e] tr Hm Hk). Qed.

Lemma runs_emit `{Engine} (e : event) (w : world) :
  runs (emit e) w tt (after (emit e) w) [e].
Proof. split; reflexivity. Qed.

Lemma runs_sess_run_op `{Engine} (o : operation) (fd : option feed_dict) (w : world) :
  runs (sess_run_op o fd) w tt (after (sess_run_op o fd) w) [Ev_run_op o fd].
Proof.
  split; [reflexivity |].
  unfold after. rewrite sess_run_op_world, run_operation_trace. reflexivity.
Qed.

Lemma runs_sess_run_scalar `{Engine} (fetch : node float32) (fd : option feed_dict) (w : world) :
  runs (sess_run_scalar fetch fd) w (fetch (w_vars w) (feed_of fd))
       (after (sess_run_scalar fetch fd) w) [Ev_run_scalar fetch fd].
Proof. split; reflexivity. Qed.

Lemma runs_sample_feed_dict `{Engine} (samples : Samples.t) (w : world) :
  exists batch : feed_dict,
    runs (Samples.sample_feed_dict samples) w batch
         (after (Samples.sample_feed_dict samples) w)
         [Ev_next_batch (Samples.batch_size samples)].
Proof. eexists. split; reflexivity. Qed.

Lemma runs_saver_save `{Engine} (self : saver) (path : string) (w : world) :
  runs (saver_save self path) w tt (after (saver_save self path) w) [Ev_save path].
Proof. split; reflexivity. Qed.

(** One pass of the [for] loop always ends normally and adds the four events
    of [discriminator_events]. *)
Lemma runs_discriminator_step `{Engine} (tg : training_graph) (losses : list float32) (w : world) :
  exists (batch : feed_dict) (l : float32) (w' : world),
    runs (discriminator_step tg losses) w (losses ++ [l]) w' (discriminator_events tg batch).
Proof.
  unfold discriminator_step, discriminator_events.
  destruct (runs_sample_feed_dict (tg_samples tg) w) as [batch Hsample].
  eexists batch, _, _.
  eapply runs_bind_cons; [exact Hsample |].
  eapply runs_bind_cons; [apply runs_sess_run_scalar |].
  eapply runs_bind_cons; [apply runs_sess_run_op |].
  eapply runs_bind_cons; [apply runs_sess_run_op |].
  apply runs_ret.
Qed.

Lemma runs_for_range_discriminator_step `{Engine} (tg : training_graph) (n : nat) :
  forall (acc : list float32) (w : world),
  exists (batches : list feed_dict) (ls : list float32) (w' : world),
    length batches = n /\ length ls = n /\
    runs (for_range n (discriminator_step tg) acc) w (acc ++ ls) w'
         (flat_map (discriminator_events tg) batches).
Proof.
  induction n as [| n IH]; intros acc w.
  - exists [], [], w. repeat split; try reflexivity.
    + simpl. rewrite app_nil_r. reflexivity.
    + simpl. rewrite app_nil_r. reflexivity.
  - destruct (runs_discriminator_step tg acc w) as (batch & l & w1 & Hstep).
    destruct (IH (acc ++ [l]) w1) as (batches & ls & w2 & Hlen & Hlen' & Hrest).
    exists (batch :: batches), (l :: ls), w2.
    split; [simpl; congruence |]. split; [simpl; congruence |].
    cbn [for_range flat_map].
    replace (acc ++ l :: ls) with ((acc ++ [l]) ++ ls) by (rewrite <- app_assoc; reflexivity).
    eapply runs_bind; eassumption.
Qed.

(** One pass of the [while] loop always ends normally; its events are those
    of thirty passes of the [for] loop followed by [generator_events]. *)
Lemma runs_train_iteration `{Engine} (tg : training_graph) (w : world) :
  exists (batches : list feed_dict) (batch : feed_dict) (disc_loss gen_loss : float32) (w' : world),
    length batches = 30 /\
    runs (train_iteration tg) w tt w'
         (flat_map (discriminator_events tg) batches ++
          generator_events tg batch disc_loss gen_loss) /\
    exists w3 : world, w' = after (saver_save (tg_saver tg) SAVE_FILE) w3.
Proof.
  unfold train_iteration, generator_events.
  destruct (runs_for_range_discriminator_step tg 30 [] w)
    as (batches & ls & w1 & Hlen & _ & Hloop).
  destruct (runs_sample_feed_dict (tg_samples tg) w1) as [batch Hsample].
  exists batches, batch. eexists _, _, _.
  split; [exact Hlen |].
  split.
  - eapply runs_bind; [exact Hloop |].
    eapply runs_bind_cons; [exact Hsample |].
    eapply runs_bind_cons; [apply runs_sess_run_scalar |].
    eapply runs_bind_cons; [apply runs_emit |].
    eapply runs_bind_cons; [apply runs_sess_run_op |].
    apply runs_saver_save.
  - eexists. reflexivity.
Qed.

(** ** Traces made of blocks of four events followed by a tail *)

Section BlockTrace.

Variable B : Type.
Variables e1 e2 e3 e4 : B -> event.
Variable tail : list event.

Let block (b : B) : list event := [e1 b; e2 b; e3 b; e4 b].

Let whole (bs : list B) : list event := flat_map block bs ++ tail.

(** A predicate that holds of no event of a block occurs in the tail only. *)
Lemma occurs_in_tail (p : event -> bool) (bs : list B) (i : nat) :
  (forall b, p (e1 b) = false /\ p (e2 b) = false /\ p (e3 b) = false /\ p (e4 b) = false) ->
  occurs p (whole bs) i ->
  exists i', i = 4 * length bs + i' /\ occurs p tail i'.
Proof.
  intros Hblock. revert i.
  induction bs as [| b bs IH]; intros i Hocc.
  - exists i. split; [reflexivity | exact Hocc].
  - destruct (Hblock b) as (H1 & H2 & H3 & H4).
    destruct Hocc as (e & Hnth & Hp).
    destruct i as [| [| [| [| i]]]]; cbn in Hnth;
      try (injection Hnth as <-; congruence).
    destruct (IH i) as (i' & -> & Hocc'); [exists e; split; assumption |].
    exists i'. split; [cbn [length]; lia | exact Hocc'].
Qed.

(** A predicate that holds of no event of the tail occurs in the blocks only. *)
Lemma occurs_in_blocks (p : event -> bool) (bs : list B) (i : nat) :
  forallb (fun e => negb (p e)) tail = true ->
  occurs p (whole bs) i ->
  i < 4 * length bs.
Proof.
  intros Htail (e & Hnth & Hp).
  destruct (Nat.lt_ge_cases i (4 * length bs)) as [Hlt | Hge]; [exact Hlt | exfalso].
  assert (Hlen : length (flat_map block bs) = 4 * length bs).
  { clear. induction bs as [| b bs IH]; cbn [flat_map length app block]; [reflexivity |].
    cbn. rewrite IH. lia. }
  unfold whole in Hnth. rewrite nth_error_app2 in Hnth by lia.
  apply nth_error_In in Hnth.
  rewrite forallb_forall in Htail. specialize (Htail e Hnth).
  rewrite Hp in Htail. discriminate.
Qed.

(** When the third event of each block is the only one that satisfies [p],
    every occurrence of [p] is followed at once by the fourth event of its
    block, and there are as many occurrences as blocks. *)
Lemma occurs_followed (p : event -> bool) (bs : list B) (i : nat) :
  (forall b, p (e1 b) = false /\ p (e2 b) = false /\ p (e3 b) = true /\ p (e4 b) = false) ->
  forallb (fun e => negb (p e)) tail = true ->
  occurs p (whole bs) i ->
  exists b, nth_error (whole bs) (S i) = Some (e4 b).
Proof.
  intros Hblock Htail. revert i.
  induction bs as [| b bs IH]; intros i Hocc.
  - apply (occurs_in_blocks p [] i Htail) in Hocc. cbn in Hocc. lia.
  - destruct (Hblock b) as (H1 & H2 & H3 & H4).
    destruct Hocc as (e & Hnth & Hp).
    destruct i as [| [| [| [| i]]]]; cbn in Hnth;
      try (injection Hnth as <-; congruence).
    + exists b. reflexivity.
    + destruct (IH i) as (b' & Hnext); [exists e; split; assumption |].
      exists b'. exact Hnext.
Qed.

Lemma count_in_blocks (p : event -> bool) (bs : list B) :
  (forall b, p (e1 b) = false /\ p (e2 b) = false /\ p (e3 b) = true /\ p (e4 b) = false) ->
  length (filter p (whole bs)) = length bs + length (filter p tail).
Proof.
  intros Hblock. unfold whole. rewrite filter_app, length_app. f_equal.
  induction bs as [| b bs IH]; [reflexivity |].
  destruct (Hblock b) as (H1 & H2 & H3 & H4).
  cbn [flat_map block app filter]. rewrite H1, H2, H3, H4. cbn [length].
  f_equal. exact IH.
Qed.

Lemma count_in_tail (p : event -> bool) (bs : list B) :
  (forall b, p (e1 b) = false /\ p (e2 b) = false /\ p (e3 b) = false /\ p (e4 b) = false) ->
  length (filter p (whole bs)) = length (filter p tail).
Proof.
  intros Hblock. unfold whole. rewrite filter_app, length_app.
  replace (length (filter p (flat_map block bs))) with 0; [reflexivity |].
  induction bs as [| b bs IH]; [reflexivity |].
  destruct (Hblock b) as (H1 & H2 & H3 & H4).
  cbn [flat_map block app filter]. rewrite H1, H2, H3, H4. exact IH.
Qed.

End BlockTrace.

(** ** The training loop *)

Lemma training_graph_of_distinct_steps `{Engine} (g : graph) :
  distinct_steps (training_graph_of g).
Proof.
  unfold distinct_steps, training_graph_of.
  cbn [opt_gen opt_disc clip_disc].
  do 7 eexists. repeat split. cbn [opt_id]. lia.
Qed.

Section IterationTrace.

Variable tg : training_graph.
Hypothesis Hsteps : distinct_steps tg.
Variable batches : list feed_dict.
Variable batch : feed_dict.
Variables disc_loss gen_loss : float32.

Let tr : list event :=
  flat_map (discriminator_events tg) batches ++ generator_events tg batch disc_loss gen_loss.

Let disc_step : event -> bool := is_step_of (opt_disc tg).
Let gen_step : event -> bool := is_step_of (opt_gen tg).

Let e1 (b : feed_dict) : event := Ev_next_batch (Samples.batch_size (tg_samples tg)).
Let e2 (b : feed_dict) : event := Ev_run_scalar (disc_obj tg) (Some b).
Let e3 (b : feed_dict) : event := Ev_run_op (opt_disc tg) (Some b).
Let e4 (b : feed_dict) : event := Ev_run_op (clip_disc tg) None.
Let tail : list event := generator_events tg batch disc_loss gen_loss.

Lemma disc_step_in_block (b : feed_dict) :
  disc_step (Ev_next_batch (Samples.batch_size (tg_samples tg))) = false /\
  disc_step (Ev_run_scalar (disc_obj tg) (Some b)) = false /\
  disc_step (Ev_run_op (opt_disc tg) (Some b)) = true /\
  disc_step (Ev_run_op (clip_disc tg) None) = false.
Proof.
  destruct Hsteps as (ga & da & gl & dl & gv & dv & ops & Hg & Hd & Hc & Hne).
  unfold disc_step. rewrite Hd, Hc. cbn. rewrite Nat.eqb_refl. auto.
Qed.

Lemma disc_step_in_tail :
  forallb (fun e => negb (disc_step e)) (generator_events tg batch disc_loss gen_loss) = true.
Proof.
  destruct Hsteps as (ga & da & gl & dl & gv & dv & ops & Hg & Hd & Hc & Hne).
  unfold disc_step, generator_events. rewrite Hd, Hg. cbn.
  apply Nat.eqb_neq in Hne. rewrite Hne. reflexivity.
Qed.

Lemma gen_step_in_block (b : feed_dict) :
  gen_step (Ev_next_batch (Samples.batch_size (tg_samples tg))) = false /\
  gen_step (Ev_run_scalar (disc_obj tg) (Some b)) = false /\
  gen_step (Ev_run_op (opt_disc tg) (Some b)) = false /\
  gen_step (Ev_run_op (clip_disc tg) None) = false.
Proof.
  destruct Hsteps as (ga & da & gl & dl & gv & dv & ops & Hg & Hd & Hc & Hne).
  unfold gen_step. rewrite Hd, Hc, Hg. cbn.
  assert (Hne' : opt_id da <> opt_id ga) by congruence.
  apply Nat.eqb_neq in Hne'. rewrite Hne'. auto.
Qed.

Lemma gen_step_in_tail :
  filter gen_step (generator_events tg batch disc_loss gen_loss) =
  [Ev_run_op (opt_gen tg) (Some batch)].
Proof.
  destruct Hsteps as (ga & da & gl & dl & gv & dv & ops & Hg & Hd & Hc & Hne).
  unfold gen_step, generator_events. rewrite Hg. cbn. rewrite Nat.eqb_refl. reflexivity.
Qed.

Lemma iteration_disc_steps_count : length (filter disc_step tr) = length batches.
Proof.
  assert (Hcount : length (filter disc_step tr) =
                   length batches + length (filter disc_step tail))
    by exact (count_in_blocks feed_dict e1 e2 e3 e4 tail disc_step batches disc_step_in_block).
  rewrite Hcount. unfold tail.
  pose proof disc_step_in_tail as Htail.
  assert (Hnone : filter disc_step (generator_events tg batch disc_loss gen_loss) = []).
  { revert Htail. generalize (generator_events tg batch disc_loss gen_loss).
    induction l as [| e l IH]; cbn; [reflexivity |].
    destruct (disc_step e); cbn; [discriminate | exact IH]. }
  rewrite Hnone. cbn. lia.
Qed.

Lemma iteration_gen_steps_count : length (filter gen_step tr) = 1.
Proof.
  assert (Hcount : length (filter gen_step tr) = length (filter gen_step tail))
    by exact (count_in_tail feed_dict e1 e2 e3 e4 tail gen_step batches gen_step_in_block).
  rewrite Hcount. unfold tail. rewrite gen_step_in_tail. reflexivity.
Qed.

Lemma iteration_clip_follows (i : nat) :
  occurs disc_step tr i -> nth_error tr (S i) = Some (Ev_run_op (clip_disc tg) None).
Proof.
  intros Hocc.
  destruct (occurs_followed feed_dict e1 e2 e3 e4 tail disc_step batches i
              disc_step_in_block disc_step_in_tail Hocc) as [b Hnext].
  exact Hnext.
Qed.

Lemma iteration_disc_before_tail (i : nat) :
  occurs disc_step tr i -> i < 4 * length batches.
Proof.
  apply (occurs_in_blocks feed_dict e1 e2 e3 e4 tail disc_step batches i disc_step_in_tail).
Qed.

Lemma iteration_gen_step_position (j : nat) :
  occurs gen_step tr j -> j = 4 * length batches + 3.
Proof.
  intros Hocc.
  destruct (occurs_in_tail feed_dict e1 e2 e3 e4 tail gen_step batches j gen_step_in_block Hocc)
    as (j' & -> & e & Hnth & Hp).
  f_equal.
  destruct Hsteps as (ga & da & gl & dl & gv & dv & ops & Hg & Hd & Hc & Hne).
  unfold gen_step, generator_events in *.
  destruct j' as [| [| [| [| [| j']]]]]; cbn in Hnth;
    try (injection Hnth as <-; cbn in Hp; discriminate);
    try reflexivity.
  destruct j'; discriminate.
Qed.

Lemma iteration_save_position (k : nat) :
  occurs is_save tr k -> k = 4 * length batches + 4.
Proof.
  intros Hocc.
  destruct (occurs_in_tail feed_dict e1 e2 e3 e4 tail is_save batches k
              (fun b => conj eq_refl (conj eq_refl (conj eq_refl eq_refl))) Hocc)
    as (k' & -> & e & Hnth & Hp).
  f_equal. unfold generator_events in *.
  destruct k' as [| [| [| [| [| k']]]]]; cbn in Hnth;
    try (injection Hnth as <-; cbn in Hp; discriminate);
    try reflexivity.
  destruct k'; discriminate.
Qed.

Lemma iteration_print_position (i : nat) :
  occurs is_print_losses tr i -> i = 4 * length batches + 2.
Proof.
  intros Hocc.
  destruct (occurs_in_tail feed_dict e1 e2 e3 e4 tail is_print_losses batches i
              (fun b => conj eq_refl (conj eq_refl (conj eq_refl eq_refl))) Hocc)
    as (i' & -> & e & Hnth & Hp).
  f_equal. unfold generator_events in *.
  destruct i' as [| [| [| [| [| i']]]]]; cbn in Hnth;
    try (injection Hnth as <-; cbn in Hp; discriminate);
    try reflexivity.
  destruct i'; discriminate.
Qed.

End IterationTrace.

(** The events of an iteration, for the graph that [train] builds. *)
Lemma train_iteration_events `{Engine} (w0 w1 : world) (tg : training_graph) (w : world) :
  build_training_graph w0 = (Ok tg, w1) ->
  distinct_steps tg /\
  fst (train_iteration tg w) = Ok tt /\
  exists (batches : list feed_dict) (batch : feed_dict) (disc_loss gen_loss : float32),
    length batches = 30 /\
    emitted (train_iteration tg) w =
      flat_map (discriminator_events tg) batches ++
      generator_events tg batch disc_loss gen_loss.
Proof.
  intros Hbuild. apply build_training_graph_inv in Hbuild. subst tg.
  split; [apply training_graph_of_distinct_steps |].
  destruct (runs_train_iteration (training_graph_of (w_graph w0)) w)
    as (batches & batch & dl & gl & w' & Hlen & Hruns & _).
  split; [destruct Hruns as [Hrun _]; rewrite Hrun; reflexivity |].
  exists batches, batch, dl, gl. split; [exact Hlen |].
  exact (emitted_runs _ _ _ _ _ Hruns).
Qed.

(** C3. In every pass of the [while] loop there are exactly thirty
    discriminator steps, each one is followed at once by a run of the clip
    operation, and there is exactly one generator step, which comes after all
    the discriminator steps. *)
Theorem train_iteration_thirty_discriminator_steps_one_generator_step `{Engine}
  (w0 w1 : world) (tg : training_graph) (w : world) :
  build_training_graph w0 = (Ok tg, w1) ->
  let tr := emitted (train_iteration tg) w in
  let disc_step := is_step_of (opt_disc tg) in
  let gen_step := is_step_of (opt_gen tg) in
  fst (train_iteration tg w) = Ok tt /\
  length (filter disc_step tr) = 30 /\
  (forall i : nat,
     occurs disc_step tr i -> nth_error tr (S i) = Some (Ev_run_op (clip_disc tg) None)) /\
  length (filter gen_step tr) = 1 /\
  (forall i j : nat, occurs disc_step tr i -> occurs gen_step tr j -> i < j).
Proof.
  intros Hbuild.
  destruct (train_iteration_events w0 w1 tg w Hbuild)
    as (Hsteps & Hok & batches & batch & dl & gl & Hlen & Htr).
  cbv zeta. rewrite Htr.
  split; [exact Hok |].
  split; [rewrite (iteration_disc_steps_count tg Hsteps); exact Hlen |].
  split; [intros i; apply (iteration_clip_follows tg Hsteps) |].
  split; [apply (iteration_gen_steps_count tg Hsteps) |].
  intros i j Hi Hj.
  apply (iteration_disc_before_tail tg Hsteps) in Hi.
  apply (iteration_gen_step_position tg Hsteps) in Hj.
  lia.
Qed.

(** The statement of C3 for the first iteration of a process that has just
    built its graph. *)
Lemma train_iteration_thirty_discriminator_steps_witness :
  exists (tg : training_graph) (w1 : @world sample_engine),
    build_training_graph sample_world = (Ok tg, w1) /\
    length (filter (is_step_of (opt_disc tg)) (emitted (train_iteration tg) w1)) = 30.
Proof.
  destruct (@build_training_graph_result sample_engine sample_world) as (w1 & Hbuild & _).
  exists (@training_graph_of sample_engine (w_graph sample_world)), w1.
  split; [exact Hbuild |].
  exact (proj1 (proj2
    (@train_iteration_thirty_discriminator_steps_one_generator_step
       sample_engine sample_world w1 _ w1 Hbuild))).
Defined.

(** The [while] loop never ends normally, and what it adds to the trace is
    what its passes add, one after the other: every pass of the loop is a run
    of [train_iteration]. *)
Lemma while_true_train_iterations `{Engine} (tg : training_graph) (fuel : nat) :
  forall w : world,
    fst (while_true fuel (train_iteration tg) w) = Running /\
    w_trace (after (while_true fuel (train_iteration tg)) w) =
      w_trace w ++ flat_map (emitted (train_iteration tg)) (iteration_starts tg fuel w).
Proof.
  induction fuel as [| fuel IH]; intros w.
  - cbn. rewrite app_nil_r. split; reflexivity.
  - destruct (runs_train_iteration tg w)
      as (batches & batch & dl & gl & w' & _ & Hruns & _).
    pose proof (emitted_runs _ _ _ _ _ Hruns) as Hemitted.
    destruct Hruns as [Hrun Htrace].
    assert (Hafter : after (train_iteration tg) w = w')
      by (unfold after; rewrite Hrun; reflexivity).
    destruct (IH w') as [Hres Hrest].
    assert (Hloop : while_true (S fuel) (train_iteration tg) w =
                    while_true fuel (train_iteration tg) w')
      by (cbn [while_true]; unfold bind; rewrite Hrun; reflexivity).
    cbn [iteration_starts flat_map]. unfold after at 1. rewrite Hloop, Hafter.
    split; [exact Hres |].
    fold (after (while_true fuel (train_iteration tg)) w').
    rewrite Hrest, Htrace, Hemitted, <- app_assoc. reflexivity.
Qed.

(** ** The end of an iteration: print, generator step, save *)

Lemma discriminator_events_length (tg : training_graph) (batches : list feed_dict) :
  length (flat_map (discriminator_events tg) batches) = 4 * length batches.
Proof.
  induction batches as [| b batches IH]; [reflexivity |].
  cbn [flat_map discriminator_events app length]. rewrite IH. lia.
Qed.

Lemma nth_error_generator_events (tg : training_graph) (batches : list feed_dict)
  (batch : feed_dict) (dl gl : float32) (i : nat) :
  nth_error (flat_map (discriminator_events tg) batches ++ generator_events tg batch dl gl)
            (4 * length batches + i) =
  nth_error (generator_events tg batch dl gl) i.
Proof.
  rewrite nth_error_app2; rewrite discriminator_events_length; [| lia].
  f_equal. lia.
Qed.

Lemma lookup_saved {A : Type} (s : var_id -> A) (xs : list var_id) (x : var_id) :
  In x xs -> lookup x (map (fun y => (y, s y)) xs) = Some (s x).
Proof.
  induction xs as [| y xs IH]; intros Hin; [destruct Hin |].
  cbn [map lookup].
  destruct (Nat.eqb x y) eqn:E.
  - apply Nat.eqb_eq in E. subst y. reflexivity.
  - apply Nat.eqb_neq in E. destruct Hin as [Heq | Hin]; [congruence | exact (IH Hin)].
Qed.

Lemma tensor_eta (t : tensor) : mk_tensor (shape t) (data t) = t.
Proof. destruct t. reflexivity. Qed.

Lemma stored_tensor_saved (s : store) (xs : list var_id) (x : var_id) :
  In x xs ->
  stored_tensor (map (fun y => (y, shape (s y))) xs) (map (fun y => (y, data (s y))) xs) x =
  Some (s x).
Proof.
  intros Hin. unfold stored_tensor.
  rewrite (lookup_saved (fun y => shape (s y)) xs x Hin).
  rewrite (lookup_saved (fun y => data (s y)) xs x Hin).
  rewrite tensor_eta. reflexivity.
Qed.

(** After [saver.save] the index and the data file hold the shape and the
    elements of every saved variable, the two other files hold the graph and
    the prefix, every other file is as before and so is the session. *)
Lemma saver_save_persists `{Engine} (self : saver) (w : world) :
  let w' := after (saver_save self SAVE_FILE) w in
  w_vars w' = w_vars w /\
  w_files w' (index_file SAVE_FILE) =
    Some (File_index (map (fun x => (x, shape (w_vars w' x))) (saved_vars self))) /\
  w_files w' (data_file SAVE_FILE) =
    Some (File_data (map (fun x => (x, data (w_vars w' x))) (saved_vars self))) /\
  w_files w' (meta_file SAVE_FILE) = Some (File_meta (g_variables (w_graph w))) /\
  w_files w' checkpoint_state_file = Some (File_checkpoint_state SAVE_FILE) /\
  (forall p : string, ~ In p (checkpoint_files SAVE_FILE) -> w_files w' p = w_files w p).
Proof.
  cbv zeta. unfold after, saver_save, bind, emit, set_files.
  cbn [snd w_vars w_files w_graph].
  split; [reflexivity |]. split; [reflexivity |]. split; [reflexivity |].
  split; [reflexivity |]. split; [reflexivity |].
  intros p Hp. unfold write.
  destruct (String.eqb_spec p checkpoint_state_file) as [-> | _];
    [exfalso; apply Hp; cbn; auto |].
  destruct (String.eqb_spec p (meta_file SAVE_FILE)) as [-> | _];
    [exfalso; apply Hp; cbn; auto |].
  destruct (String.eqb_spec p (data_file SAVE_FILE)) as [-> | _];
    [exfalso; apply Hp; cbn; auto |].
  destruct (String.eqb_spec p (index_file SAVE_FILE)) as [-> | _];
    [exfalso; apply Hp; cbn; auto |].
  reflexivity.
Qed.

(** The saver of [train] handles every variable of the two networks. *)
Lemma training_saver_covers_GAN `{Engine} (g : graph) (x : var_id) :
  let tg := training_graph_of g in
  In x (GAN.generator_vars (tg_gan tg) ++ GAN.discriminator_vars (tg_gan tg)) ->
  In x (saved_vars (tg_saver tg)).
Proof.
  cbv zeta. unfold training_graph_of. cbn [tg_gan tg_saver saved_vars].
  rewrite generator_vars_new_GAN, discriminator_vars_new_GAN.
  rewrite in_app_iff, !in_seq. lia.
Qed.

(** C8, as the code has it. In every pass of the [while] loop the losses are
    printed first, the generator step is applied next and the model state is
    saved last: these are the last three events of the pass, in that order and
    once each; and when the pass ends, the index and the data file of the
    checkpoint hold the value of every variable of the generator and of the
    discriminator. *)
Theorem train_iteration_prints_steps_then_saves `{Engine}
  (w0 w1 : world) (tg : training_graph) (w : world) :
  build_training_graph w0 = (Ok tg, w1) ->
  let tr := emitted (train_iteration tg) w in
  let w' := after (train_iteration tg) w in
  let gen_step := is_step_of (opt_gen tg) in
  (exists i : nat,
     occurs is_print_losses tr i /\ occurs gen_step tr (S i) /\ occurs is_save tr (S (S i)) /\
     length tr = S (S (S i))) /\
  (forall i j k : nat,
     occurs is_print_losses tr i -> occurs gen_step tr j -> occurs is_save tr k ->
     i < j /\ j < k) /\
  (exists (entries : list (var_id * list nat)) (values : list (var_id * list float32)),
     w_files w' (index_file SAVE_FILE) = Some (File_index entries) /\
     w_files w' (data_file SAVE_FILE) = Some (File_data values) /\
     Forall (fun x => stored_tensor entries values x = Some (w_vars w' x))
            (GAN.generator_vars (tg_gan tg) ++ GAN.discriminator_vars (tg_gan tg))).
Proof.
  intros Hbuild.
  pose proof (build_training_graph_inv w0 w1 tg Hbuild) as Htg.
  assert (Hsteps : distinct_steps tg) by (subst tg; apply training_graph_of_distinct_steps).
  destruct (runs_train_iteration tg w)
    as (batches & batch & dl & gl & w' & Hlen & Hruns & w3 & Hw').
  cbv zeta. rewrite (emitted_runs _ _ _ _ _ Hruns).
  assert (Hafter : after (train_iteration tg) w = w')
    by (unfold after; destruct Hruns as [Hrun _]; rewrite Hrun; reflexivity).
  rewrite Hafter. clear Hafter Hruns.
  split; [| split].
  - exists (4 * length batches + 2).
    destruct Hsteps as (ga & da & gl' & dl' & gv & dv & ops & Hg & Hd & Hc & Hne).
    repeat split.
    + eexists. rewrite nth_error_generator_events. split; reflexivity.
    + replace (S (4 * length batches + 2)) with (4 * length batches + 3) by lia.
      eexists. rewrite nth_error_generator_events. split; [reflexivity |].
      rewrite Hg. cbn. apply Nat.eqb_refl.
    + replace (S (S (4 * length batches + 2))) with (4 * length batches + 4) by lia.
      eexists. rewrite nth_error_generator_events. split; reflexivity.
    + rewrite length_app, discriminator_events_length. cbn. lia.
  - intros i j k Hi Hj Hk.
    apply (iteration_print_position tg) in Hi.
    apply (iteration_gen_step_position tg Hsteps) in Hj.
    apply (iteration_save_position tg) in Hk.
    lia.
  - subst w'.
    destruct (saver_save_persists (tg_saver tg) w3) as (_ & Hindex & Hdata & _).
    eexists. eexists. split; [exact Hindex |]. split; [exact Hdata |].
    apply Forall_forall. intros x Hin.
    apply stored_tensor_saved.
    subst tg. apply training_saver_covers_GAN. exact Hin.
Qed.

(** The statement of C8 as the code has it, for the first iteration of a
    process that has just built its graph. *)
Lemma train_iteration_prints_steps_then_saves_witness :
  exists (tg : training_graph) (w1 : @world sample_engine),
    build_training_graph sample_world = (Ok tg, w1) /\
    exists i : nat,
      occurs is_print_losses (emitted (train_iteration tg) w1) i /\
      occurs (is_step_of (opt_gen tg)) (emitted (train_iteration tg) w1) (S i) /\
      occurs is_save (emitted (train_iteration tg) w1) (S (S i)) /\
      length (emitted (train_iteration tg) w1) = S (S (S i)).
Proof.
  destruct (@build_training_graph_result sample_engine sample_world) as (w1 & Hbuild & _).
  exists (@training_graph_of sample_engine (w_graph sample_world)), w1.
  split; [exact Hbuild |].
  exact (proj1
    (@train_iteration_prints_steps_then_saves sample_engine sample_world w1 _ w1 Hbuild)).
Defined.

(** C8 as stated fails: in the first iteration of a process that has just
    built its graph, no save comes between the generator step and the print
    of the losses. *)
Lemma persisted_before_printed_counterexample :
  exists (tg : training_graph) (w1 : @world sample_engine),
    build_training_graph sample_world = (Ok tg, w1) /\
    ~ persisted_before_printed tg (emitted (train_iteration tg) w1).
Proof.
  destruct (@build_training_graph_result sample_engine sample_world) as (w1 & Hbuild & _).
  exists (@training_graph_of sample_engine (w_graph sample_world)), w1.
  split; [exact Hbuild |].
  intros (i & j & k & Hij & Hjk & Hgen & Hsave & Hprint).
  destruct (@train_iteration_events sample_engine sample_world w1 _ w1 Hbuild)
    as (Hsteps & _ & batches & batch & dl & gl & _ & Htr).
  rewrite Htr in Hgen, Hsave, Hprint.
  apply (iteration_save_position _ batches batch dl gl) in Hsave.
  apply (iteration_print_position _ batches batch dl gl) in Hprint.
  lia.
Qed.

(** ** The command line *)

Lemma known_command_false (cmd : string) :
  known_command cmd = false ->
  String.eqb cmd "create" = false /\
  String.eqb cmd "train" = false /\
  String.eqb cmd "generate" = false.
Proof.
  unfold known_command. intros Hk.
  apply orb_false_iff in Hk. destruct Hk as [Hk Hgenerate].
  apply orb_false_iff in Hk. destruct Hk as [Hcreate Htrain].
  auto.
Qed.

Lemma main_missing_subcommand `{Engine} (fuel : nat) (argv : list string) (w : world) :
  length argv < 2 ->
  main fuel argv w = (Raise (SystemExit None), after (print usage) w).
Proof.
  intros Hlen. unfold main.
  apply Nat.ltb_lt in Hlen. rewrite Hlen. reflexivity.
Qed.

Lemma main_unknown_subcommand `{Engine} (fuel : nat) (argv : list string) (w : world) :
  2 <= length argv ->
  known_command (nth 1 argv ""%string) = false ->
  main fuel argv w =
  (Raise (SystemExit None), after (print ("Unknown command: " ++ nth 1 argv "")%string) w).
Proof.
  intros Hlen Hk. unfold main.
  apply Nat.ltb_ge in Hlen. rewrite Hlen.
  destruct (known_command_false _ Hk) as (Hc & Ht & Hg).
  rewrite bind_ret. cbv zeta. rewrite Hc, Ht, Hg. reflexivity.
Qed.

(** C9, as the code has it. With no subcommand the process prints the usage
    line; with a subcommand other than create, train and generate it prints
    [Unknown command: ] followed by the subcommand.  In both cases this is
    the only effect (the session, the graph and the files are as before), the
    process ends through [sys.exit()] and its exit status is 0. *)
Theorem main_invalid_invocation `{Engine} (fuel : nat) (argv : list string) (w : world) :
  invalid_invocation argv ->
  let line := if length argv <? 2 then usage
              else ("Unknown command: " ++ nth 1 argv "")%string in
  main fuel argv w = (Raise (SystemExit None), after (print line) w) /\
  emitted (main fuel argv) w = [Ev_print line] /\
  exit_status (fst (main fuel argv w)) = Some 0.
Proof.
  intros Hinvalid. cbv zeta.
  assert (Hmain : main fuel argv w =
    (Raise (SystemExit None),
     after (print (if length argv <? 2 then usage
                   else ("Unknown command: " ++ nth 1 argv "")%string)) w)).
  { destruct (Nat.lt_ge_cases (length argv) 2) as [Hlt | Hge].
    - rewrite (proj2 (Nat.ltb_lt _ _) Hlt). apply main_missing_subcommand. exact Hlt.
    - rewrite (proj2 (Nat.ltb_ge _ _) Hge).
      destruct Hinvalid as [Hlt | Hk]; [lia |].
      apply main_unknown_subcommand; assumption. }
  split; [exact Hmain |]. split.
  - unfold emitted, after at 1. rewrite Hmain. cbn [snd].
    unfold after, print, emit. cbn [snd w_trace].
    rewrite skipn_app, skipn_all, Nat.sub_diag. reflexivity.
  - rewrite Hmain. reflexivity.
Qed.

(** The statement of C9 as the code has it, for an unknown subcommand. *)
Lemma main_invalid_invocation_witness :
  invalid_invocation ["mnist_gan"; "foo"]%string /\
  emitted (main 0 ["mnist_gan"; "foo"]%string) sample_world =
    [Ev_print "Unknown command: foo"].
Proof.
  assert (Hinvalid : invalid_invocation ["mnist_gan"; "foo"]%string)
    by (right; reflexivity).
  split; [exact Hinvalid |].
  exact (proj1 (proj2 (@main_invalid_invocation sample_engine 0 _ sample_world Hinvalid))).
Defined.

(** C9 as stated fails: with the unknown subcommand [foo] the process does
    not print the usage line. *)
Lemma prints_usage_counterexample :
  invalid_invocation ["mnist_gan"; "foo"]%string /\
  ~ @prints_usage_and_exits sample_engine 0 ["mnist_gan"; "foo"]%string sample_world.
Proof.
  split; [right; reflexivity |].
  unfold prints_usage_and_exits. intros Habs.
  rewrite main_unknown_subcommand in Habs by (cbn; auto).
  apply (f_equal (fun r => w_trace (snd r))) in Habs.
  cbn in Habs. discriminate Habs.
Qed.

(** * The rest of the program *)

(** ** Networks and layers *)

(** X1. For a positive noise size, [GAN(noise_size)] declares exactly
    twenty-six variables, numbered consecutively from the first free number:
    fourteen for the generator, then twelve for the discriminator.  No
    variable belongs to two layers, the graph grows by these twenty-six
    declarations and no optimizer is created. *)
Theorem GAN_declares_fresh_variables (noise_size : nat) (g : graph) :
  0 < noise_size ->
  let gan := new_GAN noise_size g in
  let g' := snd (GAN.__init__ noise_size g) in
  GAN.generator_vars gan ++ GAN.discriminator_vars gan = seq (length (g_variables g)) 26 /\
  length (GAN.generator_vars gan) = 14 /\
  length (GAN.discriminator_vars gan) = 12 /\
  NoDup (GAN.generator_vars gan ++ GAN.discriminator_vars gan) /\
  length (g_variables g') = length (g_variables g) + 26 /\
  g_optimizers g' = g_optimizers g.
Proof.
  intros _. cbv zeta.
  destruct (allocates_GAN noise_size g) as (Hgen & Hdisc & Hlen & Hopt).
  rewrite Hgen, Hdisc.
  assert (Hall : seq (length (g_variables g)) 14 ++ seq (14 + length (g_variables g)) 12
                 = seq (length (g_variables g)) 26).
  { replace (14 + length (g_variables g)) with (length (g_variables g) + 14) by lia.
    rewrite <- seq_app. reflexivity. }
  split; [exact Hall |].
  split; [apply length_seq |]. split; [apply length_seq |].
  split; [| split; assumption].
  change (NoDup (seq (length (g_variables g)) 14 ++ seq (14 + length (g_variables g)) 12)).
  rewrite Hall. apply seq_NoDup.
Qed.

(** The statement of X1 for the default noise size in an empty graph. *)
Lemma GAN_declares_fresh_variables_witness :
  0 < 100 /\
  GAN.generator_vars (new_GAN 100 empty_graph) ++ GAN.discriminator_vars (new_GAN 100 empty_graph)
  = seq 0 26.
Proof.
  assert (Hpos : 0 < 100) by lia.
  split; [exact Hpos |].
  exact (proj1 (GAN_declares_fresh_variables 100 empty_graph Hpos)).
Defined.

(** X2. Networks compose: applying the concatenation of two networks is
    applying the first and then the second, and its variables are those of
    the first followed by those of the second. *)
Theorem network_concatenation `{Engine} (n1 n2 : network) (s : store) (inputs : tensor) :
  apply_network (n1 ++ n2) s inputs = apply_network n2 s (apply_network n1 s inputs) /\
  network_vars (n1 ++ n2) = network_vars n1 ++ network_vars n2.
Proof.
  split.
  - unfold apply_network. apply fold_left_app.
  - rewrite !network_vars_flat_map. apply flat_map_app.
Qed.

Lemma relu_non_negative (v : float32) : non_negative (f32_max v (Num 0)).
Proof.
  unfold non_negative. destruct v as [x | | |].
  - rewrite f32_max_num. cbn [f32_lt].
    destruct (Rlt_dec (Rmax x 0) 0) as [Hlt | _]; [| reflexivity].
    pose proof (Rmax_r x 0). lra.
  - reflexivity.
  - cbn. destruct (Rlt_dec 0 0) as [Hlt | _]; [lra | reflexivity].
  - reflexivity.
Qed.

Lemma tf_nn_relu_non_negative (t : tensor) : Forall non_negative (data (tf_nn_relu t)).
Proof.
  unfold tf_nn_relu, tf_map. cbn [data].
  apply Forall_forall. intros v Hin.
  apply in_map_iff in Hin. destruct Hin as [x [<- _]].
  apply relu_non_negative.
Qed.

(** X3. A fully connected or convolutional layer built with its activation
    (the default) returns no negative element, whatever the input, the
    parameters and the convolution kernel. *)
Theorem activated_layer_non_negative `{Engine} (l : layer) (s : store) (inputs : tensor) :
  match l with
  | L_FC fc => FC.activation fc = true
  | L_Conv cv => Conv.activation cv = true
  | _ => False
  end ->
  Forall non_negative (data (layer_apply l s inputs)).
Proof.
  destruct l as [fc | rs | rz | cv]; intros Hact; try contradiction.
  - cbn [layer_apply]. unfold FC.apply. rewrite Hact. cbn [negb].
    apply tf_nn_relu_non_negative.
  - cbn [layer_apply]. unfold Conv.apply. rewrite Hact. cbn [negb].
    apply tf_nn_relu_non_negative.
Qed.

Lemma matmul_data_length {A : Type} (n m : nat) (f : nat -> nat -> A) :
  length (flat_map (fun i => map (fun j => f i j) (seq 0 m)) (seq 0 n)) = n * m.
Proof.
  generalize 0 at 2. induction n as [| n IH]; intros start; cbn [seq flat_map].
  - reflexivity.
  - rewrite length_app, length_map, length_seq, IH. lia.
Qed.

Lemma FC_apply_cases (fc : FC.t) (s : store) (inputs : tensor) :
  let pre := tf_add (tf_matmul inputs (s (FC.weights fc))) (s (FC.biases fc)) in
  FC.apply fc s inputs = pre \/ FC.apply fc s inputs = tf_nn_relu pre.
Proof.
  cbv zeta. unfold FC.apply. destruct (FC.activation fc); cbn [negb]; auto.
Qed.

(** X4. A fully connected layer whose weights have shape [in, out] maps a
    batch of shape [B, in] to a batch of shape [B, out] with B * out elements,
    with or without activation. *)
Theorem FC_apply_shape (fc : FC.t) (s : store) (inputs : tensor) (B n_in n_out : nat) :
  shape inputs = [B; n_in] ->
  shape (s (FC.weights fc)) = [n_in; n_out] ->
  shape (FC.apply fc s inputs) = [B; n_out] /\
  length (data (FC.apply fc s inputs)) = B * n_out.
Proof.
  intros Hin Hw.
  assert (Hpre : shape (tf_add (tf_matmul inputs (s (FC.weights fc))) (s (FC.biases fc)))
                 = [B; n_out] /\
                 length (data (tf_add (tf_matmul inputs (s (FC.weights fc)))
                                      (s (FC.biases fc)))) = B * n_out).
  { split.
    - unfold tf_add, tf_matmul. cbn [shape]. rewrite Hin, Hw. reflexivity.
    - rewrite tf_add_length. unfold tf_matmul. cbn [data]. rewrite Hin, Hw. cbn [nth].
      apply matmul_data_length. }
  destruct (FC_apply_cases fc s inputs) as [-> | ->]; [exact Hpre |].
  unfold tf_nn_relu, tf_map. cbn [shape data]. rewrite length_map. exact Hpre.
Qed.

(** The statement of X4 at a concrete layer: one example with two inputs and
    three outputs. *)
Lemma FC_apply_shape_witness :
  let fc := {| FC.activation := true; FC.weights := 0; FC.biases := 1 |} in
  let s : store :=
    fun x => if Nat.eqb x 0
             then mk_tensor [2; 3] [Num 1; Num 2; Num 3; Num 4; Num 5; Num 6]
             else mk_tensor [1; 3] [Num 0; Num 0; Num 0] in
  let inputs := mk_tensor [1; 2] [Num 1; Num 1] in
  shape (FC.apply fc s inputs) = [1; 3] /\ length (data (FC.apply fc s inputs)) = 1 * 3.
Proof.
  cbv zeta.
  apply (FC_apply_shape _ _ _ 1 2 3); reflexivity.
Defined.

(** The statement of X3 at a concrete layer and input: the weight is -5 and
    the input is 1. *)
Lemma activated_layer_non_negative_witness :
  Forall non_negative
    (data (@layer_apply sample_engine
             (L_FC {| FC.activation := true; FC.weights := 0; FC.biases := 1 |})
             (fun _ => mk_tensor [1; 1] [Num (- 5)])
             (mk_tensor [1; 1] [Num 1]))).
Proof.
  apply (@activated_layer_non_negative sample_engine
           (L_FC {| FC.activation := true; FC.weights := 0; FC.biases := 1 |})).
  reflexivity.
Defined.

(** ** What the session operations leave alone *)

(** No operation touches the graph, the files or the data set. *)
Lemma run_operation_frame `{Engine} :
  forall (o : operation) (fd : feed_dict) (w : world),
    w_graph (run_operation o fd w) = w_graph w /\
    w_files (run_operation o fd w) = w_files w /\
    w_cursor (run_operation o fd w) = w_cursor w.
Proof.
  fix rec 1.
  intros o fd w.
  destruct o as [x value | ops | opt loss var_list | variables optimizers].
  - repeat split.
  - cbn [run_operation]. revert w.
    induction ops as [| o ops IH]; intros w.
    + repeat split.
    + cbn [fold_left].
      destruct (IH (run_operation o fd w)) as (Hg & Hf & Hc).
      destruct (rec o fd w) as (Hg' & Hf' & Hc').
      rewrite Hg, Hf, Hc. auto.
  - repeat split.
  - cbn [run_operation].
    destruct (initialize variables 0 (w_rng w) (w_vars w)). repeat split.
Qed.

Lemma sess_run_op_files `{Engine} (o : operation) (fd : option feed_dict) (w : world) :
  w_files (after (sess_run_op o fd) w) = w_files w.
Proof.
  unfold after. rewrite sess_run_op_world.
  destruct (run_operation_frame o (feed_of fd) (snd (emit (Ev_run_op o fd) w))) as (_ & Hf & _).
  rewrite Hf. reflexivity.
Qed.

Lemma sess_run_op_graph `{Engine} (o : operation) (fd : option feed_dict) (w : world) :
  w_graph (after (sess_run_op o fd) w) = w_graph w.
Proof.
  unfold after. rewrite sess_run_op_world.
  destruct (run_operation_frame o (feed_of fd) (snd (emit (Ev_run_op o fd) w))) as (Hg & _).
  rewrite Hg. reflexivity.
Qed.

(** ** The initializer *)

Lemma initial_value_shape `{Engine} (rng : nat) (i : initializer) :
  shape (initial_value rng i) = init_shape i.
Proof. destruct i; reflexivity. Qed.

Lemma initial_value_size `{Engine} (rng : nat) (i : initializer) :
  length (data (initial_value rng i)) = numel (shape (initial_value rng i)).
Proof.
  destruct i as [sh stddev | sh]; cbn [initial_value].
  - unfold tf_random_normal. cbn [data shape]. rewrite length_map, length_seq. reflexivity.
  - apply tf_zeros_length.
Qed.

Lemma initialize_outside `{Engine} (variables : list initializer) :
  forall (x0 rng : nat) (s : store) (y : var_id),
    y < x0 \/ x0 + length variables <= y ->
    fst (initialize variables x0 rng s) y = s y.
Proof.
  induction variables as [| i rest IH]; intros x0 rng s y Hy; [reflexivity |].
  cbn [initialize length] in *.
  rewrite IH by lia. apply assign_other. lia.
Qed.

Lemma initialize_inside `{Engine} (variables : list initializer) :
  forall (x0 rng : nat) (s : store) (k : nat) (i : initializer),
    nth_error variables k = Some i ->
    exists r : nat, rng <= r /\ fst (initialize variables x0 rng s) (x0 + k) = initial_value r i.
Proof.
  induction variables as [| i0 rest IH]; intros x0 rng s k i Hnth.
  - destruct k; discriminate.
  - destruct k as [| k]; cbn [nth_error] in Hnth.
    + injection Hnth as ->. exists rng. split; [lia |].
      cbn [initialize]. rewrite initialize_outside by lia.
      rewrite Nat.add_0_r. apply assign_same.
    + cbn [initialize].
      destruct (IH (S x0)
                  (match i0 with Init_random_normal _ _ => S rng | Init_zeros _ => rng end)
                  (assign s x0 (initial_value rng i0)) k i Hnth) as (r & Hr & Hval).
      exists r. split; [destruct i0; lia |].
      replace (x0 + S k) with (S x0 + k) by lia. exact Hval.
Qed.

Lemma sess_run_initializer_vars `{Engine} (variables : list initializer) (optimizers : nat)
  (fd : option feed_dict) (w : world) :
  w_vars (after (sess_run_op (Op_initializer variables optimizers) fd) w) =
  fst (initialize variables 0 (w_rng w) (w_vars w)).
Proof.
  unfold after. rewrite sess_run_op_world. cbn [run_operation emit snd w_rng w_vars].
  destruct (initialize variables 0 (w_rng w) (w_vars w)). reflexivity.
Qed.

(** ** The files of the data set *)

Lemma maybe_download_other (dir : string) (files : file_system) (name p : string) :
  p <> (dir ++ "/" ++ name)%string -> maybe_download dir files name p = files p.
Proof.
  intros Hp. unfold maybe_download.
  destruct (files (dir ++ "/" ++ name)%string); [reflexivity |].
  unfold write. apply String.eqb_neq in Hp. rewrite Hp. reflexivity.
Qed.

Lemma maybe_download_keeps (dir : string) (files : file_system) (name p : string) (f : file) :
  files p = Some f -> maybe_download dir files name p = Some f.
Proof.
  intros Hp. unfold maybe_download.
  destruct (files (dir ++ "/" ++ name)%string) eqn:Hthere; [exact Hp |].
  unfold write. destruct (String.eqb_spec p (dir ++ "/" ++ name)%string) as [-> | _];
    [congruence | exact Hp].
Qed.

(** [read_data_sets] changes no file that exists, and creates no file other
    than the four archives. *)
Lemma downloaded_other (files : file_system) (p : string) :
  ~ In p mnist_files -> downloaded files p = files p.
Proof.
  intros Hp. unfold downloaded, mnist_archives. cbn [fold_left].
  rewrite !maybe_download_other; [reflexivity | | | |];
    intros ->; apply Hp; cbn; auto.
Qed.

Lemma downloaded_keeps (files : file_system) (p : string) (f : file) :
  files p = Some f -> downloaded files p = Some f.
Proof.
  intros Hp. unfold downloaded, mnist_archives. cbn [fold_left].
  repeat apply maybe_download_keeps. exact Hp.
Qed.

Lemma checkpoint_not_downloaded :
  ~ In (index_file SAVE_FILE) mnist_files /\ ~ In (data_file SAVE_FILE) mnist_files.
Proof.
  split; intros [H | [H | [H | [H | []]]]]; discriminate H.
Qed.

Lemma restorable_downloaded (files : file_system) (g : graph) (xs : list var_id) :
  restorable (downloaded files) g xs = restorable files g xs.
Proof.
  unfold restorable.
  rewrite (downloaded_other files _ (proj1 checkpoint_not_downloaded)).
  rewrite (downloaded_other files _ (proj2 checkpoint_not_downloaded)).
  reflexivity.
Qed.

(** ** [saver.restore] *)

Lemma validate_shape_ext (g g' : graph) (x : var_id) (sh : list nat) :
  nth_error (g_variables g) x = nth_error (g_variables g') x ->
  validate_shape g x sh = validate_shape g' x sh.
Proof. intros Heq. unfold validate_shape, declared_shape. rewrite Heq. reflexivity. Qed.

Lemma forallb_agree {A : Type} (f f' : A -> bool) (l : list A) :
  (forall x, In x l -> f x = f' x) -> forallb f l = forallb f' l.
Proof.
  induction l as [| a l IH]; intros Hagree; [reflexivity |].
  cbn [forallb]. rewrite (Hagree a) by (left; reflexivity).
  rewrite IH by (intros x Hx; apply Hagree; right; exact Hx). reflexivity.
Qed.

Lemma restorable_ext (files : file_system) (g g' : graph) (xs : list var_id) :
  (forall x, In x xs -> nth_error (g_variables g) x = nth_error (g_variables g') x) ->
  restorable files g xs = restorable files g' xs.
Proof.
  intros Hagree. unfold restorable.
  destruct (files (index_file SAVE_FILE)) as [[| entries | | |] |]; try reflexivity.
  destruct (files (data_file SAVE_FILE)) as [[| | values | |] |]; try reflexivity.
  apply forallb_agree. intros x Hx.
  destruct (lookup x entries), (lookup x values); try reflexivity.
  f_equal. apply validate_shape_ext. exact (Hagree x Hx).
Qed.

Lemma assign_restored_ok (entries : list (var_id * list nat))
  (values : list (var_id * list float32)) (g : graph) (xs : list var_id) :
  forall s : store,
    forallb (fun x => match lookup x entries, lookup x values with
                      | Some sh, Some v =>
                          Nat.eqb (length v) (numel sh) && validate_shape g x sh
                      | _, _ => false
                      end) xs = true ->
    exists s' : store,
      assign_restored entries values g xs s = inl s' /\
      (forall x, In x xs -> stored_tensor entries values x = Some (s' x)) /\
      (forall y, ~ In y xs -> s' y = s y).
Proof.
  induction xs as [| x xs IH]; intros s Hall.
  - exists s. split; [reflexivity |]. split; [intros x [] | reflexivity].
  - cbn [forallb] in Hall. apply andb_true_iff in Hall. destruct Hall as [Hx Hrest].
    cbn [assign_restored].
    destruct (lookup x entries) as [sh |] eqn:Hsh; [| discriminate Hx].
    destruct (lookup x values) as [v |] eqn:Hv; [| discriminate Hx].
    apply andb_true_iff in Hx. destruct Hx as [Hsize Hshape].
    rewrite Hsize, Hshape.
    destruct (IH (assign s x (mk_tensor sh v)) Hrest) as (s' & Hres & Hin & Hout).
    exists s'. split; [exact Hres |]. split.
    + intros y [<- | Hy]; [| exact (Hin y Hy)].
      destruct (in_dec Nat.eq_dec x xs) as [Hmem | Hnot].
      * exact (Hin x Hmem).
      * rewrite (Hout x Hnot), assign_same. unfold stored_tensor. rewrite Hsh, Hv. reflexivity.
    + intros y Hy. rewrite Hout by (intros Hmem; apply Hy; right; exact Hmem).
      apply assign_other. intros ->. apply Hy. left. reflexivity.
Qed.

(** When the assignment fails, it is with one of the three errors of the
    saver, and then some variable has no usable tensor. *)
Lemma assign_restored_error (entries : list (var_id * list nat))
  (values : list (var_id * list float32)) (g : graph) (xs : list var_id) :
  forall (s : store) (e : exn),
    assign_restored entries values g xs s = inr e ->
    exit_status (@Raise unit e) = Some 1 /\
    forallb (fun x => match lookup x entries, lookup x values with
                      | Some sh, Some v =>
                          Nat.eqb (length v) (numel sh) && validate_shape g x sh
                      | _, _ => false
                      end) xs = false.
Proof.
  induction xs as [| x xs IH]; intros s e Hres; [discriminate Hres |].
  cbn [assign_restored] in Hres. cbn [forallb].
  destruct (lookup x entries) as [sh |]; [| injection Hres as <-; split; reflexivity].
  destruct (lookup x values) as [v |]; [| injection Hres as <-; split; reflexivity].
  destruct (Nat.eqb (length v) (numel sh)); [| injection Hres as <-; split; reflexivity].
  destruct (validate_shape g x sh); [| injection Hres as <-; split; reflexivity].
  destruct (IH _ e Hres) as [Hstatus Hall]. split; [exact Hstatus | exact Hall].
Qed.

Lemma restorable_has_keys (entries : list (var_id * list nat))
  (values : list (var_id * list float32)) (g : graph) (xs : list var_id) :
  forallb (fun x => match lookup x entries, lookup x values with
                    | Some sh, Some v =>
                        Nat.eqb (length v) (numel sh) && validate_shape g x sh
                    | _, _ => false
                    end) xs = true ->
  has_keys entries xs = true.
Proof.
  intros Hall. unfold has_keys. rewrite forallb_forall in *. intros x Hx.
  specialize (Hall x Hx). destruct (lookup x entries); [reflexivity | discriminate Hall].
Qed.

(** Restoring succeeds exactly when the checkpoint is restorable.  It then
    gives each saved variable the tensor of the files and leaves every other
    variable alone; no file changes. *)
Lemma saver_restore_ok `{Engine} (self : saver) (w : world) :
  restorable (w_files w) (w_graph w) (saved_vars self) = true ->
  exists (w' : world) (entries : list (var_id * list nat))
         (values : list (var_id * list float32)),
    saver_restore self SAVE_FILE w = (Ok tt, w') /\
    w_trace w' = w_trace w ++ [Ev_restore SAVE_FILE] /\
    w_files w' = w_files w /\
    w_files w (index_file SAVE_FILE) = Some (File_index entries) /\
    w_files w (data_file SAVE_FILE) = Some (File_data values) /\
    (forall x, In x (saved_vars self) -> stored_tensor entries values x = Some (w_vars w' x)) /\
    (forall y, ~ In y (saved_vars self) -> w_vars w' y = w_vars w y).
Proof.
  unfold restorable. intros Hok.
  destruct (w_files w (index_file SAVE_FILE)) as [[| entries | | |] |] eqn:Hindex;
    try discriminate Hok.
  destruct (w_files w (data_file SAVE_FILE)) as [[| | values | |] |] eqn:Hdata;
    try discriminate Hok.
  destruct (assign_restored_ok entries values (w_graph w) (saved_vars self) (w_vars w) Hok)
    as (s' & Hres & Hin & Hout).
  exists (set_vars (after (emit (Ev_restore SAVE_FILE)) w) s'), entries, values.
  split.
  - unfold saver_restore. rewrite bind_emit.
    unfold after, emit. cbn [snd w_files w_vars w_graph].
    rewrite Hindex, (restorable_has_keys _ _ _ _ Hok), Hdata, Hres. reflexivity.
  - repeat split; assumption.
Qed.

(** Otherwise it raises, the process will end with status 1, and nothing
    has changed but the trace. *)
Lemma saver_restore_fails `{Engine} (self : saver) (w : world) :
  restorable (w_files w) (w_graph w) (saved_vars self) = false ->
  exists e : exn,
    saver_restore self SAVE_FILE w = (Raise e, after (emit (Ev_restore SAVE_FILE)) w) /\
    exit_status (@Raise unit e) = Some 1.
Proof.
  unfold restorable. intros Hbad.
  unfold saver_restore. rewrite bind_emit.
  unfold after, emit. cbn [snd w_files w_vars w_graph].
  destruct (w_files w (index_file SAVE_FILE)) as [[| entries | | |] |];
    try (eexists; split; reflexivity).
  destruct (has_keys entries (saved_vars self)); [| eexists; split; reflexivity].
  destruct (w_files w (data_file SAVE_FILE)) as [[| | values | |] |];
    try (eexists; split; reflexivity).
  destruct (assign_restored entries values (w_graph w) (saved_vars self) (w_vars w))
    as [s' | e] eqn:Hres.
  - exfalso.
    destruct (forallb _ (saved_vars self)) eqn:Hall; [discriminate Hbad |].
    clear Hbad. revert Hall Hres. generalize (w_vars w).
    induction (saved_vars self) as [| x xs IH]; intros s Hall Hres; [discriminate Hall |].
    cbn [forallb] in Hall. cbn [assign_restored] in Hres.
    destruct (lookup x entries) as [sh |]; [| discriminate Hres].
    destruct (lookup x values) as [v |]; [| discriminate Hres].
    destruct (Nat.eqb (length v) (numel sh)); [| discriminate Hres].
    destruct (validate_shape (w_graph w) x sh); [| discriminate Hres].
    cbn [andb] in Hall. exact (IH _ Hall Hres).
  - exists e. split; [reflexivity |].
    exact (proj1 (assign_restored_error _ _ _ _ _ _ Hres)).
Qed.

(** Without an index file, or with an index that lacks a saved variable, the
    error is [NotFoundError]. *)
Lemma saver_restore_missing `{Engine} (self : saver) (w : world) (n : nat) :
  saved_vars self = seq 0 n ->
  checkpoint_missing (w_files w) n ->
  saver_restore self SAVE_FILE w = (Raise NotFoundError, after (emit (Ev_restore SAVE_FILE)) w).
Proof.
  intros Hvars Hmissing.
  unfold saver_restore. rewrite bind_emit.
  unfold after, emit. cbn [snd w_files w_vars w_graph].
  destruct Hmissing as [Hnone | (entries & Hindex & Hkeys)].
  - rewrite Hnone. reflexivity.
  - rewrite Hindex, Hvars, Hkeys. reflexivity.
Qed.

Lemma checkpoint_missing_downloaded (files : file_system) (n : nat) :
  checkpoint_missing files n -> checkpoint_missing (downloaded files) n.
Proof.
  unfold checkpoint_missing.
  rewrite (downloaded_other files _ (proj1 checkpoint_not_downloaded)).
  exact (fun Hm => Hm).
Qed.

(** ** [create] *)

Lemma create_unfold `{Engine} (w : world) :
  let g1 := snd (GAN.__init__ 100 (w_graph w)) in
  let init := Op_initializer (g_variables g1) (g_optimizers g1) in
  let sv := {| saved_vars := seq 0 (length (g_variables g1)) |} in
  create w =
  (Ok tt, after (saver_save sv SAVE_FILE) (after (sess_run_op init None) (set_graph w g1))).
Proof.
  cbv zeta. unfold create.
  rewrite bind_lift_G.
  generalize (snd (GAN.__init__ 100 (w_graph w))). intros g1.
  rewrite bind_lift_G. unfold tf_train_Saver at 1 2. cbn [fst snd].
  rewrite bind_lift_G. unfold tf_global_variables_initializer at 1 2. cbn [fst snd].
  reflexivity.
Qed.

Lemma GAN_declarations_length : length GAN_declarations = 26.
Proof. reflexivity. Qed.

Lemma GAN_declared (x : var_id) :
  x < 26 -> exists i : initializer, nth_error GAN_declarations x = Some i.
Proof.
  intros Hx. destruct (nth_error GAN_declarations x) as [i |] eqn:Hnth; [exists i; reflexivity |].
  apply nth_error_None in Hnth. rewrite GAN_declarations_length in Hnth. lia.
Qed.

Lemma GAN_declared_biases_zero :
  forallb (fun l => match layer_bias l with
                    | Some b => declared_zero_row GAN_declarations b
                    | None => true
                    end)
          (GAN.generator (new_GAN 100 empty_graph) ++ GAN.discriminator (new_GAN 100 empty_graph))
  = true.
Proof. reflexivity. Qed.

Lemma declared_zero_row_inv (declarations : list initializer) (b : var_id) :
  declared_zero_row declarations b = true ->
  exists n : nat, nth_error declarations b = Some (Init_zeros [1; n]).
Proof.
  unfold declared_zero_row.
  destruct (nth_error declarations b) as [[sh sd | [| [| [| d1]] [| d2 [| d3 sh]]]] |];
    try discriminate.
  intros _. exists d2. reflexivity.
Qed.

(** After the initializer has run over the declarations of [GAN()], every
    bias of the two networks is zero. *)
Lemma initialized_biases_are_zero `{Engine} (rng : nat) (s : store) :
  biases_are_zero (new_GAN 100 empty_graph) (fst (initialize GAN_declarations 0 rng s)).
Proof.
  unfold biases_are_zero. apply Forall_forall. intros l Hl.
  pose proof GAN_declared_biases_zero as Hcheck.
  rewrite forallb_forall in Hcheck. specialize (Hcheck l Hl).
  destruct (layer_bias l) as [b |]; [| exact I].
  destruct (declared_zero_row_inv _ _ Hcheck) as [n Hnth].
  destruct (initialize_inside GAN_declarations 0 rng s b _ Hnth) as (r & _ & Hval).
  exists n. exact Hval.
Qed.

Lemma saved_keys {A : Type} (f : var_id -> A) (xs : list var_id) :
  map fst (map (fun y => (y, f y)) xs) = xs.
Proof. rewrite map_map. cbn. apply map_id. Qed.

Lemma shape_eqb_refl (sh : list nat) : shape_eqb sh sh = true.
Proof.
  induction sh as [| n sh IH]; [reflexivity |].
  cbn [shape_eqb]. rewrite Nat.eqb_refl, IH. reflexivity.
Qed.

Lemma checkpoint_paths_distinct :
  ~ In SAVE_FILE (checkpoint_files SAVE_FILE) /\
  (forall p : string, In p mnist_files -> ~ In p (checkpoint_files SAVE_FILE)).
Proof.
  split.
  - intros [H | [H | [H | [H | []]]]]; discriminate H.
  - intros p [<- | [<- | [<- | [<- | []]]]] [H | [H | [H | [H | []]]]]; discriminate H.
Qed.

(** What [create] does in a process that has just started. *)
Lemma create_result `{Engine} (w : world) :
  fresh_process w ->
  let w' := after create w in
  fst (create w) = Ok tt /\
  (exists init : operation, emitted create w = [Ev_run_op init None; Ev_save SAVE_FILE]) /\
  (exists (entries : list (var_id * list nat)) (values : list (var_id * list float32)),
     w_files w' (index_file SAVE_FILE) = Some (File_index entries) /\
     w_files w' (data_file SAVE_FILE) = Some (File_data values) /\
     map fst entries = seq 0 26 /\
     map fst values = seq 0 26 /\
     forall x : var_id, x < 26 -> stored_tensor entries values x = Some (w_vars w' x)) /\
  w_files w' (meta_file SAVE_FILE) = Some (File_meta GAN_declarations) /\
  w_files w' checkpoint_state_file = Some (File_checkpoint_state SAVE_FILE) /\
  (forall p : string, ~ In p (checkpoint_files SAVE_FILE) -> w_files w' p = w_files w p) /\
  (forall (x : var_id) (i : initializer),
     nth_error GAN_declarations x = Some i ->
     exists r : nat, w_vars w' x = initial_value r i) /\
  biases_are_zero (new_GAN 100 empty_graph) (w_vars w') /\
  checkpoint_usable (w_files w') = true.
Proof.
  intros Hfresh. unfold fresh_process in Hfresh. cbv zeta.
  pose proof (create_unfold w) as Hcreate. cbv zeta in Hcreate.
  rewrite Hfresh in Hcreate. fold GAN_declarations in Hcreate.
  rewrite GAN_declarations_length in Hcreate.
  set (init := Op_initializer GAN_declarations
                 (g_optimizers (snd (GAN.__init__ 100 empty_graph)))) in *.
  set (sv := {| saved_vars := seq 0 26 |}) in *.
  set (w1 := after (sess_run_op init None) (set_graph w (snd (GAN.__init__ 100 empty_graph))))
    in *.
  assert (Hafter : after create w = after (saver_save sv SAVE_FILE) w1)
    by (unfold after at 1; rewrite Hcreate; reflexivity).
  rewrite Hafter.
  destruct (saver_save_persists sv w1) as (Hvars & Hindex & Hdata & Hmeta & Hstate & Hother).
  assert (Hinit : forall (x : var_id) (i : initializer),
            nth_error GAN_declarations x = Some i ->
            exists r : nat,
              w_vars (after (saver_save sv SAVE_FILE) w1) x = initial_value r i).
  { intros x i Hnth. rewrite Hvars. unfold w1, init. rewrite sess_run_initializer_vars.
    destruct (initialize_inside GAN_declarations 0
                (w_rng (set_graph w (snd (GAN.__init__ 100 empty_graph))))
                (w_vars (set_graph w (snd (GAN.__init__ 100 empty_graph)))) x i Hnth)
      as (r & _ & Hval).
    exists r. exact Hval. }
  split; [rewrite Hcreate; reflexivity |].
  split.
  { exists init. unfold emitted. rewrite Hafter.
    destruct (runs_saver_save sv SAVE_FILE w1) as [_ Hsaved].
    destruct (runs_sess_run_op init None (set_graph w (snd (GAN.__init__ 100 empty_graph))))
      as [_ Hran].
    fold w1 in Hran. rewrite Hsaved, Hran. cbn [set_graph w_trace].
    rewrite <- app_assoc, skipn_app, skipn_all, Nat.sub_diag. reflexivity. }
  split.
  { eexists. eexists. split; [exact Hindex |]. split; [exact Hdata |].
    split; [apply saved_keys |]. split; [apply saved_keys |].
    intros x Hx. apply stored_tensor_saved. cbn [saved_vars sv]. apply in_seq. lia. }
  split.
  { rewrite Hmeta. unfold w1. rewrite sess_run_op_graph. reflexivity. }
  split; [exact Hstate |].
  split.
  { intros p Hp. rewrite (Hother p Hp). unfold w1. rewrite sess_run_op_files. reflexivity. }
  split; [exact Hinit |].
  split.
  { rewrite Hvars. unfold w1, init. rewrite sess_run_initializer_vars.
    apply initialized_biases_are_zero. }
  unfold checkpoint_usable, restorable. rewrite Hindex, Hdata.
  apply forallb_forall. intros x Hx. cbn [saved_vars sv].
  rewrite (lookup_saved (fun y => shape (w_vars (after (saver_save sv SAVE_FILE) w1) y))
             (seq 0 26) x Hx).
  rewrite (lookup_saved (fun y => data (w_vars (after (saver_save sv SAVE_FILE) w1) y))
             (seq 0 26) x Hx).
  apply in_seq in Hx.
  destruct (GAN_declared x ltac:(lia)) as [i Hnth].
  destruct (Hinit x i Hnth) as [r ->].
  rewrite initial_value_size, Nat.eqb_refl, initial_value_shape. cbn [andb].
  unfold validate_shape, declared_shape, GAN_graph. fold GAN_declarations. rewrite Hnth.
  cbn [option_map]. apply shape_eqb_refl.
Qed.

(** X5. In a process that has just started, [create] always ends normally.
    It runs the initializer and saves, and nothing else.  The save writes
    the four files of the checkpoint and no file named [gan.ckpt]: the index
    and the data file hold exactly the twenty-six variables of the GAN, each
    with its shape and value in the session; the two other files hold the
    graph and the prefix; every other file is as before.  Every bias is a row
    of zeros, and the checkpoint is usable. *)
Theorem create_saves_initial_model `{Engine} (w : world) :
  fresh_process w ->
  let w' := after create w in
  fst (create w) = Ok tt /\
  (exists init : operation, emitted create w = [Ev_run_op init None; Ev_save SAVE_FILE]) /\
  (exists (entries : list (var_id * list nat)) (values : list (var_id * list float32)),
     w_files w' (index_file SAVE_FILE) = Some (File_index entries) /\
     w_files w' (data_file SAVE_FILE) = Some (File_data values) /\
     map fst entries = seq 0 26 /\
     map fst values = seq 0 26 /\
     forall x : var_id, x < 26 -> stored_tensor entries values x = Some (w_vars w' x)) /\
  w_files w' (meta_file SAVE_FILE) = Some (File_meta GAN_declarations) /\
  w_files w' checkpoint_state_file = Some (File_checkpoint_state SAVE_FILE) /\
  (forall p : string, ~ In p (checkpoint_files SAVE_FILE) -> w_files w' p = w_files w p) /\
  w_files w' SAVE_FILE = w_files w SAVE_FILE /\
  biases_are_zero (new_GAN 100 empty_graph) (w_vars w') /\
  checkpoint_usable (w_files w') = true.
Proof.
  intros Hfresh.
  destruct (create_result w Hfresh)
    as (Hok & Htrace & Hfiles & Hmeta & Hstate & Hother & _ & Hbias & Husable).
  cbv zeta.
  split; [exact Hok |]. split; [exact Htrace |]. split; [exact Hfiles |].
  split; [exact Hmeta |]. split; [exact Hstate |]. split; [exact Hother |].
  split; [exact (Hother SAVE_FILE (proj1 checkpoint_paths_distinct)) |].
  split; [exact Hbias | exact Husable].
Qed.

(** The statement of X5 for the sample process. *)
Lemma create_saves_initial_model_witness :
  fresh_process sample_world /\
  fst (@create sample_engine sample_world) = Ok tt /\
  w_files (after create sample_world) SAVE_FILE = None /\
  checkpoint_usable (w_files (after create sample_world)) = true.
Proof.
  assert (Hfresh : fresh_process sample_world) by reflexivity.
  pose proof (@create_saves_initial_model sample_engine sample_world Hfresh) as Hcreate.
  cbv zeta in Hcreate.
  destruct Hcreate as (Hok & _ & _ & _ & _ & _ & Hnone & _ & Husable).
  split; [exact Hfresh |]. split; [exact Hok |]. split; [exact Hnone | exact Husable].
Defined.

(** ** [train] up to the loop *)

(** [train] builds its graph, runs the initializer and reaches the restore:
    none of these can fail. *)
Lemma train_unfold `{Engine} (w : world) :
  exists (init : operation) (w2 : world),
    let tg := training_graph_of (w_graph w) in
    (forall fuel : nat,
       train fuel w =
         bind (saver_restore (tg_saver tg) SAVE_FILE)
              (fun _ => while_true fuel (train_iteration tg)) w2) /\
    w_trace w2 = w_trace w ++ [Ev_read_data_sets "MNIST_data"; Ev_run_op init None] /\
    w_files w2 = downloaded (w_files w) /\
    g_variables (w_graph w2) = g_variables (snd (GAN.__init__ 100 (w_graph w))) /\
    optimizer_of init = None.
Proof.
  destruct (build_training_graph_result w)
    as (w1 & Hbuild & Hvars & Hslots & Hfiles & Htrace & Hdecl & Hopt).
  exists (Op_initializer (g_variables (w_graph w1)) (g_optimizers (w_graph w1))).
  eexists. cbv zeta.
  split; [| split; [| split; [| split; [| reflexivity]]]].
  - intros fuel. unfold train. unfold bind at 1. rewrite Hbuild.
    rewrite bind_lift_G. unfold tf_global_variables_initializer at 1 2. cbn [fst snd].
    unfold bind at 1.
    destruct (runs_sess_run_op
                (Op_initializer (g_variables (w_graph w1)) (g_optimizers (w_graph w1)))
                None (set_graph w1 (w_graph w1))) as [Hrun _].
    rewrite Hrun. reflexivity.
  - destruct (runs_sess_run_op
                (Op_initializer (g_variables (w_graph w1)) (g_optimizers (w_graph w1)))
                None (set_graph w1 (w_graph w1))) as [_ Hran].
    rewrite Hran. cbn [set_graph w_trace]. rewrite Htrace, <- app_assoc. reflexivity.
  - rewrite sess_run_op_files. cbn [set_graph w_files]. exact Hfiles.
  - rewrite sess_run_op_graph. cbn [set_graph w_graph]. exact Hdecl.
Qed.

Lemma training_saver_vars `{Engine} (w : world) :
  fresh_process w -> saved_vars (tg_saver (training_graph_of (w_graph w))) = seq 0 26.
Proof. intros Hfresh. rewrite Hfresh. reflexivity. Qed.

(** X7. Without a checkpoint (no index file, or an index that lacks one of
    the twenty-six variables) [train] raises [NotFoundError] at the restore:
    its only events are the reading of the data set, the initializer and the
    restore, no pass of the loop runs and the exit status is 1.  No file that
    exists is changed, and no file is created other than the four archives of
    the data set: no checkpoint is written. *)
Theorem train_without_checkpoint `{Engine} (fuel : nat) (w : world) :
  fresh_process w ->
  checkpoint_missing (w_files w) 26 ->
  let w' := after (train fuel) w in
  fst (train fuel w) = Raise NotFoundError /\
  exit_status (fst (train fuel w)) = Some 1 /\
  (exists init : operation,
     emitted (train fuel) w =
       [Ev_read_data_sets "MNIST_data"; Ev_run_op init None; Ev_restore SAVE_FILE]) /\
  (forall p : string, ~ In p mnist_files -> w_files w' p = w_files w p) /\
  (forall (p : string) (f : file), w_files w p = Some f -> w_files w' p = Some f).
Proof.
  intros Hfresh Hbad. cbv zeta.
  destruct (train_unfold w) as (init & w2 & Htrain & Htrace & Hfiles & _ & Hinit).
  cbv zeta in Htrain.
  assert (Hrestore : saver_restore (tg_saver (training_graph_of (w_graph w))) SAVE_FILE w2 =
                     (Raise NotFoundError, after (emit (Ev_restore SAVE_FILE)) w2)).
  { apply (saver_restore_missing _ w2 26 (training_saver_vars w Hfresh)).
    rewrite Hfiles. apply checkpoint_missing_downloaded. exact Hbad. }
  assert (Hresult : train fuel w = (Raise NotFoundError, after (emit (Ev_restore SAVE_FILE)) w2))
    by (rewrite (Htrain fuel); unfold bind; rewrite Hrestore; reflexivity).
  rewrite Hresult. cbn [fst exit_status].
  split; [reflexivity |]. split; [reflexivity |]. split; [| split].
  - exists init. unfold emitted, after at 1. rewrite Hresult. cbn [snd].
    unfold after, emit. cbn [snd w_trace]. rewrite Htrace, <- app_assoc.
    rewrite skipn_app, skipn_all, Nat.sub_diag. reflexivity.
  - intros p Hp. unfold after at 1. rewrite Hresult. cbn [snd].
    unfold after, emit. cbn [snd w_files]. rewrite Hfiles.
    apply downloaded_other. exact Hp.
  - intros p f Hp. unfold after at 1. rewrite Hresult. cbn [snd].
    unfold after, emit. cbn [snd w_files]. rewrite Hfiles.
    apply downloaded_keeps. exact Hp.
Qed.

(** The statement of X7 for the sample process, which has no file. *)
Lemma train_without_checkpoint_witness :
  fresh_process sample_world /\
  checkpoint_missing (w_files sample_world) 26 /\
  fst (@train sample_engine 3 sample_world) = Raise NotFoundError.
Proof.
  assert (Hfresh : fresh_process sample_world) by reflexivity.
  assert (Hbad : checkpoint_missing (w_files sample_world) 26) by (left; reflexivity).
  split; [exact Hfresh |]. split; [exact Hbad |].
  exact (proj1 (@train_without_checkpoint sample_engine 3 sample_world Hfresh Hbad)).
Defined.

Lemma file_index_injective (a b : list (var_id * list nat)) :
  Some (File_index a) = Some (File_index b) -> a = b.
Proof. intros Heq. injection Heq as Heq. exact Heq. Qed.

Lemma file_data_injective (a b : list (var_id * list float32)) :
  Some (File_data a) = Some (File_data b) -> a = b.
Proof. intros Heq. injection Heq as Heq. exact Heq. Qed.

Lemma some_injective {A : Type} (a b : A) : Some a = Some b -> a = b.
Proof. intros Heq. injection Heq as Heq. exact Heq. Qed.

(** ** [train] from a checkpoint *)

(** In a process that has just started, [train] reaches the loop exactly
    when the checkpoint is usable, and there every variable of the GAN has
    the value of the files; otherwise it raises at the restore. *)
Lemma train_loop_entry `{Engine} (w : world) :
  fresh_process w ->
  checkpoint_usable (w_files w) = true ->
  exists (w3 : world) (entries : list (var_id * list nat))
         (values : list (var_id * list float32)),
    (forall fuel : nat,
       train fuel w = while_true fuel (train_iteration (training_graph_of (w_graph w))) w3) /\
    w_files w (index_file SAVE_FILE) = Some (File_index entries) /\
    w_files w (data_file SAVE_FILE) = Some (File_data values) /\
    (forall x : var_id, x < 26 -> stored_tensor entries values x = Some (w_vars w3 x)) /\
    w_files w3 = downloaded (w_files w) /\
    exists init : operation,
      optimizer_of init = None /\
      w_trace w3 = w_trace w ++
        [Ev_read_data_sets "MNIST_data"; Ev_run_op init None; Ev_restore SAVE_FILE].
Proof.
  intros Hfresh Husable.
  destruct (train_unfold w) as (init & w2 & Htrain & Htrace & Hfiles & Hdecl & Hinit).
  cbv zeta in Htrain.
  assert (Hok : restorable (w_files w2) (w_graph w2)
                  (saved_vars (tg_saver (training_graph_of (w_graph w)))) = true).
  { rewrite (training_saver_vars w Hfresh), Hfiles, restorable_downloaded.
    rewrite (restorable_ext (w_files w) (w_graph w2) GAN_graph (seq 0 26)); [exact Husable |].
    intros x _. rewrite Hdecl, Hfresh. unfold GAN_graph. reflexivity. }
  destruct (saver_restore_ok (tg_saver (training_graph_of (w_graph w))) w2 Hok)
    as (w3 & entries & values & Hrestore & Htrace3 & Hfiles3 & Hindex & Hdata & Hin & _).
  exists w3, entries, values. split; [| split; [| split; [| split; [| split]]]].
  - intros fuel. rewrite (Htrain fuel). unfold bind. rewrite Hrestore. reflexivity.
  - rewrite Hfiles in Hindex.
    rewrite (downloaded_other _ _ (proj1 checkpoint_not_downloaded)) in Hindex. exact Hindex.
  - rewrite Hfiles in Hdata.
    rewrite (downloaded_other _ _ (proj2 checkpoint_not_downloaded)) in Hdata. exact Hdata.
  - intros x Hx. apply Hin. rewrite (training_saver_vars w Hfresh). apply in_seq. lia.
  - rewrite Hfiles3. exact Hfiles.
  - exists init. split; [exact Hinit |]. rewrite Htrace3, Htrace, <- app_assoc. reflexivity.
Qed.

Lemma train_fails `{Engine} (fuel : nat) (w : world) :
  fresh_process w ->
  checkpoint_usable (w_files w) = false ->
  exit_status (fst (train fuel w)) = Some 1.
Proof.
  intros Hfresh Hbad.
  destruct (train_unfold w) as (init & w2 & Htrain & _ & Hfiles & Hdecl & _).
  cbv zeta in Htrain.
  assert (Hno : restorable (w_files w2) (w_graph w2)
                  (saved_vars (tg_saver (training_graph_of (w_graph w)))) = false).
  { rewrite (training_saver_vars w Hfresh), Hfiles, restorable_downloaded.
    rewrite (restorable_ext (w_files w) (w_graph w2) GAN_graph (seq 0 26)); [exact Hbad |].
    intros x _. rewrite Hdecl, Hfresh. unfold GAN_graph. reflexivity. }
  destruct (saver_restore_fails (tg_saver (training_graph_of (w_graph w))) w2 Hno)
    as (e & Hrestore & Hstatus).
  rewrite (Htrain fuel). unfold bind. rewrite Hrestore. exact Hstatus.
Qed.


(** X9. Round trip through the file: after [create] in one process, [train]
    in a new process reaches the loop, and when the loop starts every
    variable of the GAN has the value it had at the end of [create]. *)
Theorem create_then_train `{Engine} (w0 w : world) :
  fresh_process w0 ->
  fresh_process w ->
  w_files w = w_files (after create w0) ->
  (forall fuel : nat, fst (train fuel w) = Running) /\
  (forall x : var_id, x < 26 ->
     w_vars (after (train 0) w) x = w_vars (after create w0) x).
Proof.
  intros Hfresh0 Hfresh Hfiles.
  destruct (create_result w0 Hfresh0)
    as (_ & _ & (entries0 & values0 & Hindex0 & Hdata0 & _ & _ & Hvals) & _ & _ & _ & _ & _
        & Husable).
  rewrite <- Hfiles in Hindex0, Hdata0, Husable.
  destruct (train_loop_entry w Hfresh Husable)
    as (w3 & entries & values & Htrain & Hindex & Hdata & Hvars & _).
  rewrite Hindex0 in Hindex. rewrite Hdata0 in Hdata.
  pose proof (file_index_injective _ _ Hindex) as Hentries.
  pose proof (file_data_injective _ _ Hdata) as Hvalues.
  split.
  - intros fuel. rewrite (Htrain fuel). apply while_true_train_iterations.
  - intros x Hx. unfold after at 1. rewrite (Htrain 0). cbn [while_true cut snd].
    pose proof (Hvars x Hx) as Hread.
    rewrite <- Hentries, <- Hvalues, (Hvals x Hx) in Hread.
    exact (eq_sym (some_injective _ _ Hread)).
Qed.

Lemma world_files_built (E : Engine) (g : graph) (s : store) (sl : nat -> adam_slots)
  (files : file_system) (cursor rng : nat) (tr : list event) :
  w_files (@Build_world E g s sl files cursor rng tr) = files.
Proof. reflexivity. Qed.

(** The sample process started beside the files of [create]: its checkpoint
    is usable. *)
Lemma sample_world_after_create_files :
  w_files sample_world_after_create = w_files (after create sample_world) /\
  checkpoint_usable (w_files sample_world_after_create) = true.
Proof.
  assert (Hfiles : w_files sample_world_after_create = w_files (after create sample_world))
    by exact (world_files_built sample_engine _ _ _ _ _ _ _).
  split; [exact Hfiles |].
  pose proof (@create_result sample_engine sample_world eq_refl) as Hcreate.
  cbv zeta in Hcreate.
  destruct Hcreate as (_ & _ & _ & _ & _ & _ & _ & _ & Husable).
  rewrite Hfiles. exact Husable.
Qed.


(** The statement of X9 for the sample processes. *)
Lemma create_then_train_witness :
  fresh_process sample_world /\
  fresh_process sample_world_after_create /\
  w_files sample_world_after_create = w_files (after create sample_world) /\
  fst (@train sample_engine 2 sample_world_after_create) = Running.
Proof.
  assert (Hfresh0 : fresh_process sample_world) by reflexivity.
  assert (Hfresh : fresh_process sample_world_after_create) by reflexivity.
  pose proof (proj1 sample_world_after_create_files) as Hfiles.
  split; [exact Hfresh0 |]. split; [exact Hfresh |]. split; [exact Hfiles |].
  exact (proj1 (@create_then_train sample_engine _ _ Hfresh0 Hfresh Hfiles) 2).
Defined.

(** ** [generate] *)

Lemma generate_unfold `{Engine} (w : world) :
  let gan := new_GAN 100 (w_graph w) in
  let g1 := snd (GAN.__init__ 100 (w_graph w)) in
  let noise := length (g_variables g1) in
  let g2 := snd (tf_Variable (Init_random_normal [4; 100] 1) g1) in
  let init := Op_initializer (g_variables g2) (g_optimizers g2) in
  let sv := {| saved_vars := seq 0 (length (g_variables g1)) |} in
  generate w =
  bind (saver_restore sv SAVE_FILE) (fun _ => show_generated gan noise)
       (after (sess_run_op init None) (set_graph w g2)).
Proof.
  cbv zeta. unfold generate, new_GAN.
  rewrite bind_lift_G.
  generalize (GAN.__init__ 100 (w_graph w)). intros [gan g1]. cbn [fst snd].
  rewrite bind_lift_G. unfold tf_train_Saver at 1 2. cbn [fst snd set_graph w_graph].
  rewrite bind_lift_G. cbn [fst snd set_graph w_graph tf_Variable].
  rewrite bind_lift_G. unfold tf_global_variables_initializer at 1 2.
  cbn [fst snd set_graph w_graph].
  reflexivity.
Qed.

Lemma show_generated_result `{Engine} (gan : GAN.t) (noise : var_id) (w : world) :
  exists (node : node tensor) (w' : world),
    show_generated gan noise w = (Ok tt, w') /\
    w_trace w' = w_trace w ++
      [Ev_run_tensor node None; Ev_pyplot_title "Generated digits";
       Ev_pyplot_imshow (np_reshape (GAN.generate gan (read noise) (w_vars w) no_feed)
                                    [28 * 4; 28]);
       Ev_pyplot_show] /\
    w_files w' = w_files w /\
    w_vars w' = w_vars w.
Proof.
  eexists. eexists.
  split; [reflexivity |].
  cbn [w_trace w_files w_vars]. rewrite <- !app_assoc. cbn [app].
  repeat split.
Qed.

(** [generate] in a process that has just started: the saver handles the
    twenty-six variables of the GAN, the noise is variable 26, and the
    initializer runs over twenty-seven declarations. *)
Lemma generate_fresh `{Engine} (w : world) :
  fresh_process w ->
  exists (init : operation) (w2 : world),
    generate w =
      bind (saver_restore {| saved_vars := seq 0 26 |} SAVE_FILE)
           (fun _ => show_generated (new_GAN 100 empty_graph) 26) w2 /\
    w_trace w2 = w_trace w ++ [Ev_run_op init None] /\
    w_files w2 = w_files w /\
    g_variables (w_graph w2) = GAN_declarations ++ [Init_random_normal [4; 100] 1] /\
    exists r : nat, w_vars w2 26 = tf_random_normal r [4; 100] 1.
Proof.
  intros Hfresh. unfold fresh_process in Hfresh.
  pose proof (generate_unfold w) as Hgen. cbv zeta in Hgen.
  rewrite Hfresh in Hgen. fold GAN_declarations in Hgen.
  rewrite GAN_declarations_length in Hgen.
  cbn [tf_Variable snd g_variables g_optimizers] in Hgen.
  fold GAN_declarations in Hgen.
  eexists. eexists. split; [exact Hgen |].
  split; [| split; [| split]].
  - match goal with
    | |- w_trace (after (sess_run_op ?o ?fd) ?w0) = _ =>
        destruct (runs_sess_run_op o fd w0) as [_ Hran]; rewrite Hran
    end.
    reflexivity.
  - rewrite sess_run_op_files. reflexivity.
  - rewrite sess_run_op_graph. reflexivity.
  - rewrite sess_run_initializer_vars.
    destruct (initialize_inside (GAN_declarations ++ [Init_random_normal [4; 100] 1]) 0
                (w_rng (set_graph w
                   {| g_variables := GAN_declarations ++ [Init_random_normal [4; 100] 1];
                      g_optimizers := g_optimizers (snd (GAN.__init__ 100 empty_graph)) |}))
                (w_vars (set_graph w
                   {| g_variables := GAN_declarations ++ [Init_random_normal [4; 100] 1];
                      g_optimizers := g_optimizers (snd (GAN.__init__ 100 empty_graph)) |}))
                26 (Init_random_normal [4; 100] 1))
      as (r & _ & Hval).
    { rewrite nth_error_app2; rewrite GAN_declarations_length; [reflexivity | lia]. }
    exists r. exact Hval.
Qed.

Lemma generate_restorable `{Engine} (w w2 : world) :
  w_files w2 = w_files w ->
  g_variables (w_graph w2) = GAN_declarations ++ [Init_random_normal [4; 100] 1] ->
  restorable (w_files w2) (w_graph w2) (seq 0 26) = checkpoint_usable (w_files w).
Proof.
  intros Hfiles Hdecl. rewrite Hfiles. unfold checkpoint_usable.
  apply restorable_ext. intros x Hx. apply in_seq in Hx.
  rewrite Hdecl. unfold GAN_graph. fold GAN_declarations.
  apply nth_error_app1. rewrite GAN_declarations_length. lia.
Qed.

(** What [generate] does beside a usable checkpoint. *)
Lemma generate_result `{Engine} (w : world) :
  fresh_process w ->
  checkpoint_usable (w_files w) = true ->
  let w' := after generate w in
  let gan := new_GAN 100 empty_graph in
  let out := GAN.generate gan (read 26) (w_vars w') no_feed in
  fst (generate w) = Ok tt /\
  (exists (init : operation) (node : node tensor),
     emitted generate w =
       [Ev_run_op init None; Ev_restore SAVE_FILE; Ev_run_tensor node None;
        Ev_pyplot_title "Generated digits"; Ev_pyplot_imshow (np_reshape out [28 * 4; 28]);
        Ev_pyplot_show]) /\
  Forall pixel_or_nan (data out) /\
  w_files w' = w_files w /\
  (exists (entries : list (var_id * list nat)) (values : list (var_id * list float32)),
     w_files w (index_file SAVE_FILE) = Some (File_index entries) /\
     w_files w (data_file SAVE_FILE) = Some (File_data values) /\
     forall x : var_id, x < 26 -> stored_tensor entries values x = Some (w_vars w' x)) /\
  (exists r : nat, w_vars w' 26 = tf_random_normal r [4; 100] 1).
Proof.
  intros Hfresh Husable. cbv zeta.
  destruct (generate_fresh w Hfresh)
    as (init & w2 & Hgen & Htrace2 & Hfiles2 & Hdecl2 & r & Hnoise).
  assert (Hok : restorable (w_files w2) (w_graph w2) (saved_vars {| saved_vars := seq 0 26 |})
                = true).
  { cbn [saved_vars]. rewrite (generate_restorable w w2 Hfiles2 Hdecl2). exact Husable. }
  destruct (saver_restore_ok {| saved_vars := seq 0 26 |} w2 Hok)
    as (w3 & entries & values & Hrestore & Htrace3 & Hfiles3 & Hindex & Hdata & Hin & Hout).
  destruct (show_generated_result (new_GAN 100 empty_graph) 26 w3)
    as (node & w4 & Hshow & Htrace4 & Hfiles4 & Hvars4).
  assert (Hresult : generate w = (Ok tt, w4))
    by (rewrite Hgen; unfold bind; rewrite Hrestore; exact Hshow).
  assert (Hafter : after generate w = w4) by (unfold after; rewrite Hresult; reflexivity).
  rewrite Hafter, Hresult.
  split; [reflexivity |]. split; [| split; [| split; [| split]]].
  - exists init, node.
    unfold emitted. rewrite Hafter, Htrace4, Htrace3, Htrace2, Hvars4.
    rewrite <- !app_assoc. cbn [app].
    rewrite skipn_app, skipn_all, Nat.sub_diag. reflexivity.
  - unfold GAN.generate. apply tf_sigmoid_pixel_or_nan.
  - rewrite Hfiles4, Hfiles3. exact Hfiles2.
  - exists entries, values.
    rewrite Hfiles2 in Hindex, Hdata.
    split; [exact Hindex |]. split; [exact Hdata |].
    intros x Hx. rewrite Hvars4. apply Hin. cbn [saved_vars]. apply in_seq. lia.
  - exists r. rewrite Hvars4, Hout; [exact Hnoise |].
    cbn [saved_vars]. rewrite in_seq. lia.
Qed.

(** X10. With a usable checkpoint, [generate] in a process that has just
    started ends normally after the initializer, the restore, one run of the
    generator and the display of one image, which is the output of the
    generator reshaped.  Every pixel of the image is NaN or lies in [0, 1].
    The generator runs with the parameters of the files, and on noise that
    the initializer drew (the saver does not handle the noise variable).  No
    file is changed. *)
Theorem generate_from_checkpoint `{Engine} (w : world) :
  fresh_process w ->
  checkpoint_usable (w_files w) = true ->
  let w' := after generate w in
  let gan := new_GAN 100 empty_graph in
  let out := GAN.generate gan (read 26) (w_vars w') no_feed in
  fst (generate w) = Ok tt /\
  (exists (init : operation) (node : node tensor),
     emitted generate w =
       [Ev_run_op init None; Ev_restore SAVE_FILE; Ev_run_tensor node None;
        Ev_pyplot_title "Generated digits"; Ev_pyplot_imshow (np_reshape out [28 * 4; 28]);
        Ev_pyplot_show]) /\
  Forall pixel_or_nan (data out) /\
  w_files w' = w_files w /\
  (exists (entries : list (var_id * list nat)) (values : list (var_id * list float32)),
     w_files w (index_file SAVE_FILE) = Some (File_index entries) /\
     w_files w (data_file SAVE_FILE) = Some (File_data values) /\
     forall x : var_id, x < 26 -> stored_tensor entries values x = Some (w_vars w' x)) /\
  (exists r : nat, w_vars w' 26 = tf_random_normal r [4; 100] 1).
Proof. exact (generate_result w). Qed.

(** Beside the files of [create], the sample process displays an image of
    3136 pixels, all in [0, 1]. *)
Lemma sample_generate_image :
  let w' := after generate sample_world_after_create in
  let out := @GAN.generate sample_engine (new_GAN 100 empty_graph) (read 26) (w_vars w')
               no_feed in
  length (data out) = 3136 /\ Forall in_unit_interval (data out).
Proof.
  cbv zeta.
  destruct sample_world_after_create_files as [Hfiles Husable].
  pose proof (@generate_result sample_engine sample_world_after_create eq_refl Husable)
    as Hgen.
  cbv zeta in Hgen.
  destruct Hgen as (_ & _ & _ & _ & (entries & values & Hindex & Hdata & Hvars) & r & Hnoise).
  pose proof (@create_result sample_engine sample_world eq_refl) as Hcreate.
  cbv zeta in Hcreate.
  destruct Hcreate
    as (_ & _ & (entries0 & values0 & Hindex0 & Hdata0 & _ & _ & Hvals) & _ & _ & _ & Hinit & _).
  rewrite Hfiles, Hindex0 in Hindex. rewrite Hfiles, Hdata0 in Hdata.
  pose proof (file_index_injective _ _ Hindex) as Hentries.
  pose proof (file_data_injective _ _ Hdata) as Hvalues.
  set (s := w_vars (after generate sample_world_after_create)) in *.
  assert (Hsame : forall x : var_id, x < 26 -> s x = w_vars (after create sample_world) x).
  { intros x Hx. pose proof (Hvars x Hx) as Hread.
    rewrite <- Hentries, <- Hvalues, (Hvals x Hx) in Hread.
    exact (eq_sym (some_injective _ _ Hread)). }
  assert (Hraw :
    data (@apply_network sample_engine (GAN.generator (new_GAN 100 empty_graph)) s (s 26)) =
    repeat (f32_add (Num 0) (Num 0)) 3136).
  { apply sample_generator_output.
    - intros x Hx.
      destruct (GAN_declared x ltac:(lia)) as [i Hnth].
      rewrite (Hsame x) by lia.
      destruct (Hinit x i Hnth) as [r0 ->].
      rewrite initial_value_shape. unfold zero_store. rewrite Hnth. reflexivity.
    - rewrite Hnoise. reflexivity.
    - rewrite (Hsame 13) by lia.
      destruct (Hinit 13 (Init_zeros [1; 1]) eq_refl) as [r0 ->]. reflexivity. }
  unfold GAN.generate, read, tf_sigmoid, tf_map. cbn [data]. rewrite Hraw.
  split.
  - rewrite length_map. apply repeat_length.
  - apply Forall_forall. intros v Hv.
    apply in_map_iff in Hv. destruct Hv as (x & <- & Hx).
    apply repeat_spec in Hx. subst x.
    apply sigmoid_range. discriminate.
Qed.

(** The statement of X10 for the sample process beside the files of
    [create]; the image has 3136 pixels. *)
Lemma generate_from_checkpoint_witness :
  fresh_process sample_world_after_create /\
  checkpoint_usable (w_files sample_world_after_create) = true /\
  fst (@generate sample_engine sample_world_after_create) = Ok tt /\
  length (data (@GAN.generate sample_engine (new_GAN 100 empty_graph) (read 26)
                  (w_vars (after generate sample_world_after_create)) no_feed)) = 3136.
Proof.
  assert (Hfresh : fresh_process sample_world_after_create) by reflexivity.
  pose proof (proj2 sample_world_after_create_files) as Husable.
  split; [exact Hfresh |]. split; [exact Husable |].
  split; [exact (proj1 (@generate_from_checkpoint sample_engine _ Hfresh Husable)) |].
  exact (proj1 sample_generate_image).
Defined.

(** X11. Without a checkpoint (no index file, or an index that lacks one of
    the twenty-six variables) [generate] raises at the restore: nothing is run
    through the generator, nothing is displayed, no file is changed and the
    exit status is 1. *)
Theorem generate_without_checkpoint `{Engine} (w : world) :
  fresh_process w ->
  checkpoint_missing (w_files w) 26 ->
  fst (generate w) = Raise NotFoundError /\
  exit_status (fst (generate w)) = Some 1 /\
  (exists init : operation,
     emitted generate w = [Ev_run_op init None; Ev_restore SAVE_FILE]) /\
  w_files (after generate w) = w_files w.
Proof.
  intros Hfresh Hbad.
  destruct (generate_fresh w Hfresh) as (init & w2 & Hgen & Htrace2 & Hfiles2 & _).
  assert (Hrestore : saver_restore {| saved_vars := seq 0 26 |} SAVE_FILE w2 =
                     (Raise NotFoundError, after (emit (Ev_restore SAVE_FILE)) w2)).
  { apply (saver_restore_missing {| saved_vars := seq 0 26 |} w2 26 eq_refl).
    rewrite Hfiles2. exact Hbad. }
  assert (Hresult : generate w = (Raise NotFoundError, after (emit (Ev_restore SAVE_FILE)) w2))
    by (rewrite Hgen; unfold bind; rewrite Hrestore; reflexivity).
  rewrite Hresult. cbn [fst exit_status].
  split; [reflexivity |]. split; [reflexivity |]. split.
  - exists init. unfold emitted, after at 1. rewrite Hresult. cbn [snd].
    unfold after, emit. cbn [snd w_trace]. rewrite Htrace2, <- app_assoc.
    rewrite skipn_app, skipn_all, Nat.sub_diag. reflexivity.
  - unfold after at 1. rewrite Hresult. cbn [snd]. exact Hfiles2.
Qed.

(** The statement of X11 for the sample process, which has no file. *)
Lemma generate_without_checkpoint_witness :
  fresh_process sample_world /\
  checkpoint_missing (w_files sample_world) 26 /\
  fst (@generate sample_engine sample_world) = Raise NotFoundError.
Proof.
  assert (Hfresh : fresh_process sample_world) by reflexivity.
  assert (Hbad : checkpoint_missing (w_files sample_world) 26) by (left; reflexivity).
  split; [exact Hfresh |]. split; [exact Hbad |].
  exact (proj1 (@generate_without_checkpoint sample_engine sample_world Hfresh Hbad)).
Defined.

Lemma generate_fails `{Engine} (w : world) :
  fresh_process w ->
  checkpoint_usable (w_files w) = false ->
  exit_status (fst (generate w)) = Some 1.
Proof.
  intros Hfresh Hbad.
  destruct (generate_fresh w Hfresh) as (init & w2 & Hgen & _ & Hfiles2 & Hdecl2 & _).
  assert (Hno : restorable (w_files w2) (w_graph w2) (saved_vars {| saved_vars := seq 0 26 |})
                = false).
  { cbn [saved_vars]. rewrite (generate_restorable w w2 Hfiles2 Hdecl2). exact Hbad. }
  destruct (saver_restore_fails {| saved_vars := seq 0 26 |} w2 Hno)
    as (e & Hrestore & Hstatus).
  rewrite Hgen. unfold bind. rewrite Hrestore. exact Hstatus.
Qed.

(** ** The state of the session through the training loop *)

Lemma training_graph_of_gan `{Engine} (g : graph) :
  tg_gan (training_graph_of g) = new_GAN 100 g.
Proof. reflexivity. Qed.

Lemma training_graph_of_clip_disc `{Engine} (g : graph) :
  clip_disc (training_graph_of g) = GAN.clip_discriminator (new_GAN 100 g) default_mag.
Proof. reflexivity. Qed.

Lemma training_graph_of_opt_disc `{Engine} (g : graph) :
  opt_disc (training_graph_of g) =
  minimize {| opt_id := S (g_optimizers g); learning_rate := 1e-4 |}
    (disc_obj (training_graph_of g)) (GAN.discriminator_vars (new_GAN 100 g)).
Proof. unfold training_graph_of. cbn [opt_disc disc_obj]. reflexivity. Qed.

Lemma training_graph_of_opt_gen `{Engine} (g : graph) :
  opt_gen (training_graph_of g) =
  minimize {| opt_id := g_optimizers g; learning_rate := 1e-4 |}
    (gen_obj (training_graph_of g)) (GAN.generator_vars (new_GAN 100 g)).
Proof. unfold training_graph_of. cbn [opt_gen gen_obj]. reflexivity. Qed.

Lemma discriminator_step_result `{Engine} (tg : training_graph) (losses : list float32)
  (w : world) :
  exists batch : feed_dict,
    discriminator_step tg losses w =
    (Ok (losses ++ [disc_obj tg (w_vars w) batch]),
     after (sess_run_op (clip_disc tg) None)
       (after (sess_run_op (opt_disc tg) (Some batch))
          (after (sess_run_scalar (disc_obj tg) (Some batch))
             (after (Samples.sample_feed_dict (tg_samples tg)) w)))).
Proof.
  exists {| fed_images :=
              np_reshape (mnist_next_batch (w_cursor w) (Samples.batch_size (tg_samples tg)))
                         [Samples.batch_size (tg_samples tg); 28; 28; 1];
            fed_noise :=
              np_random_normal (w_rng w)
                [Samples.batch_size (tg_samples tg); Samples.noise_size (tg_samples tg)] |}.
  reflexivity.
Qed.

Lemma sample_feed_dict_frame `{Engine} (samples : Samples.t) (w : world) :
  w_vars (after (Samples.sample_feed_dict samples) w) = w_vars w /\
  w_files (after (Samples.sample_feed_dict samples) w) = w_files w /\
  w_slots (after (Samples.sample_feed_dict samples) w) = w_slots w.
Proof. repeat split. Qed.

Lemma sess_run_scalar_frame `{Engine} (fetch : node float32) (fd : option feed_dict)
  (w : world) :
  w_vars (after (sess_run_scalar fetch fd) w) = w_vars w /\
  w_files (after (sess_run_scalar fetch fd) w) = w_files w /\
  w_slots (after (sess_run_scalar fetch fd) w) = w_slots w.
Proof. repeat split. Qed.

Lemma clip_in_range `{Engine} (g : graph) (fd : option feed_dict) (w : world) :
  discriminator_clipped (new_GAN 100 g)
    (w_vars (after (sess_run_op (GAN.clip_discriminator (new_GAN 100 g) default_mag) fd) w)).
Proof.
  unfold discriminator_clipped. apply Forall_forall. intros x Hin.
  unfold after. rewrite (@clipped_in _ 100 g default_mag fd w x Hin).
  apply tf_clip_by_value_cases.
Qed.

(** One pass of the [for] loop, for the graph that [train] builds: it ends
    normally with one more loss, leaves the discriminator clipped, changes no
    cell of the store outside the discriminator and no file. *)
Lemma discriminator_step_state `{Engine} (g : graph) (losses : list float32) (w : world) :
  let tg := training_graph_of g in
  exists (a : list float32) (w' : world),
    discriminator_step tg losses w = (Ok a, w') /\
    length a = S (length losses) /\
    discriminator_clipped (new_GAN 100 g) (w_vars w') /\
    (forall x, ~ In x (GAN.discriminator_vars (new_GAN 100 g)) -> w_vars w' x = w_vars w x) /\
    w_files w' = w_files w.
Proof.
  cbv zeta.
  destruct (discriminator_step_result (training_graph_of g) losses w) as [batch Hstep].
  eexists. eexists. split; [exact Hstep |].
  split; [rewrite length_app; cbn; lia |].
  split; [| split].
  - rewrite training_graph_of_clip_disc. apply clip_in_range.
  - intros x Hout.
    rewrite training_graph_of_clip_disc.
    unfold after at 1. rewrite (@clipped_out _ 100 g default_mag None _ x Hout).
    rewrite training_graph_of_opt_disc.
    rewrite minimize_frame by exact Hout. reflexivity.
  - rewrite !sess_run_op_files. reflexivity.
Qed.

Lemma for_range_discriminator_state `{Engine} (g : graph) (n : nat) :
  forall (acc : list float32) (w : world),
    let tg := training_graph_of g in
    exists (a : list float32) (w' : world),
      for_range n (discriminator_step tg) acc w = (Ok a, w') /\
      length a = length acc + n /\
      (0 < n -> discriminator_clipped (new_GAN 100 g) (w_vars w')) /\
      (forall x, ~ In x (GAN.discriminator_vars (new_GAN 100 g)) -> w_vars w' x = w_vars w x) /\
      w_files w' = w_files w.
Proof.
  cbv zeta. induction n as [| n IH]; intros acc w.
  - exists acc, w. split; [reflexivity |]. split; [lia |].
    split; [lia |]. split; [reflexivity | reflexivity].
  - destruct (discriminator_step_state g acc w) as (a1 & w1 & Hstep & Hlen1 & Hclip1 & Hout1 & Hf1).
    destruct (IH a1 w1) as (a & w' & Hrest & Hlen & Hclip & Hout & Hf).
    exists a, w'. split.
    { cbn [for_range]. unfold bind. rewrite Hstep. exact Hrest. }
    split; [lia |]. split; [| split].
    + intros _. destruct n as [| n].
      * cbn [for_range ret] in Hrest. inversion Hrest. subst. exact Hclip1.
      * apply Hclip. lia.
    + intros x Hx. rewrite (Hout x Hx). exact (Hout1 x Hx).
    + rewrite Hf. exact Hf1.
Qed.

(** X12. The discriminator phase of an iteration (the [for] loop) always ends
    normally and returns thirty losses.  When it ends every element of every
    discriminator parameter is NaN or lies in [-0.01, 0.01], every generator
    parameter is as it was when the phase started, and no file has
    changed. *)
Theorem discriminator_phase_state `{Engine} (w0 w1 : world) (tg : training_graph) (w : world) :
  build_training_graph w0 = (Ok tg, w1) ->
  exists (losses : list float32) (w' : world),
    for_range 30 (discriminator_step tg) [] w = (Ok losses, w') /\
    length losses = 30 /\
    discriminator_clipped (tg_gan tg) (w_vars w') /\
    Forall (fun x => w_vars w' x = w_vars w x) (GAN.generator_vars (tg_gan tg)) /\
    w_files w' = w_files w.
Proof.
  intros Hbuild. apply build_training_graph_inv in Hbuild. subst tg.
  destruct (for_range_discriminator_state (w_graph w0) 30 [] w)
    as (a & w' & Hloop & Hlen & Hclip & Hout & Hf).
  exists a, w'. split; [exact Hloop |]. split; [exact Hlen |].
  rewrite training_graph_of_gan.
  split; [apply Hclip; lia |]. split; [| exact Hf].
  apply Forall_forall. intros x Hx. apply Hout.
  exact (generator_discriminator_disjoint 100 (w_graph w0) x Hx).
Qed.

(** The statement of X12 for the first iteration of the sample process. *)
Lemma discriminator_phase_state_witness :
  exists (tg : training_graph) (w1 : @world sample_engine) (losses : list float32)
         (w' : world),
    build_training_graph sample_world = (Ok tg, w1) /\
    for_range 30 (discriminator_step tg) [] w1 = (Ok losses, w') /\
    length losses = 30 /\
    discriminator_clipped (tg_gan tg) (w_vars w').
Proof.
  destruct (@build_training_graph_result sample_engine sample_world) as (w1 & Hbuild & _).
  destruct (@discriminator_phase_state sample_engine sample_world w1 _ w1 Hbuild)
    as (losses & w' & Hloop & Hlen & Hclip & _).
  exists (@training_graph_of sample_engine (w_graph sample_world)), w1, losses, w'.
  split; [exact Hbuild |]. split; [exact Hloop |]. split; [exact Hlen | exact Hclip].
Defined.

Lemma train_iteration_result `{Engine} (tg : training_graph) (w wL : world)
  (ls : list float32) :
  for_range 30 (discriminator_step tg) [] w = (Ok ls, wL) ->
  exists batch : feed_dict,
    train_iteration tg w =
    (Ok tt,
     after (saver_save (tg_saver tg) SAVE_FILE)
       (after (sess_run_op (opt_gen tg) (Some batch))
          (after (emit (Ev_print_losses (f32_div (py_sum ls) (Num (INR (length ls))))
                          (gen_obj tg (w_vars wL) batch)))
             (after (sess_run_scalar (gen_obj tg) (Some batch))
                (after (Samples.sample_feed_dict (tg_samples tg)) wL))))).
Proof.
  intros Hloop.
  exists {| fed_images :=
              np_reshape (mnist_next_batch (w_cursor wL) (Samples.batch_size (tg_samples tg)))
                         [Samples.batch_size (tg_samples tg); 28; 28; 1];
            fed_noise :=
              np_random_normal (w_rng wL)
                [Samples.batch_size (tg_samples tg); Samples.noise_size (tg_samples tg)] |}.
  unfold train_iteration. unfold bind at 1. rewrite Hloop. reflexivity.
Qed.

(** X13. When a pass of the [while] loop ends, every element of every
    discriminator parameter is NaN or lies in [-0.01, 0.01], in the session
    and in the index and data files that the pass wrote.  The pass writes the
    four files of the checkpoint and changes no other file; in particular it
    writes no file named [gan.ckpt]. *)
Theorem train_iteration_end_state `{Engine} (w0 w1 : world) (tg : training_graph) (w : world) :
  build_training_graph w0 = (Ok tg, w1) ->
  let gan := tg_gan tg in
  let w' := after (train_iteration tg) w in
  discriminator_clipped gan (w_vars w') /\
  (exists (entries : list (var_id * list nat)) (values : list (var_id * list float32)),
     w_files w' (index_file SAVE_FILE) = Some (File_index entries) /\
     w_files w' (data_file SAVE_FILE) = Some (File_data values) /\
     Forall (fun x => exists t : tensor,
                        stored_tensor entries values x = Some t /\
                        Forall clipped_or_nan (data t))
            (GAN.discriminator_vars gan)) /\
  (exists variables : list initializer,
     w_files w' (meta_file SAVE_FILE) = Some (File_meta variables)) /\
  w_files w' checkpoint_state_file = Some (File_checkpoint_state SAVE_FILE) /\
  (forall p : string, ~ In p (checkpoint_files SAVE_FILE) -> w_files w' p = w_files w p) /\
  w_files w' SAVE_FILE = w_files w SAVE_FILE.
Proof.
  intros Hbuild. apply build_training_graph_inv in Hbuild. subst tg. cbv zeta.
  rewrite training_graph_of_gan.
  destruct (for_range_discriminator_state (w_graph w0) 30 [] w)
    as (ls & wL & Hloop & _ & Hclip & Hout & Hf).
  destruct (train_iteration_result (training_graph_of (w_graph w0)) w wL ls Hloop)
    as [batch Hiter].
  set (w3 := after (sess_run_op (opt_gen (training_graph_of (w_graph w0))) (Some batch))
               (after (emit (Ev_print_losses (f32_div (py_sum ls) (Num (INR (length ls))))
                               (gen_obj (training_graph_of (w_graph w0)) (w_vars wL) batch)))
                  (after (sess_run_scalar (gen_obj (training_graph_of (w_graph w0))) (Some batch))
                     (after (Samples.sample_feed_dict
                               (tg_samples (training_graph_of (w_graph w0)))) wL)))) in *.
  assert (Hafter : after (train_iteration (training_graph_of (w_graph w0))) w =
                   after (saver_save (tg_saver (training_graph_of (w_graph w0))) SAVE_FILE) w3)
    by (unfold after at 1; rewrite Hiter; reflexivity).
  rewrite Hafter.
  destruct (saver_save_persists (tg_saver (training_graph_of (w_graph w0))) w3)
    as (Hvars & Hindex & Hdata & Hmeta & Hstate & Hother).
  assert (Hgen : forall x, ~ In x (GAN.generator_vars (new_GAN 100 (w_graph w0))) ->
                           w_vars w3 x = w_vars wL x).
  { intros x Hx. unfold w3.
    rewrite training_graph_of_opt_gen.
    rewrite minimize_frame by exact Hx. reflexivity. }
  assert (Hdisc : forall x, In x (GAN.discriminator_vars (new_GAN 100 (w_graph w0))) ->
                            w_vars w3 x = w_vars wL x).
  { intros x Hx. apply Hgen. intros Hg.
    exact (generator_discriminator_disjoint 100 (w_graph w0) x Hg Hx). }
  assert (Hclipped : Forall (fun x => Forall clipped_or_nan (data (w_vars w3 x)))
                            (GAN.discriminator_vars (new_GAN 100 (w_graph w0)))).
  { specialize (Hclip ltac:(lia)). unfold discriminator_clipped in Hclip.
    rewrite Forall_forall in *. intros x Hx. rewrite (Hdisc x Hx). exact (Hclip x Hx). }
  assert (Hfiles3 : w_files w3 = w_files w).
  { unfold w3. rewrite sess_run_op_files. cbn [after emit snd w_files].
    destruct (sess_run_scalar_frame (gen_obj (training_graph_of (w_graph w0))) (Some batch)
                (after (Samples.sample_feed_dict
                          (tg_samples (training_graph_of (w_graph w0)))) wL))
      as (_ & Hfs & _).
    destruct (sample_feed_dict_frame (tg_samples (training_graph_of (w_graph w0))) wL)
      as (_ & Hfb & _).
    rewrite Hfs, Hfb, Hf. reflexivity. }
  split; [| split; [| split; [| split; [| split]]]].
  - unfold discriminator_clipped. rewrite Hvars. exact Hclipped.
  - eexists. eexists. split; [exact Hindex |]. split; [exact Hdata |].
    rewrite Forall_forall in *. intros x Hx.
    exists (w_vars w3 x). split; [| exact (Hclipped x Hx)].
    rewrite Hvars. apply stored_tensor_saved.
    apply training_saver_covers_GAN. apply in_or_app. right. exact Hx.
  - eexists. exact Hmeta.
  - exact Hstate.
  - intros p Hp. rewrite (Hother p Hp), Hfiles3. reflexivity.
  - rewrite (Hother SAVE_FILE (proj1 checkpoint_paths_distinct)), Hfiles3. reflexivity.
Qed.

(** The statement of X13 for the first iteration of the sample process. *)
Lemma train_iteration_end_state_witness :
  exists (tg : training_graph) (w1 : @world sample_engine),
    build_training_graph sample_world = (Ok tg, w1) /\
    discriminator_clipped (tg_gan tg) (w_vars (after (train_iteration tg) w1)) /\
    w_files (after (train_iteration tg) w1) checkpoint_state_file =
      Some (File_checkpoint_state SAVE_FILE).
Proof.
  destruct (@build_training_graph_result sample_engine sample_world) as (w1 & Hbuild & _).
  exists (@training_graph_of sample_engine (w_graph sample_world)), w1.
  split; [exact Hbuild |].
  pose proof (@train_iteration_end_state sample_engine sample_world w1 _ w1 Hbuild) as Hend.
  cbv zeta in Hend. destruct Hend as (Hclip & _ & _ & Hstate & _).
  split; [exact Hclip | exact Hstate].
Defined.

Lemma INR_30 : INR 30 = 30%R.
Proof. rewrite INR_IZR_INZ. reflexivity. Qed.

(** X14. The line that a pass of the [while] loop prints reports the mean of
    the thirty losses that the discriminator phase of this pass returned, and
    the generator objective evaluated on the state that the discriminator
    phase left (before the generator step), on the very batch that the
    generator step then uses. *)
Theorem train_iteration_printed_losses `{Engine} (tg : training_graph) (w : world) :
  exists (ls : list float32) (batch : feed_dict) (wL : world),
    for_range 30 (discriminator_step tg) [] w = (Ok ls, wL) /\
    length ls = 30 /\
    In (Ev_print_losses (f32_div (py_sum ls) (Num 30)) (gen_obj tg (w_vars wL) batch))
       (emitted (train_iteration tg) w) /\
    In (Ev_run_op (opt_gen tg) (Some batch)) (emitted (train_iteration tg) w).
Proof.
  destruct (runs_for_range_discriminator_step tg 30 [] w)
    as (batches & ls & wL & _ & Hlen & Hloop & Htrace).
  cbn [app] in Hloop.
  destruct (train_iteration_result tg w wL ls Hloop) as [batch Hiter].
  exists ls, batch, wL. split; [exact Hloop |]. split; [exact Hlen |].
  assert (Hemitted : emitted (train_iteration tg) w =
            flat_map (discriminator_events tg) batches ++
            [Ev_next_batch (Samples.batch_size (tg_samples tg));
             Ev_run_scalar (gen_obj tg) (Some batch);
             Ev_print_losses (f32_div (py_sum ls) (Num 30)) (gen_obj tg (w_vars wL) batch);
             Ev_run_op (opt_gen tg) (Some batch);
             Ev_save SAVE_FILE]).
  { unfold emitted, after at 1. rewrite Hiter. cbn [snd].
    match goal with
    | |- context [after (saver_save ?sv ?p) ?w3] =>
        destruct (runs_saver_save sv p w3) as [_ Hsave]; rewrite Hsave
    end.
    match goal with
    | |- context [after (sess_run_op ?o ?fd) ?w2] =>
        destruct (runs_sess_run_op o fd w2) as [_ Hop]; rewrite Hop
    end.
    cbn [after emit sess_run_scalar Samples.sample_feed_dict bind snd w_trace].
    rewrite Htrace, Hlen, INR_30. rewrite <- !app_assoc. cbn [app].
    rewrite skipn_app, skipn_all, Nat.sub_diag. reflexivity. }
  rewrite Hemitted. split; apply in_or_app; right; cbn; auto.
Qed.

(** ** [main] with a known subcommand *)

Lemma main_dispatch `{Engine} (fuel : nat) (prog : string) (rest : list string) (w : world) :
  main fuel (prog :: "create"%string :: rest) w = create w /\
  main fuel (prog :: "train"%string :: rest) w = train fuel w /\
  main fuel (prog :: "generate"%string :: rest) w = generate w.
Proof. repeat split. Qed.

(** X16. Exit status of the program for the three subcommands, whatever the
    program name and whatever follows the subcommand on the command line:
    [create] ends with status 0; [generate] ends with status 0 when the
    checkpoint is usable (index and data file holding the twenty-six
    variables in their declared shapes, each with as many elements as its
    shape says) and with status 1 otherwise; [train] ends with status 1
    without a usable checkpoint and otherwise does not end. *)
Theorem main_exit_status `{Engine}
  (fuel : nat) (prog : string) (rest : list string) (w : world) :
  fresh_process w ->
  exit_status (fst (main fuel (prog :: "create"%string :: rest) w)) = Some 0 /\
  exit_status (fst (main fuel (prog :: "generate"%string :: rest) w)) =
    Some (if checkpoint_usable (w_files w) then 0 else 1) /\
  exit_status (fst (main fuel (prog :: "train"%string :: rest) w)) =
    (if checkpoint_usable (w_files w) then None else Some 1).
Proof.
  intros Hfresh.
  destruct (main_dispatch fuel prog rest w) as (Hcreate & Htrain & Hgenerate).
  rewrite Hcreate, Htrain, Hgenerate.
  destruct (create_result w Hfresh) as (Hok & _).
  rewrite Hok. split; [reflexivity |].
  destruct (checkpoint_usable (w_files w)) eqn:Husable.
  - destruct (generate_result w Hfresh Husable) as (Hgen & _).
    destruct (train_loop_entry w Hfresh Husable) as (w3 & entries & values & Hloop & _).
    rewrite Hgen, (Hloop fuel).
    rewrite (proj1 (while_true_train_iterations _ fuel w3)).
    split; reflexivity.
  - rewrite (generate_fails w Hfresh Husable), (train_fails fuel w Hfresh Husable).
    split; reflexivity.
Qed.

Lemma mismatched_world_unusable : checkpoint_usable (w_files mismatched_world) = false.
Proof. reflexivity. Qed.

(** The statement of X16 for the sample process beside the files of
    [create], where [generate] ends with status 0, and beside a checkpoint
    that holds the twenty-six variables in the shape [1], where [generate]
    and [train] end with status 1. *)
Lemma main_exit_status_witness :
  fresh_process sample_world_after_create /\
  fresh_process mismatched_world /\
  exit_status (fst (@main sample_engine 1 ["mnist_gan"; "generate"; "now"]%string
                      sample_world_after_create)) = Some 0 /\
  exit_status (fst (@main sample_engine 1 ["mnist_gan"; "generate"; "now"]%string
                      mismatched_world)) = Some 1 /\
  exit_status (fst (@main sample_engine 1 ["mnist_gan"; "train"; "now"]%string
                      mismatched_world)) = Some 1.
Proof.
  assert (Hfresh : fresh_process sample_world_after_create) by reflexivity.
  assert (Hfresh1 : fresh_process mismatched_world) by reflexivity.
  pose proof (proj2 sample_world_after_create_files) as Husable.
  pose proof (@main_exit_status sample_engine 1 "mnist_gan" ["now"%string]
                sample_world_after_create Hfresh) as (_ & Hgen & _).
  rewrite Husable in Hgen.
  pose proof (@main_exit_status sample_engine 1 "mnist_gan" ["now"%string]
                mismatched_world Hfresh1) as (_ & Hgen1 & Htrain1).
  rewrite mismatched_world_unusable in Hgen1, Htrain1.
  split; [exact Hfresh |]. split; [exact Hfresh1 |]. split; [exact Hgen |].
  split; [exact Hgen1 | exact Htrain1].
Defined.

(** ** Counting over the passes of the loop *)

Lemma count_flat_map {A : Type} (p : event -> bool) (f : A -> list event) (c : nat)
  (l : list A) :
  (forall a, length (filter p (f a)) = c) ->
  length (filter p (flat_map f l)) = c * length l.
Proof.
  intros Hc. induction l as [| a l IH]; cbn [flat_map length]; [cbn; lia |].
  rewrite filter_app, length_app, Hc, IH. lia.
Qed.

(** In every pass: one save, one printed line, one generator step and thirty
    discriminator steps. *)
Lemma train_iteration_counts `{Engine} (tg : training_graph) (w : world) :
  distinct_steps tg ->
  let tr := emitted (train_iteration tg) w in
  length (filter is_save tr) = 1 /\
  length (filter is_print_losses tr) = 1 /\
  length (filter (is_step_of (opt_gen tg)) tr) = 1 /\
  length (filter (is_step_of (opt_disc tg)) tr) = 30.
Proof.
  intros Hsteps. cbv zeta.
  destruct (runs_train_iteration tg w)
    as (batches & batch & dl & gl & w' & Hlen & Hruns & _).
  rewrite (emitted_runs _ _ _ _ _ Hruns).
  split; [| split; [| split]].
  - unfold discriminator_events.
    rewrite (count_in_tail feed_dict
               (fun _ => Ev_next_batch (Samples.batch_size (tg_samples tg)))
               (fun b => Ev_run_scalar (disc_obj tg) (Some b))
               (fun b => Ev_run_op (opt_disc tg) (Some b))
               (fun _ => Ev_run_op (clip_disc tg) None)
               (generator_events tg batch dl gl) is_save batches
               (fun b => conj eq_refl (conj eq_refl (conj eq_refl eq_refl)))).
    reflexivity.
  - unfold discriminator_events.
    rewrite (count_in_tail feed_dict
               (fun _ => Ev_next_batch (Samples.batch_size (tg_samples tg)))
               (fun b => Ev_run_scalar (disc_obj tg) (Some b))
               (fun b => Ev_run_op (opt_disc tg) (Some b))
               (fun _ => Ev_run_op (clip_disc tg) None)
               (generator_events tg batch dl gl) is_print_losses batches
               (fun b => conj eq_refl (conj eq_refl (conj eq_refl eq_refl)))).
    reflexivity.
  - apply (iteration_gen_steps_count tg Hsteps).
  - rewrite (iteration_disc_steps_count tg Hsteps). exact Hlen.
Qed.

Lemma iteration_starts_length `{Engine} (tg : training_graph) (fuel : nat) :
  forall w : world, length (iteration_starts tg fuel w) = fuel.
Proof.
  induction fuel as [| fuel IH]; intros w; cbn [iteration_starts length]; [reflexivity |].
  rewrite IH. reflexivity.
Qed.

(** X17. With a usable checkpoint, after any number [n] of passes of the
    loop [train] has saved the checkpoint [n] times, printed [n] lines of
    losses, made [n] generator steps and [30 * n] discriminator steps. *)
Theorem train_counts_per_pass `{Engine} (fuel : nat) (w : world) :
  fresh_process w ->
  checkpoint_usable (w_files w) = true ->
  let tg := training_graph_of (w_graph w) in
  let tr := emitted (train fuel) w in
  length (filter is_save tr) = fuel /\
  length (filter is_print_losses tr) = fuel /\
  length (filter (is_step_of (opt_gen tg)) tr) = fuel /\
  length (filter (is_step_of (opt_disc tg)) tr) = 30 * fuel.
Proof.
  intros Hfresh Husable. cbv zeta.
  destruct (train_loop_entry w Hfresh Husable)
    as (w3 & entries & values & Htrain & _ & _ & _ & _ & init & Hinit & Htrace3).
  set (tg := training_graph_of (w_graph w)) in *.
  pose proof (training_graph_of_distinct_steps (w_graph w)) as Hsteps. fold tg in Hsteps.
  destruct (while_true_train_iterations tg fuel w3) as [_ Hloop].
  assert (Hemitted : emitted (train fuel) w =
            [Ev_read_data_sets "MNIST_data"; Ev_run_op init None; Ev_restore SAVE_FILE] ++
            flat_map (emitted (train_iteration tg)) (iteration_starts tg fuel w3)).
  { unfold emitted, after at 1. rewrite (Htrain fuel).
    fold (after (while_true fuel (train_iteration tg)) w3).
    rewrite Hloop, Htrace3, <- app_assoc.
    rewrite skipn_app, skipn_all, Nat.sub_diag. reflexivity. }
  rewrite Hemitted.
  assert (Hnostep : forall o, is_step_of o (Ev_run_op init None) = false).
  { intros o. destruct init; try discriminate Hinit; reflexivity. }
  pose proof (fun p c Hc => count_flat_map p (emitted (train_iteration tg)) c
                              (iteration_starts tg fuel w3) Hc) as Hcount.
  rewrite !filter_app, !length_app.
  rewrite (Hcount is_save 1), (Hcount is_print_losses 1),
          (Hcount (is_step_of (opt_gen tg)) 1), (Hcount (is_step_of (opt_disc tg)) 30);
    try (intros a; apply (train_iteration_counts tg a Hsteps)).
  rewrite iteration_starts_length.
  assert (Hpre : forall o,
            filter (is_step_of o)
              [Ev_read_data_sets "MNIST_data"; Ev_run_op init None; Ev_restore SAVE_FILE] = []).
  { intros o. unfold filter. rewrite Hnostep. reflexivity. }
  rewrite !Hpre. cbn [filter is_save is_print_losses length].
  split; [lia |]. split; [lia |]. split; lia.
Qed.

(** The statement of X17 for the sample process beside the files of
    [create]. *)
Lemma train_counts_per_pass_witness :
  fresh_process sample_world_after_create /\
  checkpoint_usable (w_files sample_world_after_create) = true /\
  length (filter is_save (emitted (@train sample_engine 3) sample_world_after_create)) = 3.
Proof.
  assert (Hfresh : fresh_process sample_world_after_create) by reflexivity.
  pose proof (proj2 sample_world_after_create_files) as Husable.
  split; [exact Hfresh |]. split; [exact Husable |].
  exact (proj1 (@train_counts_per_pass sample_engine 3 _ Hfresh Husable)).
Defined.
